(** * Speedcubicle backend: order fulfilment and inventory

    A shallow embedding of the Express application (the server file, in its
    last revision, and the checkout-session endpoint of the revision before
    it) and of the standalone serverless handler [api/webhook.js].

    Conventions of the embedding.
    - The Postgres tables [products] and [orders] are lists of rows; a query
      is a function on the tables.  No uniqueness of [id] is assumed:
      [SELECT ... WHERE id=$1] filters, [rows[0]] is the first match and
      [UPDATE ... WHERE id=$2] rewrites every match.
    - Ids, quantities and stock are integers ([Z]); an element of an
      [items] array always has an integer [id] and [quantity].  Prices and
      totals are rationals ([Q]) in the embedding of all the handlers, where
      the statements are about stock, rows, calls and answers.  The
      handlers that write a total are embedded a second time over an
      arbitrary arithmetic ([Numeric]), which at [binary64] is that of
      JavaScript and at [exact] is the first embedding
      ([numeric_serve_agrees]).
    - [JSON.stringify] and [JSON.parse] on item arrays belong to the
      platform and are a parameter of the handlers ([JsonCodec]); a thrown
      [SyntaxError] is the answer [None].
    - What the payment gateway answers to a call ([constructEvent],
      [paymentIntents.create], [checkout.sessions.create]) is supplied with
      the request, as [inl message] for a thrown error and [inr value] for a
      result.
    - Every call that leaves the process (a query, a gateway call, a mail)
      is appended to [calls], so that "no storage access" can be stated.
    - Database queries are assumed to answer (no connection failure). *)

From Stdlib Require Import ZArith QArith Qround List String Ascii Bool Lia.
From Stdlib Require Import DecimalString DecimalZ DecimalPos SpecFloat.
Import ListNotations.

Local Open Scope string_scope.
Local Open Scope list_scope.
Local Open Scope Z_scope.

(** ** Data model *)

(** An element of an [items] array: [id] and [quantity], and the optional
    [name] and [price] a client may put in a request body. *)
Record Item := mkItem {
  item_id : Z;
  item_quantity : Z;
  item_name : option string;
  item_price : option Q
}.

(** A row of table [products] (the columns the handlers read). *)
Record Product := mkProduct {
  p_id : Z;
  p_price : Q;
  p_stock : Z
}.

(** A row of table [orders]. *)
Record Order := mkOrder {
  o_id : Z;
  o_email : option string;
  o_products : string;
  o_total : Q;
  o_status : string
}.

Record DB := mkDB {
  products : list Product;
  orders : list Order;
  orders_id_seq : Z
}.

(** [session.metadata] and the checkout session carried by an event. *)
Record Metadata := mkMetadata { md_items : option string }.

Record Session := mkSession {
  customer_email : option string;
  metadata : option Metadata
}.

Record Event := mkEvent {
  ev_id : string;
  ev_type : string;
  ev_data_object : Session
}.

(** One entry of [line_items] and the argument of
    [stripe.checkout.sessions.create]. *)
Record LineItem := mkLineItem {
  li_currency : string;
  li_name : string;
  li_unit_amount : Z;
  li_quantity : Z
}.

Record SessionParams := mkSessionParams {
  sp_payment_method_types : list string;
  sp_line_items : list LineItem;
  sp_mode : string;
  sp_customer_email : option string;
  sp_success_url : string;
  sp_cancel_url : string;
  sp_metadata_items : option string
}.

(** What [sendConfirmationEmail] is given as [orderDetails]. *)
Inductive OrderDetails :=
| DetailsRow (o : Order)
| DetailsItems (items : list Item) (total : Q).

(** Calls that leave the process, in the order they are made. *)
Inductive Call :=
| PgSelectProduct (id : Z)
| PgUpdateStock (quantity id : Z)
| PgInsertOrder (email : option string) (products : string) (total : Q)
                (status : string)
| PgSelectLatestOrder (email : string)
| StripeConstructEvent
| StripePaymentIntent (amount : Z) (payment_method : string)
| StripeCheckoutSession (params : SessionParams)
| SendMail (to : option string) (details : OrderDetails).

Record World := mkWorld {
  db : DB;
  calls : list Call
}.

(** HTTP responses. *)
Inductive Body :=
| BodyEmpty
| BodyText (s : string)
| BodyError (message : string)
| BodyReceived
| BodyOrder (o : Order)
| BodyUrl (url : string).

Record Response := mkResponse {
  status : Z;
  body : Body
}.

(** What a handler run ends in: a response, or an exception nobody
    catches. *)
Inductive Outcome :=
| Responded (r : Response)
| Unhandled (message : string).

(** The platform's JSON functions on item arrays. *)
Record JsonCodec := mkJsonCodec {
  JSON_stringify : list Item -> string;
  JSON_parse : string -> option (list Item)
}.

(** ** JavaScript helpers *)

(** Truthiness of a value that is a string, [null] or [undefined]. *)
Definition truthy_string (s : option string) : bool :=
  match s with
  | Some s => negb (s =? "")%string
  | None => false
  end.

(** [x || d] on an optional number. *)
Definition number_or (x : option Q) (d : Q) : Q :=
  match x with
  | Some q => if Qeq_bool q 0 then d else q
  | None => d
  end.

(** [x || d] on an optional string. *)
Definition string_or (x : option string) (d : string) : string :=
  if truthy_string x then match x with Some s => s | None => d end else d.

(** [Math.round]: the nearest integer, halves towards positive infinity. *)
Definition Math_round (x : Q) : Z := Qfloor (x + (1 # 2)).

(** A number inside a template string. *)
Definition show_Z (z : Z) : string := NilZero.string_of_int (Z.to_int z).

(** ** State passing *)

Definition M (A : Type) : Type := World -> A * World.

Definition ret {A} (a : A) : M A := fun w => (a, w).

Definition bind {A B} (m : M A) (k : A -> M B) : M B :=
  fun w => let (a, w') := m w in k a w'.

Notation "x <- m ;; k" := (bind m (fun x => k))
  (at level 61, m at next level, right associativity).
Notation "m ;;; k" := (bind m (fun _ => k))
  (at level 61, right associativity).

Definition record (c : Call) : M unit :=
  fun w => (tt, mkWorld (db w) (calls w ++ [c])).

Definition modify_db (f : DB -> DB) : M unit :=
  fun w => (tt, mkWorld (f (db w)) (calls w)).

Definition read_db {A} (f : DB -> A) : M A :=
  fun w => (f (db w), w).

(** ** The queries the handlers send *)

(** [SELECT price, stock FROM products WHERE id=$1] *)
Definition select_product (id : Z) (ps : list Product) : list Product :=
  filter (fun p => p_id p =? id) ps.

(** [UPDATE products SET stock = stock - $1 WHERE id=$2] *)
Definition update_stock (quantity id : Z) (ps : list Product) : list Product :=
  map (fun p => if p_id p =? id
                then mkProduct (p_id p) (p_price p) (p_stock p - quantity)
                else p) ps.

(** [ORDER BY id DESC LIMIT 1]: the row of greatest [id], if any. *)
Fixpoint greatest_id (best : option Order) (rows : list Order) : option Order :=
  match rows with
  | [] => best
  | o :: rest =>
      match best with
      | Some b => greatest_id (if o_id b <? o_id o then Some o else Some b) rest
      | None => greatest_id (Some o) rest
      end
  end.

(** [SELECT products FROM orders WHERE email=$1 ORDER BY id DESC LIMIT 1] *)
Definition select_latest_products (email : string) (os : list Order)
  : list string :=
  match greatest_id None
          (filter (fun o => match o_email o with
                            | Some e => (e =? email)%string
                            | None => false
                            end) os) with
  | Some o => [o_products o]
  | None => []
  end.

(** [INSERT INTO orders(email, products, total, status) VALUES(...)]: the
    new row takes the next value of the [id] sequence. *)
Definition insert_order (email : option string) (prods : string) (total : Q)
    (st : string) (d : DB) : Order * DB :=
  let o := mkOrder (orders_id_seq d) email prods total st in
  (o, mkDB (products d) (orders d ++ [o]) (orders_id_seq d + 1)).

Definition pg_select_product (id : Z) : M (list Product) :=
  record (PgSelectProduct id) ;;;
  read_db (fun d => select_product id (products d)).

Definition pg_update_stock (quantity id : Z) : M unit :=
  record (PgUpdateStock quantity id) ;;;
  modify_db (fun d => mkDB (update_stock quantity id (products d))
                           (orders d) (orders_id_seq d)).

Definition pg_select_latest_order (email : string) : M (list string) :=
  record (PgSelectLatestOrder email) ;;;
  read_db (fun d => select_latest_products email (orders d)).

Definition pg_insert_order (email : option string) (prods : string)
    (total : Q) (st : string) : M Order :=
  record (PgInsertOrder email prods total st) ;;;
  fun w => let (o, d) := insert_order email prods total st (db w) in
           (o, mkWorld d (calls w)).

(** [sendConfirmationEmail]: fire and forget, its own errors are caught. *)
Definition sendConfirmationEmail (to : option string) (details : OrderDetails)
  : M unit :=
  record (SendMail to details).

(** ** Request bodies *)

(** Body of [POST /api/orders]. *)
Record OrderRequest := mkOrderRequest {
  rq_email : option string;
  rq_items : option (list Item);
  rq_paymentMethodId : option string
}.

(** Body of [POST /api/create-checkout-session]. *)
Record CheckoutRequest := mkCheckoutRequest {
  cr_email : option string;
  cr_items : option (list Item)
}.

Definition reply (code : Z) (b : Body) : M Outcome :=
  ret (Responded (mkResponse code b)).

(** [err.message] of the [TypeError] raised by [items.map] when [items] is
    [undefined]. *)
Definition undefined_map_message : string :=
  "Cannot read properties of undefined (reading 'map')".

Section Handlers.

Variable J : JsonCodec.
Variable FRONTEND_URL : string.

(** *** The webhook of the server file *)

(** [let items = []; try { if (session.metadata?.items) items =
    JSON.parse(session.metadata.items) } catch (e) { ... }] *)
Definition metadata_items (session : Session) : list Item :=
  match metadata session with
  | Some md =>
      match md_items md with
      | Some s =>
          if truthy_string (Some s)
          then match JSON_parse J s with
               | Some parsed => parsed
               | None => []
               end
          else []
      | None => []
      end
  | None => []
  end.

(** [if (!items.length && email) { try { ... } catch (e) { ... } }]: the
    item list of the latest order stored for the same email. *)
Definition fallback_items (items : list Item) (email : option string)
  : M (list Item) :=
  match email with
  | Some e =>
      if (List.length items =? 0)%nat && truthy_string (Some e)
      then rows <- pg_select_latest_order e ;;
           match rows with
           | stored :: _ =>
               match JSON_parse J stored with
               | Some parsed => ret parsed
               | None => ret items
               end
           | [] => ret items
           end
      else ret items
  | None => ret items
  end.

(** [let total = 0; for (const item of items) { ... }] of the webhook: a
    product that is not found is skipped, every other one is charged to the
    total and its stock is decremented. *)
Fixpoint webhook_stock_loop (items : list Item) (total : Q) : M Q :=
  match items with
  | [] => ret total
  | item :: rest =>
      rows <- pg_select_product (item_id item) ;;
      match rows with
      | [] => webhook_stock_loop rest total
      | row :: _ =>
          pg_update_stock (item_quantity item) (item_id item) ;;;
          webhook_stock_loop rest
            (total + p_price row * inject_Z (item_quantity item))%Q
      end
  end.

(** Body of [if (event.type === 'checkout.session.completed') { ... }]. *)
Definition webhook_checkout_completed (session : Session) : M unit :=
  let email := customer_email session in
  items <- fallback_items (metadata_items session) email ;;
  total <- webhook_stock_loop items 0%Q ;;
  pg_insert_order email (JSON_stringify J items) total "paid" ;;;
  sendConfirmationEmail email (DetailsItems items total).

(** [app.post('/webhook', express.raw(...), async (req, res) => ...)];
    [verified] is what [stripe.webhooks.constructEvent] does on the raw body
    and the signature header. *)
Definition post_webhook (verified : string + Event) : M Outcome :=
  record StripeConstructEvent ;;;
  match verified with
  | inl message => reply 400 (BodyText ("Webhook Error: " ++ message)%string)
  | inr event =>
      (if (ev_type event =? "checkout.session.completed")%string
       then webhook_checkout_completed (ev_data_object event)
       else ret tt) ;;;
      reply 200 BodyReceived
  end.

(** *** Direct orders *)

(** First loop of [POST /api/orders]: [inl] is the early [return
    res.status(400)...], [inr] the total when every item passed. *)
Fixpoint orders_check_loop (items : list Item) (total : Q)
  : M (Response + Q) :=
  match items with
  | [] => ret (inr total)
  | item :: rest =>
      rows <- pg_select_product (item_id item) ;;
      match rows with
      | [] =>
          ret (inl (mkResponse 400
                 (BodyError ("Product " ++ show_Z (item_id item)
                             ++ " not found")%string)))
      | row :: _ =>
          if p_stock row <? item_quantity item
          then ret (inl (mkResponse 400
                      (BodyError ("Insufficient stock for product "
                                  ++ show_Z (item_id item))%string)))
          else orders_check_loop rest
                 (total + p_price row * inject_Z (item_quantity item))%Q
      end
  end.

(** Second loop of [POST /api/orders]. *)
Fixpoint orders_update_loop (items : list Item) : M unit :=
  match items with
  | [] => ret tt
  | item :: rest =>
      pg_update_stock (item_quantity item) (item_id item) ;;;
      orders_update_loop rest
  end.

(** [app.post('/api/orders', async (req, res) => ...)]; [charge] is what
    [stripe.paymentIntents.create] does. *)
Definition post_api_orders (rq : OrderRequest) (charge : string + unit)
  : M Outcome :=
  match rq_items rq, rq_paymentMethodId rq with
  | Some items, Some pm =>
      if negb (truthy_string (rq_email rq))
         || (List.length items =? 0)%nat
         || negb (truthy_string (Some pm))
      then reply 400 (BodyError "Missing required fields")
      else
        checked <- orders_check_loop items 0%Q ;;
        match checked with
        | inl r => ret (Responded r)
        | inr total =>
            record (StripePaymentIntent (Math_round (total * 100)) pm) ;;;
            match charge with
            | inl _ => reply 500 (BodyError "Error processing order")
            | inr _ =>
                orders_update_loop items ;;;
                o <- pg_insert_order (rq_email rq) (JSON_stringify J items)
                       total "paid" ;;
                sendConfirmationEmail (rq_email rq) (DetailsRow o) ;;;
                reply 200 (BodyOrder o)
            end
        end
  | _, _ => reply 400 (BodyError "Missing required fields")
  end.

(** *** Checkout sessions *)

(** One element of [line_items]; [fallback_price] is the [0] (last
    revision) or [10] (the one before) of [(i.price || ...)]. *)
Definition line_item_of (fallback_price : Q) (i : Item) : LineItem :=
  mkLineItem "usd"
    (string_or (item_name i) ("Product " ++ show_Z (item_id i))%string)
    (Math_round (number_or (item_price i) fallback_price * 100))
    (item_quantity i).

(** [i => ({ id: i.id, quantity: i.quantity })] *)
Definition manifest_entry (i : Item) : Item :=
  mkItem (item_id i) (item_quantity i) None None.

Definition checkout_params (fallback_price : Q) (email : option string)
    (items : list Item) : SessionParams :=
  mkSessionParams ["card"] (map (line_item_of fallback_price) items)
    "payment" email (FRONTEND_URL ++ "/success")%string
    (FRONTEND_URL ++ "/cancel")%string
    (Some (JSON_stringify J (map manifest_entry items))).

(** [app.post('/api/create-checkout-session', ...)] of the last revision:
    the whole body is inside [try]; [created] is what
    [stripe.checkout.sessions.create] does ([inr] its [url]). *)
Definition post_api_create_checkout_session (rq : CheckoutRequest)
    (created : string + string) : M Outcome :=
  match cr_items rq with
  | None => reply 500 (BodyError undefined_map_message)
  | Some items =>
      record (StripeCheckoutSession (checkout_params 0 (cr_email rq) items)) ;;;
      match created with
      | inl message => reply 500 (BodyError message)
      | inr url => reply 200 (BodyUrl url)
      end
  end.

(** The same endpoint in the revision before: [items.map] is outside [try]
    and an absent price counts as [10]. *)
Definition post_api_create_checkout_session_prev (rq : CheckoutRequest)
    (created : string + string) : M Outcome :=
  match cr_items rq with
  | None => ret (Unhandled undefined_map_message)
  | Some items =>
      record (StripeCheckoutSession (checkout_params 10 (cr_email rq) items)) ;;;
      match created with
      | inl message => reply 500 (BodyError message)
      | inr url => reply 200 (BodyUrl url)
      end
  end.

(** *** [api/webhook.js] *)

(** [export default async function handler(req, res)]; [method] is
    [req.method]. *)
Definition handler (method : string) (verified : string + Event)
  : M Outcome :=
  if negb (method =? "POST")%string
  then reply 405 BodyEmpty
  else
    record StripeConstructEvent ;;;
    match verified with
    | inl message => reply 400 (BodyText ("Webhook Error: " ++ message)%string)
    | inr event =>
        (if (ev_type event =? "checkout.session.completed")%string
         then
           let session := ev_data_object event in
           let items := metadata_items session in
           total <- webhook_stock_loop items 0%Q ;;
           pg_insert_order (customer_email session) (JSON_stringify J items)
             total "paid" ;;;
           ret tt
         else ret tt) ;;;
        reply 200 BodyReceived
    end.

(** *** Requests in sequence *)

Inductive Request :=
| DirectOrder (rq : OrderRequest) (charge : string + unit)
| Webhook (verified : string + Event)
| ApiWebhook (method : string) (verified : string + Event)
| CreateCheckoutSession (rq : CheckoutRequest) (created : string + string)
| CreateCheckoutSessionPrev (rq : CheckoutRequest) (created : string + string).

Definition serve (r : Request) : M Outcome :=
  match r with
  | DirectOrder rq charge => post_api_orders rq charge
  | Webhook verified => post_webhook verified
  | ApiWebhook method verified => handler method verified
  | CreateCheckoutSession rq created =>
      post_api_create_checkout_session rq created
  | CreateCheckoutSessionPrev rq created =>
      post_api_create_checkout_session_prev rq created
  end.

(** The world after the requests were served one after the other. *)
Fixpoint serve_all (rs : list Request) (w : World) : World :=
  match rs with
  | [] => w
  | r :: rest => serve_all rest (snd (serve r w))
  end.

End Handlers.

(** ** Observations used by the statements *)

(** The stock a handler reads for a product: [rows[0].stock]. *)
Definition stock_of (d : DB) (id : Z) : option Z :=
  match select_product id (products d) with
  | row :: _ => Some (p_stock row)
  | [] => None
  end.

(** The price a handler reads for a product: [rows[0].price]. *)
Definition price_of (d : DB) (id : Z) : option Q :=
  match select_product id (products d) with
  | row :: _ => Some (p_price row)
  | [] => None
  end.

(** One turn of the handlers' total: [total += rows[0].price *
    item.quantity], nothing when the product has no row. *)
Definition add_line (d : DB) (total : Q) (item : Item) : Q :=
  match price_of d (item_id item) with
  | Some price => (total + price * inject_Z (item_quantity item))%Q
  | None => total
  end.

(** Sum of ledger price times quantity over the items, in the order and
    with the operations of the handlers' loops. *)
Definition ledger_total (d : DB) (items : list Item) : Q :=
  fold_left (add_line d) items 0%Q.

(** Total quantity the items ask of product [id]. *)
Definition demand (items : list Item) (id : Z) : Z :=
  fold_right (fun item acc =>
                if item_id item =? id then item_quantity item + acc else acc)
             0 items.

Definition stocks_nonnegative (d : DB) : Prop :=
  forall id s, stock_of d id = Some s -> 0 <= s.

(** The [{productId, quantity}] pair of an item. *)
Definition id_quantity (i : Item) : Z * Z := (item_id i, item_quantity i).

(** Queries on the two tables. *)
Definition is_storage_call (c : Call) : bool :=
  match c with
  | PgSelectProduct _ | PgUpdateStock _ _ | PgInsertOrder _ _ _ _
  | PgSelectLatestOrder _ => true
  | _ => false
  end.

(** [d'] is [d] after the stock of every product was decremented by what
    [items] ask of it; nothing else changed. *)
Definition decremented (items : list Item) (d d' : DB) : Prop :=
  orders d' = orders d /\
  orders_id_seq d' = orders_id_seq d /\
  (forall id, stock_of d' id
              = option_map (fun s => s - demand items id) (stock_of d id)) /\
  (forall id, price_of d' id = price_of d id).

(** The item list the webhook of the server file fulfils: the manifest of
    the session and, when that is empty and there is an email, the item list
    of the latest order stored for the email. *)
Definition candidate_items (J : JsonCodec) (session : Session) (d : DB)
  : list Item :=
  let items := metadata_items J session in
  match customer_email session with
  | Some e =>
      if (List.length items =? 0)%nat && truthy_string (Some e)
      then match select_latest_products e (orders d) with
           | stored :: _ =>
               match JSON_parse J stored with
               | Some parsed => parsed
               | None => items
               end
           | [] => items
           end
      else items
  | None => items
  end.

(** The row a handler inserts for [items], on tables [d]. *)
Definition order_row (J : JsonCodec) (email : option string)
    (items : list Item) (d : DB) : Order :=
  mkOrder (orders_id_seq d) email (JSON_stringify J items)
    (ledger_total d items) "paid".

(** Table [products] after one [UPDATE] per item, in order. *)
Definition decrement_all (items : list Item) (ps : list Product)
  : list Product :=
  fold_left (fun ps item =>
               update_stock (item_quantity item) (item_id item) ps) items ps.

(** The tables after [items] were fulfilled for [email]: stock decremented,
    one order row appended. *)
Definition fulfil (J : JsonCodec) (email : option string) (items : list Item)
    (d : DB) : DB :=
  mkDB (decrement_all items (products d))
       (orders d ++ [order_row J email items d])
       (orders_id_seq d + 1).

(** The law of the platform's JSON functions the statements rely on. *)
Definition json_roundtrip (J : JsonCodec) : Prop :=
  forall items, JSON_parse J (JSON_stringify J items) = Some items.

(** ** A reference JSON codec for item arrays

    A printer and a parser of the text [JSON.stringify] produces for an
    array of items, [[{"id":1,"quantity":2},...]], used to run the handlers
    on concrete requests.  Integers are written in decimal; a price that is
    not an integer is written as numerator [/] denominator. *)

Module RefJson.

Definition quote : ascii := "034"%char.
Definition backslash : ascii := "092"%char.

(** Printers take the text that follows as their last argument. *)
Fixpoint print_uint (d : Decimal.uint) (k : string) : string :=
  match d with
  | Decimal.Nil => k
  | Decimal.D0 d => String "0" (print_uint d k)
  | Decimal.D1 d => String "1" (print_uint d k)
  | Decimal.D2 d => String "2" (print_uint d k)
  | Decimal.D3 d => String "3" (print_uint d k)
  | Decimal.D4 d => String "4" (print_uint d k)
  | Decimal.D5 d => String "5" (print_uint d k)
  | Decimal.D6 d => String "6" (print_uint d k)
  | Decimal.D7 d => String "7" (print_uint d k)
  | Decimal.D8 d => String "8" (print_uint d k)
  | Decimal.D9 d => String "9" (print_uint d k)
  end.

Definition digit_of (c : ascii) : option (Decimal.uint -> Decimal.uint) :=
  (if c =? "0" then Some Decimal.D0 else
   if c =? "1" then Some Decimal.D1 else
   if c =? "2" then Some Decimal.D2 else
   if c =? "3" then Some Decimal.D3 else
   if c =? "4" then Some Decimal.D4 else
   if c =? "5" then Some Decimal.D5 else
   if c =? "6" then Some Decimal.D6 else
   if c =? "7" then Some Decimal.D7 else
   if c =? "8" then Some Decimal.D8 else
   if c =? "9" then Some Decimal.D9 else None)%char.

Fixpoint parse_uint (s : string) : Decimal.uint * string :=
  match s with
  | EmptyString => (Decimal.Nil, s)
  | String c rest =>
      match digit_of c with
      | Some digit => let (d, r) := parse_uint rest in (digit d, r)
      | None => (Decimal.Nil, s)
      end
  end.

Definition print_Z (z : Z) (k : string) : string :=
  match Z.to_int z with
  | Decimal.Pos d => print_uint d k
  | Decimal.Neg d => String "-" (print_uint d k)
  end.

Definition parse_Z (s : string) : Z * string :=
  match s with
  | String c rest =>
      if (c =? "-")%char
      then let (d, r) := parse_uint rest in (Z.of_int (Decimal.Neg d), r)
      else let (d, r) := parse_uint s in (Z.of_int (Decimal.Pos d), r)
  | EmptyString => (0, s)
  end.

Definition print_Q (q : Q) (k : string) : string :=
  print_Z (Qnum q)
    (if (Qden q =? 1)%positive then k
     else String "/" (print_uint (Pos.to_uint (Qden q)) k)).

Definition positive_of_uint (d : Decimal.uint) : positive :=
  match Pos.of_uint d with
  | Npos p => p
  | N0 => 1%positive
  end.

Definition parse_Q (s : string) : Q * string :=
  let (n, r) := parse_Z s in
  match r with
  | String c r' =>
      if (c =? "/")%char
      then let (d, r'') := parse_uint r' in (n # positive_of_uint d, r'')
      else (n # 1, r)
  | EmptyString => (n # 1, r)
  end.

(** The characters of a string literal, [quote] and [backslash] escaped,
    up to and including the closing quote. *)
Fixpoint print_chars (s : string) (k : string) : string :=
  match s with
  | EmptyString => String quote k
  | String c rest =>
      if ((c =? quote) || (c =? backslash))%char
      then String backslash (String c (print_chars rest k))
      else String c (print_chars rest k)
  end.

Fixpoint parse_chars (s : string) : option (string * string) :=
  match s with
  | EmptyString => None
  | String c rest =>
      if (c =? quote)%char then Some (EmptyString, rest)
      else if (c =? backslash)%char
      then match rest with
           | String c' rest' =>
               match parse_chars rest' with
               | Some (t, r) => Some (String c' t, r)
               | None => None
               end
           | EmptyString => None
           end
      else match parse_chars rest with
           | Some (t, r) => Some (String c t, r)
           | None => None
           end
  end.

(** [s] without the prefix [p], when it has it. *)
Fixpoint expect (p s : string) : option string :=
  match p, s with
  | EmptyString, _ => Some s
  | String a p', String b s' => if (a =? b)%char then expect p' s' else None
  | String _ _, EmptyString => None
  end.

(** The text ["name":] *)
Definition key (name : string) : string :=
  (String quote name ++ String quote ":")%string.

Definition print_item (i : Item) (k : string) : string :=
  ("{" ++ key "id" ++
   print_Z (item_id i)
     ("," ++ key "quantity" ++
      print_Z (item_quantity i)
        (match item_name i with
         | Some n => "," ++ key "name" ++ String quote (print_chars n
             (match item_price i with
              | Some q => "," ++ key "price" ++ print_Q q (String "}" k)
              | None => String "}" k
              end))
         | None =>
             match item_price i with
             | Some q => "," ++ key "price" ++ print_Q q (String "}" k)
             | None => String "}" k
             end
         end)))%string.

Definition parse_price_and_close (id quantity : Z) (name : option string)
    (s : string) : option (Item * string) :=
  match expect ("," ++ key "price")%string s with
  | Some s1 =>
      let (q, s2) := parse_Q s1 in
      match expect "}" s2 with
      | Some s3 => Some (mkItem id quantity name (Some q), s3)
      | None => None
      end
  | None =>
      match expect "}" s with
      | Some s3 => Some (mkItem id quantity name None, s3)
      | None => None
      end
  end.

Definition parse_item (s : string) : option (Item * string) :=
  match expect ("{" ++ key "id")%string s with
  | Some s1 =>
      let (id, s2) := parse_Z s1 in
      match expect ("," ++ key "quantity")%string s2 with
      | Some s3 =>
          let (quantity, s4) := parse_Z s3 in
          match expect ("," ++ key "name" ++ String quote "")%string s4 with
          | Some s5 =>
              match parse_chars s5 with
              | Some (n, s6) => parse_price_and_close id quantity (Some n) s6
              | None => None
              end
          | None => parse_price_and_close id quantity None s4
          end
      | None => None
      end
  | None => None
  end.

(** The items after the first, each written after a comma. *)
Fixpoint print_more (items : list Item) (k : string) : string :=
  match items with
  | [] => String "]" k
  | i :: rest => String "," (print_item i (print_more rest k))
  end.

Definition print_items (items : list Item) (k : string) : string :=
  match items with
  | [] => String "[" (String "]" k)
  | i :: rest => String "[" (print_item i (print_more rest k))
  end.

Fixpoint parse_more (fuel : nat) (s : string) : option (list Item * string) :=
  match fuel with
  | O => None
  | S fuel' =>
      match s with
      | String c rest =>
          if (c =? "]")%char then Some ([], rest)
          else if (c =? ",")%char
          then match parse_item rest with
               | Some (i, r) =>
                   match parse_more fuel' r with
                   | Some (items, r') => Some (i :: items, r')
                   | None => None
                   end
               | None => None
               end
          else None
      | EmptyString => None
      end
  end.

Definition parse_items (s : string) : option (list Item * string) :=
  match s with
  | String c rest =>
      if (c =? "[")%char
      then match rest with
           | String c' rest' =>
               if (c' =? "]")%char then Some ([], rest')
               else match parse_item rest with
                    | Some (i, r) =>
                        match parse_more (String.length r) r with
                        | Some (items, r') => Some (i :: items, r')
                        | None => None
                        end
                    | None => None
                    end
           | EmptyString => None
           end
      else None
  | EmptyString => None
  end.

Definition stringify (items : list Item) : string := print_items items "".

Definition parse (s : string) : option (list Item) :=
  match parse_items s with
  | Some (items, EmptyString) => Some items
  | _ => None
  end.

Definition codec : JsonCodec := mkJsonCodec stringify parse.

(** A text at which reading a number stops: it does not start with a digit
    or a sign. *)
Definition stops (k : string) : bool :=
  match k with
  | EmptyString => true
  | String c _ =>
      match digit_of c with
      | Some _ => false
      | None => negb (c =? "-")%char
      end
  end.

(** A text that closes a field: it starts with [,] or [}]. *)
Definition closes (k : string) : bool :=
  match k with
  | String c _ => ((c =? ",") || (c =? "}"))%char
  | EmptyString => false
  end.

End RefJson.

(** The arguments of the checkout sessions asked of the gateway. *)
Definition sessions_created (cs : list Call) : list SessionParams :=
  flat_map (fun c => match c with
                     | StripeCheckoutSession p => [p]
                     | _ => []
                     end) cs.

(** A request that is not a delivery of a completed checkout and, when it
    is a direct order, names pairwise different products. *)
Definition stock_checked (r : Request) : Prop :=
  match r with
  | DirectOrder rq _ =>
      match rq_items rq with
      | Some items => NoDup (map item_id items)
      | None => True
      end
  | Webhook (inr event) | ApiWebhook _ (inr event) =>
      ev_type event <> "checkout.session.completed"
  | _ => True
  end.

(** The manifest of a session is absent or cannot be parsed. *)
Definition manifest_unavailable (J : JsonCodec) (session : Session) : Prop :=
  match metadata session with
  | Some md =>
      match md_items md with
      | Some s => s = "" \/ JSON_parse J s = None
      | None => True
      end
  | None => True
  end.

(** ** A small shop, for the closed statements *)

Module Shop.

Definition frontend : string := "https://shop.example".

(** One product: id 1, price 20, five in stock; no order yet. *)
Definition open_shop : World :=
  mkWorld (mkDB [mkProduct 1 (20 # 1) 5] [] 1) [].

(** A completed checkout, event [evt_1], whose metadata holds the text of
    [items]. *)
Definition checkout_completed (items : list Item) : Event :=
  mkEvent "evt_1" "checkout.session.completed"
    (mkSession (Some "ann@example.com")
       (Some (mkMetadata (Some (RefJson.stringify items))))).

(** A completed checkout, event [evt_2], without metadata. *)
Definition checkout_without_manifest : Event :=
  mkEvent "evt_2" "checkout.session.completed"
    (mkSession (Some "ann@example.com") None).

Definition order_for (quantity : Z) : OrderRequest :=
  mkOrderRequest (Some "ann@example.com")
    (Some [mkItem 1 quantity None None]) (Some "pm_card_visa").

(** A checkout request for one product 1 in which the client states a
    price of one cent. *)
Definition bargain : CheckoutRequest :=
  mkCheckoutRequest (Some "ann@example.com")
    (Some [mkItem 1 1 None (Some (1 # 100))]).

End Shop.

(** ** Earlier revisions of the server file

    The server file holds four revisions of the application.  The
    direct-order handlers of the earlier revisions are embedded here.  The
    webhook of the third revision is the webhook of the last one
    ([items.length === 0] for [!items.length]).  The webhooks of revisions
    one and two are registered after [express.json()], so the body they
    hand to [constructEvent] is never the raw one; they are not
    embedded. *)

(** The [items] of the body of a direct order, as [express.json()] hands it
    to the handler: nothing or a falsy value ([undefined], [null], [false],
    [0], the empty string); an array of items; or another truthy value
    that cannot be iterated (an object, [true], a number other than 0),
    with the value of its [length] when that is a number.  A non-empty
    string, the one value left, is not covered. *)
Inductive ItemsField :=
| ItemsFalsy
| ItemsArray (items : list Item)
| ItemsOther (len : option Z).

Record OrderBody := mkOrderBody {
  ob_email : option string;
  ob_items : ItemsField;
  ob_paymentMethodId : option string
}.

(** [!items] *)
Definition items_falsy (f : ItemsField) : bool :=
  match f with
  | ItemsFalsy => true
  | _ => false
  end.

(** [items.length === 0], of a value that is not falsy. *)
Definition length_is_zero (f : ItemsField) : bool :=
  match f with
  | ItemsFalsy => false
  | ItemsArray items => (List.length items =? 0)%nat
  | ItemsOther (Some n) => n =? 0
  | ItemsOther None => false
  end.

(** [!items?.length] *)
Definition length_falsy (f : ItemsField) : bool :=
  match f with
  | ItemsFalsy => true
  | ItemsArray items => (List.length items =? 0)%nat
  | ItemsOther (Some n) => n =? 0
  | ItemsOther None => true
  end.

(** What [for (const item of items)] goes through; [None] is the
    [TypeError] of a value that is not iterable. *)
Definition iterated (f : ItemsField) : option (list Item) :=
  match f with
  | ItemsArray items => Some items
  | _ => None
  end.

(** The body of a direct order whose [items] is the array [items]. *)
Definition order_request (b : OrderBody) (items : list Item) : OrderRequest :=
  mkOrderRequest (ob_email b) (Some items) (ob_paymentMethodId b).

Section EarlierRevisions.

Variable J : JsonCodec.

(** First loop of [POST /api/orders] in revisions one, two and three: the
    text of the second error differs from the last revision's. *)
Fixpoint orders_check_loop_rev1 (items : list Item) (total : Q)
  : M (Response + Q) :=
  match items with
  | [] => ret (inr total)
  | item :: rest =>
      rows <- pg_select_product (item_id item) ;;
      match rows with
      | [] =>
          ret (inl (mkResponse 400
                 (BodyError ("Product " ++ show_Z (item_id item)
                             ++ " not found")%string)))
      | row :: _ =>
          if p_stock row <? item_quantity item
          then ret (inl (mkResponse 400
                      (BodyError ("Not enough stock for product "
                                  ++ show_Z (item_id item))%string)))
          else orders_check_loop_rev1 rest
                 (total + p_price row * inject_Z (item_quantity item))%Q
      end
  end.

(** [app.post('/api/orders', ...)] of revisions one and three. *)
Definition post_api_orders_rev1 (rq : OrderRequest) (charge : string + unit)
  : M Outcome :=
  match rq_items rq, rq_paymentMethodId rq with
  | Some items, Some pm =>
      if negb (truthy_string (rq_email rq))
         || (List.length items =? 0)%nat
         || negb (truthy_string (Some pm))
      then reply 400 (BodyError "Missing required fields")
      else
        checked <- orders_check_loop_rev1 items 0%Q ;;
        match checked with
        | inl r => ret (Responded r)
        | inr total =>
            record (StripePaymentIntent (Math_round (total * 100)) pm) ;;;
            match charge with
            | inl _ => reply 500 (BodyError "Server error processing order")
            | inr _ =>
                orders_update_loop items ;;;
                o <- pg_insert_order (rq_email rq) (JSON_stringify J items)
                       total "paid" ;;
                sendConfirmationEmail (rq_email rq) (DetailsRow o) ;;;
                reply 200 (BodyOrder o)
            end
        end
  | _, _ => reply 400 (BodyError "Missing required fields")
  end.

(** [app.post('/api/orders', ...)] of revision two.  The argument of
    [stripe.paymentIntents.create] reads [payment_method: pm_card_visa], an
    identifier the file never binds: evaluating it throws a
    [ReferenceError] inside [try], before the gateway is called, and the
    [catch] answers 500. *)
Definition post_api_orders_rev2 (rq : OrderRequest) : M Outcome :=
  match rq_items rq, rq_paymentMethodId rq with
  | Some items, Some pm =>
      if negb (truthy_string (rq_email rq))
         || (List.length items =? 0)%nat
         || negb (truthy_string (Some pm))
      then reply 400 (BodyError "Missing required fields")
      else
        checked <- orders_check_loop_rev1 items 0%Q ;;
        match checked with
        | inl r => ret (Responded r)
        | inr _ => reply 500 (BodyError "Server error processing order")
        end
  | _, _ => reply 400 (BodyError "Missing required fields")
  end.

(** [app.post('/api/orders', ...)] of the last revision on any body:
    [if (!email || !items?.length || !paymentMethodId)], then
    [try { ... for (const item of items) ... } catch (err) { ... }]. *)
Definition post_api_orders_on_body (b : OrderBody) (charge : string + unit)
  : M Outcome :=
  if negb (truthy_string (ob_email b))
     || length_falsy (ob_items b)
     || negb (truthy_string (ob_paymentMethodId b))
  then reply 400 (BodyError "Missing required fields")
  else
    match iterated (ob_items b) with
    | Some items => post_api_orders J (order_request b items) charge
    | None => reply 500 (BodyError "Error processing order")
    end.

(** [app.post('/api/orders', ...)] of revisions one and three on any body:
    [if (!email || !items || items.length === 0 || !paymentMethodId)]. *)
Definition post_api_orders_rev1_on_body (b : OrderBody)
    (charge : string + unit) : M Outcome :=
  if negb (truthy_string (ob_email b))
     || items_falsy (ob_items b)
     || length_is_zero (ob_items b)
     || negb (truthy_string (ob_paymentMethodId b))
  then reply 400 (BodyError "Missing required fields")
  else
    match iterated (ob_items b) with
    | Some items => post_api_orders_rev1 (order_request b items) charge
    | None => reply 500 (BodyError "Server error processing order")
    end.

End EarlierRevisions.

(** ** Call traces *)

(** The [SELECT]s of the first loop of a direct order that runs to the
    end, and the [UPDATE]s of its second loop. *)
Definition stock_reads (items : list Item) : list Call :=
  map (fun item => PgSelectProduct (item_id item)) items.

Definition stock_writes (items : list Item) : list Call :=
  map (fun item => PgUpdateStock (item_quantity item) (item_id item)) items.

(** The queries of the webhook's loop on tables [d]: a [SELECT] per item,
    followed by an [UPDATE] when the product has a row. *)
Definition webhook_stock_calls (d : DB) (items : list Item) : list Call :=
  flat_map (fun item =>
              match price_of d (item_id item) with
              | Some _ => [PgSelectProduct (item_id item);
                           PgUpdateStock (item_quantity item) (item_id item)]
              | None => [PgSelectProduct (item_id item)]
              end) items.

(** The query of the fallback, when it is consulted. *)
Definition fallback_calls (J : JsonCodec) (session : Session) : list Call :=
  match customer_email session with
  | Some e =>
      if (List.length (metadata_items J session) =? 0)%nat
         && truthy_string (Some e)
      then [PgSelectLatestOrder e]
      else []
  | None => []
  end.

(** An item passes the check of a direct order on tables [d]: its product
    has a row and it asks no more than the stock of that row. *)
Definition in_stock (d : DB) (item : Item) : Prop :=
  exists s, stock_of d (item_id item) = Some s /\ item_quantity item <= s.

(** The body of a direct order passes the first test of the handler. *)
Definition well_formed_order (rq : OrderRequest) (items : list Item)
    (pm : string) : Prop :=
  rq_items rq = Some items /\ rq_paymentMethodId rq = Some pm /\
  truthy_string (rq_email rq) = true /\ items <> [] /\
  truthy_string (Some pm) = true.

(** HTTP status of an outcome, when there is a response. *)
Definition outcome_status (o : Outcome) : option Z :=
  match o with
  | Responded r => Some (status r)
  | Unhandled _ => None
  end.

(** The mails among the calls. *)
Definition mails (cs : list Call) : list Call :=
  filter (fun c => match c with SendMail _ _ => true | _ => false end) cs.

(** The charges among the calls. *)
Definition charges (cs : list Call) : list Call :=
  filter (fun c => match c with StripePaymentIntent _ _ => true | _ => false end)
         cs.

(** ** More of the small shop *)

Module Cases.

(** The open shop after one order of two of product 1 was stored for
    ann. *)
Definition stored_order : Order :=
  mkOrder 1 (Some "ann@example.com")
    (RefJson.stringify [mkItem 1 2 None None]) (40 # 1) "paid".

Definition shop_with_order : World :=
  mkWorld (mkDB [mkProduct 1 (20 # 1) 5] [stored_order] 2) [].

(** An event of another type. *)
Definition payment_succeeded : Event :=
  mkEvent "evt_3" "payment_intent.succeeded" (mkSession None None).

(** A direct order that lists product 1 twice, three each. *)
Definition twice_three : OrderRequest :=
  mkOrderRequest (Some "ann@example.com")
    (Some [mkItem 1 3 None None; mkItem 1 3 None None])
    (Some "pm_card_visa").

(** A direct order with an empty item list. *)
Definition empty_order : OrderRequest :=
  mkOrderRequest (Some "ann@example.com") (Some []) (Some "pm_card_visa").

End Cases.

(** ** The fulfilment paths in the arithmetic of the platform

    The handlers that write table [orders], once more, with the numbers of
    the total left to an [Arithmetic]: what [0], [+] and [*] are and which
    number an integer quantity is.  With [binary64] they are the doubles of
    JavaScript, with [exact] the rationals used above.  The state is the two
    tables; the calls that do not touch them (the gateway, the mail) are in
    the embedding above and what the gateway answers is still supplied with
    the request.  The price of a row is the number [rows[0].price * ...]
    multiplies and the total of a row is the number handed to the [INSERT];
    the column types of the tables are not part of the source. *)

Record Arithmetic := mkArithmetic {
  num : Type;
  num_zero : num;
  num_add : num -> num -> num;
  num_mul : num -> num -> num;
  num_of_Z : Z -> num
}.

(** IEEE 754 binary64, round to nearest even: the Number type. *)
Definition binary64 : Arithmetic :=
  mkArithmetic spec_float (S754_zero false) (SFadd 53 1024) (SFmul 53 1024)
    (fun z => binary_normalize 53 1024 z 0 false).

(** The rationals. *)
Definition exact : Arithmetic := mkArithmetic Q 0%Q Qplus Qmult inject_Z.

(** The rational a finite double stands for. *)
Definition exact_value (x : spec_float) : option Q :=
  match x with
  | S754_zero _ => Some 0%Q
  | S754_finite s m e =>
      let magnitude :=
        match e with
        | Z0 => inject_Z (Zpos m)
        | Zpos p => inject_Z (Zpos m * 2 ^ Zpos p)
        | Zneg p => Zpos m # (2 ^ p)
        end in
      Some (if s then Qopp magnitude else magnitude)
  | _ => None
  end.

Module Numeric.

Section WithArithmetic.

Variable A : Arithmetic.
Variable J : JsonCodec.

Record Product := mkProduct {
  p_id : Z;
  p_price : num A;
  p_stock : Z
}.

Record Order := mkOrder {
  o_id : Z;
  o_email : option string;
  o_products : string;
  o_total : num A;
  o_status : string
}.

Record DB := mkDB {
  products : list Product;
  orders : list Order;
  orders_id_seq : Z
}.

Inductive Answer :=
| AnswerEmpty (status : Z)
| AnswerText (status : Z) (text : string)
| AnswerError (status : Z) (message : string)
| AnswerReceived
| AnswerOrder (o : Order).

(** [SELECT price, stock FROM products WHERE id=$1] *)
Definition select_product (id : Z) (ps : list Product) : list Product :=
  filter (fun p => p_id p =? id) ps.

(** [UPDATE products SET stock = stock - $1 WHERE id=$2] *)
Definition update_stock (quantity id : Z) (ps : list Product) : list Product :=
  map (fun p => if p_id p =? id
                then mkProduct (p_id p) (p_price p) (p_stock p - quantity)
                else p) ps.

Fixpoint greatest_id (best : option Order) (rows : list Order) : option Order :=
  match rows with
  | [] => best
  | o :: rest =>
      match best with
      | Some b => greatest_id (if o_id b <? o_id o then Some o else Some b) rest
      | None => greatest_id (Some o) rest
      end
  end.

(** [SELECT products FROM orders WHERE email=$1 ORDER BY id DESC LIMIT 1] *)
Definition select_latest_products (email : string) (os : list Order)
  : list string :=
  match greatest_id None
          (filter (fun o => match o_email o with
                            | Some e => (e =? email)%string
                            | None => false
                            end) os) with
  | Some o => [o_products o]
  | None => []
  end.

(** [INSERT INTO orders(email, products, total, status) VALUES(...)] *)
Definition insert_order (email : option string) (prods : string)
    (total : num A) (st : string) (d : DB) : Order * DB :=
  let o := mkOrder (orders_id_seq d) email prods total st in
  (o, mkDB (products d) (orders d ++ [o]) (orders_id_seq d + 1)).

(** [if (!items.length && email) { try { ... } catch (e) { ... } }] *)
Definition fallback_items (items : list Item) (email : option string)
    (d : DB) : list Item :=
  match email with
  | Some e =>
      if (List.length items =? 0)%nat && truthy_string (Some e)
      then match select_latest_products e (orders d) with
           | stored :: _ =>
               match JSON_parse J stored with
               | Some parsed => parsed
               | None => items
               end
           | [] => items
           end
      else items
  | None => items
  end.

(** [let total = 0; for (const item of items) { ... }] of the webhooks. *)
Fixpoint webhook_stock_loop (items : list Item) (total : num A) (d : DB)
  : num A * DB :=
  match items with
  | [] => (total, d)
  | item :: rest =>
      match select_product (item_id item) (products d) with
      | [] => webhook_stock_loop rest total d
      | row :: _ =>
          webhook_stock_loop rest
            (num_add A total
               (num_mul A (p_price row) (num_of_Z A (item_quantity item))))
            (mkDB (update_stock (item_quantity item) (item_id item)
                     (products d))
                  (orders d) (orders_id_seq d))
      end
  end.

(** [app.post('/webhook', ...)] of the last revision. *)
Definition post_webhook (verified : string + Event) (d : DB) : Answer * DB :=
  match verified with
  | inl message => (AnswerText 400 ("Webhook Error: " ++ message)%string, d)
  | inr event =>
      if (ev_type event =? "checkout.session.completed")%string
      then
        let session := ev_data_object event in
        let email := customer_email session in
        let items := fallback_items (metadata_items J session) email d in
        let (total, d1) := webhook_stock_loop items (num_zero A) d in
        (AnswerReceived,
         snd (insert_order email (JSON_stringify J items) total "paid" d1))
      else (AnswerReceived, d)
  end.

(** [export default async function handler(req, res)] of
    [api/webhook.js]. *)
Definition handler (method : string) (verified : string + Event) (d : DB)
  : Answer * DB :=
  if negb (method =? "POST")%string
  then (AnswerEmpty 405, d)
  else
    match verified with
    | inl message => (AnswerText 400 ("Webhook Error: " ++ message)%string, d)
    | inr event =>
        if (ev_type event =? "checkout.session.completed")%string
        then
          let session := ev_data_object event in
          let items := metadata_items J session in
          let (total, d1) := webhook_stock_loop items (num_zero A) d in
          (AnswerReceived,
           snd (insert_order (customer_email session)
                  (JSON_stringify J items) total "paid" d1))
        else (AnswerReceived, d)
    end.

(** First loop of [POST /api/orders]. *)
Fixpoint orders_check_loop (items : list Item) (total : num A) (d : DB)
  : Answer + num A :=
  match items with
  | [] => inr total
  | item :: rest =>
      match select_product (item_id item) (products d) with
      | [] =>
          inl (AnswerError 400
                 ("Product " ++ show_Z (item_id item) ++ " not found")%string)
      | row :: _ =>
          if p_stock row <? item_quantity item
          then inl (AnswerError 400
                      ("Insufficient stock for product "
                       ++ show_Z (item_id item))%string)
          else orders_check_loop rest
                 (num_add A total
                    (num_mul A (p_price row)
                       (num_of_Z A (item_quantity item)))) d
      end
  end.

(** Second loop of [POST /api/orders]. *)
Fixpoint orders_update_loop (items : list Item) (d : DB) : DB :=
  match items with
  | [] => d
  | item :: rest =>
      orders_update_loop rest
        (mkDB (update_stock (item_quantity item) (item_id item) (products d))
              (orders d) (orders_id_seq d))
  end.

(** [app.post('/api/orders', ...)] of the last revision. *)
Definition post_api_orders (rq : OrderRequest) (charge : string + unit)
    (d : DB) : Answer * DB :=
  match rq_items rq, rq_paymentMethodId rq with
  | Some items, Some pm =>
      if negb (truthy_string (rq_email rq))
         || (List.length items =? 0)%nat
         || negb (truthy_string (Some pm))
      then (AnswerError 400 "Missing required fields", d)
      else
        match orders_check_loop items (num_zero A) d with
        | inl answer => (answer, d)
        | inr total =>
            match charge with
            | inl _ => (AnswerError 500 "Error processing order", d)
            | inr _ =>
                let (o, d1) :=
                  insert_order (rq_email rq) (JSON_stringify J items) total
                    "paid" (orders_update_loop items d) in
                (AnswerOrder o, d1)
            end
        end
  | _, _ => (AnswerError 400 "Missing required fields", d)
  end.

(** The requests that can write table [orders]. *)
Inductive Request :=
| DirectOrder (rq : OrderRequest) (charge : string + unit)
| Webhook (verified : string + Event)
| ApiWebhook (method : string) (verified : string + Event).

Definition serve (r : Request) (d : DB) : Answer * DB :=
  match r with
  | DirectOrder rq charge => post_api_orders rq charge d
  | Webhook verified => post_webhook verified d
  | ApiWebhook method verified => handler method verified d
  end.

(** The ledger price of a product: the price of the first row of table
    [products] with that id, if there is one. *)
Definition ledger_price (d : DB) (id : Z) : option (num A) :=
  match find (fun p => p_id p =? id) (products d) with
  | Some row => Some (p_price row)
  | None => None
  end.

(** One more line item on a total: the ledger price of its product times
    its quantity is added; an item whose product has no ledger price leaves
    the total as it is. *)
Definition add_priced (d : DB) (total : num A) (item : Item) : num A :=
  match ledger_price d (item_id item) with
  | Some price =>
      num_add A total (num_mul A price (num_of_Z A (item_quantity item)))
  | None => total
  end.

(** The sum of ledger price times quantity over the items that have a
    ledger price, taken from [0] through the items in order. *)
Definition ledger_sum (d : DB) (items : list Item) : num A :=
  fold_left (add_priced d) items (num_zero A).

End WithArithmetic.

Arguments mkProduct {A}.
Arguments mkOrder {A}.
Arguments mkDB {A}.
Arguments p_id {A}.
Arguments p_price {A}.
Arguments p_stock {A}.
Arguments o_id {A}.
Arguments o_email {A}.
Arguments o_products {A}.
Arguments o_total {A}.
Arguments o_status {A}.
Arguments products {A}.
Arguments orders {A}.
Arguments orders_id_seq {A}.
Arguments AnswerOrder {A}.
Arguments AnswerEmpty {A}.
Arguments AnswerText {A}.
Arguments AnswerError {A}.
Arguments AnswerReceived {A}.

(** The price 0.1 as the double the handler multiplies, a shop that sells
    product 1 at that price, and an order of three. *)
Definition tenth : spec_float := S754_finite false 7205759403792794 (-56).

Definition dime_shop : DB binary64 :=
  mkDB [mkProduct (A := binary64) 1 tenth 5] [] 1.

Definition three_dimes : OrderRequest :=
  mkOrderRequest (Some "ann@example.com") (Some [mkItem 1 3 None None])
    (Some "pm_card_visa").

(** A completed checkout whose manifest asks four of product 9, which has
    no row, and two of product 1. *)
Definition partly_unknown : Event :=
  mkEvent "evt_4" "checkout.session.completed"
    (mkSession (Some "ann@example.com")
       (Some (mkMetadata
                (Some (RefJson.stringify
                         [mkItem 9 4 None None; mkItem 1 2 None None]))))).

End Numeric.

(** The tables, answers and requests of the first embedding, as those of
    the embedding above with [exact] arithmetic. *)
Definition numeric_product (p : Product) : Numeric.Product exact :=
  Numeric.mkProduct (A := exact) (p_id p) (p_price p) (p_stock p).

Definition numeric_order (o : Order) : Numeric.Order exact :=
  Numeric.mkOrder (A := exact) (o_id o) (o_email o) (o_products o) (o_total o)
    (o_status o).

Definition numeric_db (d : DB) : Numeric.DB exact :=
  Numeric.mkDB (map numeric_product (products d)) (map numeric_order (orders d))
    (orders_id_seq d).

Definition numeric_answer (r : Response) : Numeric.Answer exact :=
  match body r with
  | BodyEmpty => Numeric.AnswerEmpty (status r)
  | BodyText s => Numeric.AnswerText (status r) s
  | BodyError message => Numeric.AnswerError (status r) message
  | BodyReceived => Numeric.AnswerReceived
  | BodyOrder o => Numeric.AnswerOrder (numeric_order o)
  | BodyUrl url => Numeric.AnswerText (status r) url
  end.

Definition numeric_request (r : Numeric.Request) : Request :=
  match r with
  | Numeric.DirectOrder rq charge => DirectOrder rq charge
  | Numeric.Webhook verified => Webhook verified
  | Numeric.ApiWebhook method verified => ApiWebhook method verified
  end.

(** * Properties *)

Module RefJsonFacts.
Import RefJson.

Lemma parse_uint_stops k : stops k = true -> parse_uint k = (Decimal.Nil, k).
Proof.
  destruct k as [|c r]; simpl; [reflexivity|].
  destruct (digit_of c); [discriminate | reflexivity].
Qed.

Lemma parse_uint_print d k :
  stops k = true -> parse_uint (print_uint d k) = (d, k).
Proof.
  intro Hk.
  induction d; simpl; try rewrite IHd; auto using parse_uint_stops.
Qed.

Lemma print_uint_head d k :
  stops k = true ->
  match print_uint d k with
  | String c _ => (c =? "-")%char = false
  | EmptyString => True
  end.
Proof.
  intro Hk. destruct d; simpl; try reflexivity.
  destruct k as [|c r]; simpl in *; [exact I|].
  destruct (digit_of c); [discriminate|].
  now destruct (c =? "-")%char.
Qed.

Lemma parse_Z_print z k : stops k = true -> parse_Z (print_Z z k) = (z, k).
Proof.
  intro Hk. unfold print_Z.
  pose proof (DecimalZ.of_to z) as Hz.
  destruct (Z.to_int z) as [d|d].
  - unfold parse_Z.
    pose proof (print_uint_head d k Hk) as Hh.
    pose proof (parse_uint_print d k Hk) as Hp.
    destruct (print_uint d k) as [|c r].
    + simpl in Hp. inversion Hp; subst. reflexivity.
    + rewrite Hh, Hp, Hz. reflexivity.
  - unfold parse_Z. rewrite Ascii.eqb_refl, parse_uint_print by assumption.
    now rewrite Hz.
Qed.

Lemma positive_of_to p : positive_of_uint (Pos.to_uint p) = p.
Proof.
  unfold positive_of_uint. now rewrite DecimalPos.Unsigned.of_to.
Qed.

Lemma closes_inv k :
  closes k = true -> exists r, k = String "," r \/ k = String "}" r.
Proof.
  destruct k as [|c r]; simpl; [discriminate|].
  intro H. apply orb_true_iff in H. exists r.
  destruct H as [H|H]; apply Ascii.eqb_eq in H; subst; auto.
Qed.

Lemma closes_stops k : closes k = true -> stops k = true.
Proof.
  intro H. destruct (closes_inv k H) as [r [-> | ->]]; reflexivity.
Qed.

Lemma parse_Q_print q k : closes k = true -> parse_Q (print_Q q k) = (q, k).
Proof.
  intro Hk. destruct q as [n d]. unfold print_Q, parse_Q. simpl Qnum. simpl Qden.
  destruct (Pos.eqb_spec d 1) as [->|Hd].
  - rewrite parse_Z_print by now apply closes_stops.
    destruct (closes_inv k Hk) as [r [-> | ->]]; reflexivity.
  - rewrite parse_Z_print by reflexivity.
    simpl. rewrite parse_uint_print by now apply closes_stops.
    now rewrite positive_of_to.
Qed.

Lemma parse_chars_print s k : parse_chars (print_chars s k) = Some (s, k).
Proof.
  induction s as [|c s IH]; cbn [print_chars parse_chars].
  - reflexivity.
  - destruct (c =? quote)%char eqn:Hq; cbn [orb parse_chars].
    + change (backslash =? quote)%char with false.
      rewrite Ascii.eqb_refl, IH. reflexivity.
    + destruct (c =? backslash)%char eqn:Hb; cbn [parse_chars].
      * change (backslash =? quote)%char with false.
        rewrite Ascii.eqb_refl, IH. reflexivity.
      * rewrite Hq, Hb, IH. reflexivity.
Qed.

Lemma expect_append p k : expect p (p ++ k) = Some k.
Proof.
  induction p as [|a p IH]; simpl; [reflexivity|].
  now rewrite Ascii.eqb_refl.
Qed.

Lemma parse_price_and_close_print id quantity name price k :
  parse_price_and_close id quantity name
    (match price with
     | Some q => "," ++ key "price" ++ print_Q q (String "}" k)
     | None => String "}" k
     end)%string
  = Some (mkItem id quantity name price, k).
Proof.
  unfold parse_price_and_close. destruct price as [q|].
  - change ("," ++ key "price" ++ print_Q q (String "}" k))%string
      with (("," ++ key "price") ++ print_Q q (String "}" k))%string.
    rewrite expect_append, parse_Q_print by reflexivity.
    simpl. reflexivity.
  - reflexivity.
Qed.

Lemma parse_item_print i k : parse_item (print_item i k) = Some (i, k).
Proof.
  destruct i as [id quantity name price]. unfold parse_item, print_item.
  cbn [item_id item_quantity item_name item_price].
  match goal with
  | |- context [expect ?p (("{" ++ key "id" ++ ?r)%string)] =>
      change ("{" ++ key "id" ++ r)%string with (p ++ r)%string
  end.
  rewrite expect_append.
  destruct name as [n|].
  - rewrite parse_Z_print by reflexivity.
    match goal with
    | |- context [expect ?p (("," ++ key "quantity" ++ ?r)%string)] =>
        change ("," ++ key "quantity" ++ r)%string with (p ++ r)%string
    end.
    rewrite expect_append, parse_Z_print by reflexivity.
    match goal with
    | |- context [expect ?p (("," ++ key "name" ++ String quote ?r)%string)] =>
        change ("," ++ key "name" ++ String quote r)%string with (p ++ r)%string
    end.
    rewrite expect_append, parse_chars_print.
    apply parse_price_and_close_print.
  - rewrite parse_Z_print by (destruct price; reflexivity).
    match goal with
    | |- context [expect ?p (("," ++ key "quantity" ++ ?r)%string)] =>
        change ("," ++ key "quantity" ++ r)%string with (p ++ r)%string
    end.
    rewrite expect_append, parse_Z_print by (destruct price; reflexivity).
    replace (expect ("," ++ key "name" ++ String quote "")%string _)
      with (@None string) by (destruct price; reflexivity).
    apply parse_price_and_close_print.
Qed.

Lemma print_uint_length d k :
  (String.length k <= String.length (print_uint d k))%nat.
Proof. induction d; simpl; lia. Qed.

Lemma print_Z_length z k :
  (String.length k <= String.length (print_Z z k))%nat.
Proof.
  unfold print_Z. destruct (Z.to_int z) as [d|d]; simpl;
    pose proof (print_uint_length d k); lia.
Qed.

Lemma print_Q_length q k :
  (String.length k <= String.length (print_Q q k))%nat.
Proof.
  unfold print_Q.
  etransitivity; [|apply print_Z_length].
  destruct (Qden q =? 1)%positive; simpl; [lia|].
  pose proof (print_uint_length (Pos.to_uint (Qden q)) k). lia.
Qed.

Lemma print_chars_length s k :
  (String.length k <= String.length (print_chars s k))%nat.
Proof.
  induction s as [|c s IH]; simpl; [lia|].
  destruct ((c =? quote) || (c =? backslash))%char; simpl; lia.
Qed.

Lemma print_item_length i k :
  (String.length k < String.length (print_item i k))%nat.
Proof.
  destruct i as [id quantity name price]. unfold print_item.
  cbn [item_id item_quantity item_name item_price].
  assert (Hp : (String.length k <
           String.length (match price with
                          | Some q => "," ++ key "price" ++ print_Q q (String "}" k)
                          | None => String "}" k
                          end)%string)%nat).
  { destruct price as [q|]; simpl; [|lia].
    pose proof (print_Q_length q (String "}" k)). simpl in *. lia. }
  simpl.
  match goal with
  | |- context [print_Z id ?r] => pose proof (print_Z_length id r) as H1
  end.
  simpl in H1.
  match type of H1 with
  | context [print_Z quantity ?r] => pose proof (print_Z_length quantity r) as H2
  end.
  destruct name as [n|]; simpl in *.
  - match type of H2 with
    | context [print_chars n ?r] => pose proof (print_chars_length n r) as H3
    end.
    lia.
  - lia.
Qed.

Lemma print_more_length items k :
  (List.length items < String.length (print_more items k))%nat.
Proof.
  induction items as [|i rest IH];
    cbn [print_more List.length String.length]; [lia|].
  pose proof (print_item_length i (print_more rest k)). lia.
Qed.

Lemma parse_more_print items : forall fuel k,
  (List.length items < fuel)%nat ->
  parse_more fuel (print_more items k) = Some (items, k).
Proof.
  induction items as [|i rest IH]; intros [|fuel] k Hf; simpl in *; try lia.
  - reflexivity.
  - rewrite parse_item_print, IH by lia. reflexivity.
Qed.

Lemma print_item_head i k :
  exists r, print_item i k = String "{" r.
Proof. unfold print_item. simpl. eauto. Qed.

Lemma parse_items_print items k :
  parse_items (print_items items k) = Some (items, k).
Proof.
  destruct items as [|i rest]; simpl; [reflexivity|].
  destruct (print_item_head i (print_more rest k)) as [r Hr].
  pose proof (parse_item_print i (print_more rest k)) as Hi.
  rewrite Hr in *. simpl. rewrite Hi.
  rewrite parse_more_print by apply print_more_length.
  reflexivity.
Qed.

(** The reference codec reads back what it writes. *)
Lemma roundtrip : json_roundtrip codec.
Proof.
  intro items. simpl. unfold parse, stringify.
  now rewrite parse_items_print.
Qed.

End RefJsonFacts.

(** ** The tables under the queries *)

Lemma select_update_stock quantity id' id ps :
  select_product id (update_stock quantity id' ps)
  = update_stock quantity id' (select_product id ps).
Proof.
  unfold select_product, update_stock.
  induction ps as [|p ps IH]; simpl; [reflexivity|].
  destruct (p_id p =? id') eqn:E'; simpl;
    destruct (p_id p =? id) eqn:E; simpl; rewrite ?E', IH; reflexivity.
Qed.

Lemma select_product_id id ps row rows :
  select_product id ps = row :: rows -> p_id row = id.
Proof.
  intro H. assert (Hin : In row (select_product id ps)) by (rewrite H; now left).
  apply filter_In in Hin. now apply Z.eqb_eq.
Qed.

Lemma stock_of_update quantity id' id ps os n :
  stock_of (mkDB (update_stock quantity id' ps) os n) id
  = if id' =? id
    then option_map (fun s => s - quantity) (stock_of (mkDB ps os n) id)
    else stock_of (mkDB ps os n) id.
Proof.
  unfold stock_of. simpl. rewrite select_update_stock.
  destruct (select_product id ps) as [|row rows] eqn:E.
  - simpl. now destruct (id' =? id).
  - apply select_product_id in E. simpl. rewrite E, (Z.eqb_sym id id').
    now destruct (id' =? id).
Qed.

Lemma price_of_update quantity id' id ps os n :
  price_of (mkDB (update_stock quantity id' ps) os n) id
  = price_of (mkDB ps os n) id.
Proof.
  unfold price_of. simpl. rewrite select_update_stock.
  destruct (select_product id ps) as [|row rows]; simpl; [reflexivity|].
  now destruct (p_id row =? id').
Qed.

Lemma add_line_ext d d' :
  (forall id, price_of d' id = price_of d id) ->
  forall items total,
    fold_left (add_line d') items total = fold_left (add_line d) items total.
Proof.
  intros H items. induction items as [|i items IH]; intro total; simpl.
  - reflexivity.
  - unfold add_line at 2 4. rewrite H. apply IH.
Qed.

(** The total reads [id] and [quantity] of an item and nothing else. *)
Lemma ledger_total_id_quantity d items items' :
  map id_quantity items = map id_quantity items' ->
  ledger_total d items = ledger_total d items'.
Proof.
  unfold ledger_total. generalize 0%Q as total.
  revert items'. induction items as [|i items IH]; intros [|i' items'] total H;
    simpl in *; try discriminate; [reflexivity|].
  injection H as Hid Hq Hrest.
  unfold add_line at 2 4. rewrite Hid, Hq. now apply IH.
Qed.

Lemma demand_cons item items id :
  demand (item :: items) id
  = if item_id item =? id then item_quantity item + demand items id
    else demand items id.
Proof. reflexivity. Qed.

Lemma demand_absent items id :
  ~ In id (map item_id items) -> demand items id = 0.
Proof.
  induction items as [|i items IH]; cbn [map In]; intro H; [reflexivity|].
  rewrite demand_cons.
  destruct (Z.eqb_spec (item_id i) id) as [E|E]; [tauto|]. apply IH. tauto.
Qed.

Lemma demand_distinct items item :
  NoDup (map item_id items) -> In item items ->
  demand items (item_id item) = item_quantity item.
Proof.
  induction items as [|i items IH]; cbn [map In]; intros Hnd Hin;
    [contradiction|].
  inversion Hnd as [|? ? Hni Hnd']; subst. rewrite demand_cons.
  destruct Hin as [->|Hin].
  - rewrite Z.eqb_refl, demand_absent by assumption. lia.
  - destruct (Z.eqb_spec (item_id i) (item_id item)) as [E|E].
    + exfalso. apply Hni. rewrite E. now apply in_map.
    + now apply IH.
Qed.

Lemma update_stock_absent quantity id ps :
  select_product id ps = [] -> update_stock quantity id ps = ps.
Proof.
  unfold select_product, update_stock.
  induction ps as [|p ps IH]; simpl; [reflexivity|].
  destruct (p_id p =? id); [discriminate|].
  intro H. now rewrite IH.
Qed.

(** ** The loops *)

Ltac run :=
  cbv beta iota zeta delta
    [bind ret reply record read_db modify_db pg_select_product
     pg_update_stock pg_select_latest_order pg_insert_order
     sendConfirmationEmail insert_order];
  cbn [fst snd db calls products orders orders_id_seq].

Lemma option_map_sub (o : option Z) a b :
  option_map (fun s => s - b) (option_map (fun s => s - a) o)
  = option_map (fun s => s - (a + b)) o.
Proof. destruct o; simpl; [f_equal; lia | reflexivity]. Qed.

Lemma option_map_sub_0 (o : option Z) : option_map (fun s => s - 0) o = o.
Proof. destruct o; simpl; [f_equal; lia | reflexivity]. Qed.

Lemma decremented_nil d : decremented [] d d.
Proof.
  unfold decremented. simpl.
  split; [reflexivity|]. split; [reflexivity|].
  split; [intro id; symmetry; apply option_map_sub_0 | reflexivity].
Qed.

(** One more item in front: the tables between are [d] with that item's
    stock decremented, or [d] itself when the product has no row. *)
Lemma decremented_cons item items d d1 d' :
  decremented [item] d d1 -> decremented items d1 d' ->
  decremented (item :: items) d d'.
Proof.
  intros (Ho1 & Hs1 & Hst1 & Hp1) (Ho & Hs & Hst & Hp).
  unfold decremented.
  split; [congruence|]. split; [congruence|]. split.
  - intro id. rewrite Hst, Hst1, option_map_sub.
    rewrite (demand_cons item items). rewrite (demand_cons item []).
    cbn [demand fold_right].
    destruct (item_id item =? id);
      destruct (stock_of d id); simpl; f_equal; lia.
  - intro id. now rewrite Hp, Hp1.
Qed.

Lemma decremented_skip item d :
  stock_of d (item_id item) = None -> decremented [item] d d.
Proof.
  intros Hnone. unfold decremented.
  split; [reflexivity|]. split; [reflexivity|]. split; [|reflexivity].
  intro id. rewrite (demand_cons item []). simpl.
  destruct (Z.eqb_spec (item_id item) id) as [<-|_].
  - now rewrite Hnone.
  - symmetry. apply option_map_sub_0.
Qed.

Lemma decremented_update item d :
  decremented [item] d
    (mkDB (update_stock (item_quantity item) (item_id item) (products d))
          (orders d) (orders_id_seq d)).
Proof.
  destruct d as [ps os n]. unfold decremented.
  cbn [products orders orders_id_seq].
  split; [reflexivity|]. split; [reflexivity|].
  split; [|intro id; apply price_of_update].
  intro id. rewrite stock_of_update, (demand_cons item []). simpl.
  destruct (item_id item =? id).
  - destruct (stock_of _ id); simpl; f_equal; lia.
  - symmetry. apply option_map_sub_0.
Qed.

Section Loops.

Variable J : JsonCodec.

(** The webhook's loop decrements what the items ask and returns the
    ledger total of the items, from the total it starts with. *)
Lemma webhook_stock_loop_spec items : forall total w,
  decremented items (db w) (db (snd (webhook_stock_loop items total w))) /\
  fst (webhook_stock_loop items total w)
  = fold_left (add_line (db w)) items total.
Proof.
  induction items as [|item rest IH]; intros total w.
  - split; [apply decremented_nil | reflexivity].
  - cbn [webhook_stock_loop fold_left]. run.
    unfold add_line at 2. unfold price_of.
    destruct (select_product (item_id item) (products (db w)))
      as [|row rows] eqn:Hsel.
    + match goal with
      | |- context [webhook_stock_loop rest total ?w1] =>
          destruct (IH total w1) as [Hd Ht]
      end.
      cbn [db] in Hd, Ht.
      split; [|exact Ht].
      eapply decremented_cons; [|exact Hd].
      apply decremented_skip. unfold stock_of. now rewrite Hsel.
    + match goal with
      | |- context [webhook_stock_loop rest ?t ?w1] =>
          destruct (IH t w1) as [Hd Ht]
      end.
      pose proof (decremented_update item (db w)) as H1.
      split; [eapply decremented_cons; [exact H1 | exact Hd]|].
      etransitivity; [exact Ht|]. destruct H1 as (_ & _ & _ & Hp).
      now apply add_line_ext.
Qed.

(** The first loop of a direct order changes no table; it ends in a 400
    when an item has no product row or asks more than the stock it reads,
    and in the ledger total otherwise. *)
Lemma orders_check_loop_spec items : forall total w,
  db (snd (orders_check_loop items total w)) = db w /\
  match fst (orders_check_loop items total w) with
  | inr t =>
      t = fold_left (add_line (db w)) items total /\
      Forall (fun item => exists s, stock_of (db w) (item_id item) = Some s
                                    /\ item_quantity item <= s) items
  | inl r =>
      status r = 400 /\
      Exists (fun item => forall s, stock_of (db w) (item_id item) = Some s
                                    -> s < item_quantity item) items
  end.
Proof.
  induction items as [|item rest IH]; intros total w.
  - simpl. auto.
  - cbn [orders_check_loop fold_left]. run.
    unfold add_line at 2. unfold price_of, stock_of at 2.
    destruct (select_product (item_id item) (products (db w)))
      as [|row rows] eqn:Hsel.
    + cbn [fst snd db status]. repeat split.
      apply Exists_cons_hd. unfold stock_of. rewrite Hsel. discriminate.
    + destruct (Z.ltb_spec (p_stock row) (item_quantity item)) as [Hlt|Hge].
      * cbn [fst snd db status]. repeat split.
        apply Exists_cons_hd. unfold stock_of. rewrite Hsel.
        intros s [= <-]. exact Hlt.
      * match goal with
        | |- context [orders_check_loop rest ?t ?w1] =>
            destruct (IH t w1) as [Hd Ht];
            destruct (orders_check_loop rest t w1) as [[r|t'] w2]
        end; cbn [fst snd db] in *.
        -- split; [exact Hd|]. destruct Ht as [Hs He]. split; [exact Hs|].
           now apply Exists_cons_tl.
        -- split; [exact Hd|]. destruct Ht as [Hs Hf]. split; [exact Hs|].
           constructor; [|exact Hf].
           exists (p_stock row). unfold stock_of. rewrite Hsel. auto.
Qed.

(** The second loop of a direct order decrements what the items ask. *)
Lemma orders_update_loop_spec items : forall w,
  decremented items (db w) (db (snd (orders_update_loop items w))).
Proof.
  induction items as [|item rest IH]; intro w.
  - apply decremented_nil.
  - cbn [orders_update_loop]. run.
    match goal with
    | |- context [orders_update_loop rest ?w1] => pose proof (IH w1) as Hd
    end.
    cbn [db] in Hd.
    eapply decremented_cons; [apply decremented_update | exact Hd].
Qed.

(** The fallback reads table [orders] and changes nothing. *)
Lemma fallback_items_spec session w :
  fst (fallback_items J (metadata_items J session) (customer_email session) w)
  = candidate_items J session (db w) /\
  db (snd (fallback_items J (metadata_items J session)
             (customer_email session) w)) = db w.
Proof.
  unfold fallback_items, candidate_items.
  destruct (customer_email session) as [e|]; [|now split].
  destruct ((List.length (metadata_items J session) =? 0)%nat
            && truthy_string (Some e)); [|now split].
  run.
  destruct (select_latest_products e (orders (db w))) as [|stored rest];
    [now split|].
  destruct (JSON_parse J stored); now split.
Qed.

(** Both stock loops leave table [products] as one [UPDATE] per item
    does: the [UPDATE] the webhook skips would match no row. *)
Lemma webhook_stock_loop_db items : forall total w,
  db (snd (webhook_stock_loop items total w))
  = mkDB (decrement_all items (products (db w))) (orders (db w))
         (orders_id_seq (db w)).
Proof.
  induction items as [|item rest IH]; intros total w.
  - simpl. now destruct (db w).
  - cbn [webhook_stock_loop decrement_all fold_left]. run.
    destruct (select_product (item_id item) (products (db w)))
      as [|row rows] eqn:Hsel.
    + rewrite IH. cbn [db]. now rewrite update_stock_absent.
    + rewrite IH. reflexivity.
Qed.

Lemma orders_update_loop_db items : forall w,
  db (snd (orders_update_loop items w))
  = mkDB (decrement_all items (products (db w))) (orders (db w))
         (orders_id_seq (db w)).
Proof.
  induction items as [|item rest IH]; intro w.
  - simpl. now destruct (db w).
  - cbn [orders_update_loop decrement_all fold_left]. run.
    rewrite IH. reflexivity.
Qed.

(** What the webhook of the server file does on a verified event. *)
Lemma post_webhook_verified event w :
  fst (post_webhook J (inr event) w) = Responded (mkResponse 200 BodyReceived)
  /\
  db (snd (post_webhook J (inr event) w))
  = if (ev_type event =? "checkout.session.completed")%string
    then fulfil J (customer_email (ev_data_object event))
           (candidate_items J (ev_data_object event) (db w)) (db w)
    else db w.
Proof.
  unfold post_webhook. run.
  destruct (ev_type event =? "checkout.session.completed")%string;
    [|now split].
  unfold webhook_checkout_completed. run.
  set (session := ev_data_object event).
  match goal with
  | |- context [fallback_items J _ _ ?w1] =>
      destruct (fallback_items_spec session w1) as [Hi Hdb];
      destruct (fallback_items J (metadata_items J session)
                  (customer_email session) w1) as [items w2]
  end.
  cbn [fst snd db] in Hi, Hdb. subst items.
  set (items := candidate_items J session (db w)).
  destruct (webhook_stock_loop_spec items 0%Q w2) as [_ Ht].
  pose proof (webhook_stock_loop_db items 0%Q w2) as Hd.
  destruct (webhook_stock_loop items 0%Q w2) as [total w3].
  cbn [fst snd db] in *. rewrite Hdb in Hd, Ht.
  split; [reflexivity|].
  unfold fulfil, order_row, ledger_total. rewrite Hd, Ht. reflexivity.
Qed.

(** What [api/webhook.js] does on a verified event sent by POST. *)
Lemma handler_verified event w :
  fst (handler J "POST" (inr event) w)
  = Responded (mkResponse 200 BodyReceived) /\
  db (snd (handler J "POST" (inr event) w))
  = if (ev_type event =? "checkout.session.completed")%string
    then fulfil J (customer_email (ev_data_object event))
           (metadata_items J (ev_data_object event)) (db w)
    else db w.
Proof.
  unfold handler. cbn [String.eqb Ascii.eqb Bool.eqb negb]. run.
  destruct (ev_type event =? "checkout.session.completed")%string;
    [|now split].
  set (items := metadata_items J (ev_data_object event)).
  match goal with
  | |- context [webhook_stock_loop items 0%Q ?w1] =>
      destruct (webhook_stock_loop_spec items 0%Q w1) as [_ Ht];
      pose proof (webhook_stock_loop_db items 0%Q w1) as Hd;
      destruct (webhook_stock_loop items 0%Q w1) as [total w2]
  end.
  cbn [fst snd db] in *.
  split; [reflexivity|].
  unfold fulfil, order_row, ledger_total. rewrite Hd, Ht. reflexivity.
Qed.

(** The three ways a direct order ends: a 400 before anything is charged or
    written; a 500 when the charge fails, nothing written; or the items are
    fulfilled and the new row is sent back.  It is charged only when every
    item asks no more than the stock read for it. *)
Lemma post_api_orders_spec rq charge w :
  (db (snd (post_api_orders J rq charge w)) = db w /\
   exists r, fst (post_api_orders J rq charge w) = Responded r /\
             status r = 400) \/
  (exists items,
     rq_items rq = Some items /\
     Forall (fun item => exists s, stock_of (db w) (item_id item) = Some s
                                   /\ item_quantity item <= s) items /\
     ((db (snd (post_api_orders J rq charge w)) = db w /\
       fst (post_api_orders J rq charge w)
       = Responded (mkResponse 500 (BodyError "Error processing order"))) \/
      (db (snd (post_api_orders J rq charge w))
       = fulfil J (rq_email rq) items (db w) /\
       fst (post_api_orders J rq charge w)
       = Responded (mkResponse 200
                      (BodyOrder (order_row J (rq_email rq) items (db w))))))).
Proof.
  unfold post_api_orders.
  destruct (rq_items rq) as [items|]; [|left; run; eauto].
  destruct (rq_paymentMethodId rq) as [pm|]; [|left; run; eauto].
  destruct (negb (truthy_string (rq_email rq)) || (List.length items =? 0)%nat
            || negb (truthy_string (Some pm))); [left; run; eauto|].
  run.
  destruct (orders_check_loop_spec items 0%Q w) as [Hdb Hres].
  destruct (orders_check_loop items 0%Q w) as [[r|total] w1];
    cbn [fst snd] in *.
  - left. split; [exact Hdb|]. exists r. split; [reflexivity|]. tauto.
  - destruct Hres as [Ht Hok].
    right. exists items. split; [reflexivity|]. split; [exact Hok|].
    destruct charge as [message|u].
    + left. cbn [fst snd db]. split; [exact Hdb|]. reflexivity.
    + right.
      match goal with
      | |- context [orders_update_loop items ?w2] =>
          pose proof (orders_update_loop_db items w2) as Hd;
          destruct (orders_update_loop items w2) as [[] w3]
      end.
      cbn [fst snd db] in *. rewrite Hdb in Hd.
      unfold fulfil, order_row, ledger_total. rewrite Hd, Ht.
      split; reflexivity.
Qed.

End Loops.

(** ** The tables after a fulfilment *)

Lemma decrement_all_spec items : forall d,
  decremented items d
    (mkDB (decrement_all items (products d)) (orders d) (orders_id_seq d)).
Proof.
  induction items as [|item rest IH]; intro d.
  - simpl. destruct d. apply decremented_nil.
  - eapply decremented_cons; [apply decremented_update|].
    exact (IH (mkDB (update_stock (item_quantity item) (item_id item)
                       (products d)) (orders d) (orders_id_seq d))).
Qed.

Lemma stock_of_fulfil J email items d id :
  stock_of (fulfil J email items d) id
  = option_map (fun s => s - demand items id) (stock_of d id).
Proof.
  destruct (decrement_all_spec items d) as (_ & _ & Hst & _).
  exact (Hst id).
Qed.

Lemma price_of_fulfil J email items d id :
  price_of (fulfil J email items d) id = price_of d id.
Proof.
  destruct (decrement_all_spec items d) as (_ & _ & _ & Hp).
  exact (Hp id).
Qed.

Lemma candidate_items_embedded J session d :
  metadata_items J session <> [] ->
  candidate_items J session d = metadata_items J session.
Proof.
  intro H. unfold candidate_items.
  destruct (customer_email session); [|reflexivity].
  destruct (metadata_items J session); [contradiction | reflexivity].
Qed.

Section Requests.

Variable J : JsonCodec.
Variable FRONTEND_URL : string.

Lemma handler_not_post method verified w :
  method <> "POST" ->
  handler J method verified w = (Responded (mkResponse 405 BodyEmpty), w).
Proof.
  intro H. unfold handler.
  destruct (String.eqb_spec method "POST") as [E|_]; [contradiction|].
  reflexivity.
Qed.

Lemma checkout_session_db rq created w :
  db (snd (post_api_create_checkout_session J FRONTEND_URL rq created w)) = db w
  /\ db (snd (post_api_create_checkout_session_prev J FRONTEND_URL rq created w))
     = db w.
Proof.
  unfold post_api_create_checkout_session,
    post_api_create_checkout_session_prev.
  destruct (cr_items rq), created; run; auto.
Qed.

(** Whatever the request, the tables are left as they were or some items
    were fulfilled for some email. *)
Lemma serve_db r w :
  db (snd (serve J FRONTEND_URL r w)) = db w \/
  exists email items,
    db (snd (serve J FRONTEND_URL r w)) = fulfil J email items (db w).
Proof.
  destruct r as [rq charge|verified|method verified|rq created|rq created];
    cbn [serve].
  - destruct (post_api_orders_spec J rq charge w)
      as [[H _]|(items & _ & _ & [[H _]|[H _]])]; eauto.
  - destruct verified as [message|event]; [left; reflexivity|].
    destruct (post_webhook_verified J event w) as [_ H].
    destruct (ev_type event =? "checkout.session.completed")%string; eauto.
  - destruct (String.eqb_spec method "POST") as [->|Hm].
    + destruct verified as [message|event]; [left; reflexivity|].
      destruct (handler_verified J event w) as [_ H].
      destruct (ev_type event =? "checkout.session.completed")%string; eauto.
    + left. now rewrite handler_not_post.
  - left. apply checkout_session_db.
  - left. apply checkout_session_db.
Qed.

End Requests.

(** ** Rejected deliveries *)

(** C7. A webhook delivery whose signature fails verification is answered
    with status 400 by the webhook of the server file and by
    [api/webhook.js] alike; the only call made is the verification itself:
    the tables are as before and no query was sent, whatever was
    delivered. *)
Theorem rejected_signature_touches_no_storage J message w :
  let rejected :=
    Responded (mkResponse 400 (BodyText ("Webhook Error: " ++ message)%string)) in
  let after := mkWorld (db w) (calls w ++ [StripeConstructEvent]) in
  post_webhook J (inl message) w = (rejected, after) /\
  handler J "POST" (inl message) w = (rejected, after) /\
  existsb is_storage_call [StripeConstructEvent] = false.
Proof. repeat split. Qed.

(** C10. [api/webhook.js] answers a request whose method is not POST with
    status 405 and an empty body, and leaves the world as it was: no
    verification, no query, no other call. *)
Theorem handler_rejects_other_methods J method verified w :
  method <> "POST" ->
  handler J method verified w = (Responded (mkResponse 405 BodyEmpty), w).
Proof. apply handler_not_post. Qed.

Lemma handler_rejects_other_methods_witness :
  handler RefJson.codec "GET"
    (inr (Shop.checkout_completed [mkItem 1 2 None None])) Shop.open_shop
  = (Responded (mkResponse 405 BodyEmpty), Shop.open_shop).
Proof.
  apply (handler_rejects_other_methods RefJson.codec "GET").
  discriminate.
Defined.

(** ** Order rows *)

Lemma nothing_added {A} (l added : list A) : l = l ++ added -> added = [].
Proof. intro H. apply (app_inv_head l). now rewrite <- H, app_nil_r. Qed.

Lemma orders_fulfil J email items d :
  orders (fulfil J email items d) = orders d ++ [order_row J email items d].
Proof. reflexivity. Qed.

(** C9. Whatever requests are served, by whichever handler, the rows of
    table [orders] that were there stay and every row added has status
    ['paid']. *)
Theorem every_order_written_is_paid J FRONTEND_URL rs : forall w,
  exists added,
    orders (db (serve_all J FRONTEND_URL rs w)) = orders (db w) ++ added /\
    Forall (fun o => o_status o = "paid") added.
Proof.
  induction rs as [|r rs IH]; intro w; cbn [serve_all].
  - exists []. split; [now rewrite app_nil_r | constructor].
  - destruct (IH (snd (serve J FRONTEND_URL r w))) as (added & Ho & Hp).
    destruct (serve_db J FRONTEND_URL r w) as [H|(email & items & H)];
      rewrite H in Ho.
    + exists added. now split.
    + exists (order_row J email items (db w) :: added). split.
      * rewrite Ho, orders_fulfil, <- app_assoc. reflexivity.
      * constructor; [reflexivity | exact Hp].
Qed.

(** ** Deliveries of one event *)

Section Deliveries.

Variable J : JsonCodec.
Variable FRONTEND_URL : string.

(** A request that fulfils some items for [email] each time it is served
    adds one order row each time. *)
Lemma served_repeatedly_orders r email :
  (forall w, exists items,
     db (snd (serve J FRONTEND_URL r w)) = fulfil J email items (db w)) ->
  forall n w,
    List.length (orders (db (serve_all J FRONTEND_URL (repeat r n) w)))
    = (List.length (orders (db w)) + n)%nat.
Proof.
  intros Hr n. induction n as [|n IH]; intro w; cbn [repeat serve_all].
  - lia.
  - rewrite IH. destruct (Hr w) as [items ->].
    rewrite orders_fulfil, length_app. simpl. lia.
Qed.

(** A request that fulfils the same [items] each time it is served
    decrements the stock once more each time. *)
Lemma served_repeatedly_stock r email items :
  (forall w, db (snd (serve J FRONTEND_URL r w)) = fulfil J email items (db w)) ->
  forall n w id,
    stock_of (db (serve_all J FRONTEND_URL (repeat r n) w)) id
    = option_map (fun s => s - Z.of_nat n * demand items id)
                 (stock_of (db w) id).
Proof.
  intros Hr n. induction n as [|n IH]; intros w id; cbn [repeat serve_all].
  - destruct (stock_of (db w) id); cbn [option_map];
      [f_equal; lia | reflexivity].
  - rewrite IH, Hr, stock_of_fulfil.
    destruct (stock_of (db w) id); cbn [option_map];
      [f_equal; lia | reflexivity].
Qed.

Lemma webhook_completed_db event w :
  ev_type event = "checkout.session.completed" ->
  db (snd (serve J FRONTEND_URL (Webhook (inr event)) w))
  = fulfil J (customer_email (ev_data_object event))
      (candidate_items J (ev_data_object event) (db w)) (db w).
Proof.
  intro Ht. cbn [serve].
  destruct (post_webhook_verified J event w) as [_ H].
  now rewrite Ht in H.
Qed.

Lemma api_webhook_completed_db event w :
  ev_type event = "checkout.session.completed" ->
  db (snd (serve J FRONTEND_URL (ApiWebhook "POST" (inr event)) w))
  = fulfil J (customer_email (ev_data_object event))
      (metadata_items J (ev_data_object event)) (db w).
Proof.
  intro Ht. cbn [serve].
  destruct (handler_verified J event w) as [_ H].
  now rewrite Ht in H.
Qed.

(** C1, as the code has it.  No handler reads [event.id] or keeps a record
    of the events it applied, so every delivery of a
    [checkout.session.completed] event is applied on its own: [n]
    deliveries of one event add [n] order rows, and they decrement the stock
    of every product [n] times the quantity the event's manifest asks of it
    (for the webhook of the server file, when that manifest is not empty,
    so that the fallback is not consulted). *)
Theorem each_delivery_is_applied event n w :
  ev_type event = "checkout.session.completed" ->
  let manifest := metadata_items J (ev_data_object event) in
  let after_webhook :=
    serve_all J FRONTEND_URL (repeat (Webhook (inr event)) n) w in
  let after_api :=
    serve_all J FRONTEND_URL (repeat (ApiWebhook "POST" (inr event)) n) w in
  List.length (orders (db after_webhook)) = (List.length (orders (db w)) + n)%nat /\
  List.length (orders (db after_api)) = (List.length (orders (db w)) + n)%nat /\
  (manifest <> [] ->
   forall id,
     stock_of (db after_webhook) id
     = option_map (fun s => s - Z.of_nat n * demand manifest id)
                  (stock_of (db w) id)) /\
  (forall id,
     stock_of (db after_api) id
     = option_map (fun s => s - Z.of_nat n * demand manifest id)
                  (stock_of (db w) id)).
Proof.
  intros Ht manifest after_webhook after_api.
  split; [|split; [|split]].
  - apply served_repeatedly_orders
      with (email := customer_email (ev_data_object event)).
    intro w0. eexists. now apply webhook_completed_db.
  - apply served_repeatedly_orders
      with (email := customer_email (ev_data_object event)).
    intro w0. eexists. now apply api_webhook_completed_db.
  - intros Hne id.
    apply served_repeatedly_stock
      with (email := customer_email (ev_data_object event)).
    intro w0. rewrite webhook_completed_db by assumption.
    now rewrite candidate_items_embedded.
  - intro id.
    apply served_repeatedly_stock
      with (email := customer_email (ev_data_object event)).
    intro w0. now apply api_webhook_completed_db.
Qed.

End Deliveries.

(** C1, as stated, fails.  Product 1 has five in stock; event [evt_1]
    carries the manifest [[{"id":1,"quantity":2}]].  After one delivery there
    is one order and three in stock; after the second delivery of the same
    event there are two orders and one in stock. *)
Lemma second_delivery_applied_again :
  let delivery :=
    Webhook (inr (Shop.checkout_completed [mkItem 1 2 None None])) in
  let once := serve_all RefJson.codec Shop.frontend [delivery] Shop.open_shop in
  let twice := serve_all RefJson.codec Shop.frontend [delivery] once in
  (List.length (orders (db once)) = 1%nat /\ stock_of (db once) 1 = Some 3) /\
  (List.length (orders (db twice)) = 2%nat /\ stock_of (db twice) 1 = Some 1) /\
  products (db twice) <> products (db once) /\
  orders (db twice) <> orders (db once).
Proof.
  vm_compute. repeat split; discriminate.
Qed.

Lemma each_delivery_is_applied_witness :
  let event := Shop.checkout_completed [mkItem 1 2 None None] in
  let after_webhook :=
    serve_all RefJson.codec Shop.frontend (repeat (Webhook (inr event)) 2)
      Shop.open_shop in
  let after_api :=
    serve_all RefJson.codec Shop.frontend
      (repeat (ApiWebhook "POST" (inr event)) 2) Shop.open_shop in
  ev_type event = "checkout.session.completed" /\
  List.length (orders (db after_webhook)) = 2%nat /\
  List.length (orders (db after_api)) = 2%nat /\
  stock_of (db after_webhook) 1 = Some (5 - 2 * 2) /\
  stock_of (db after_api) 1 = Some (5 - 2 * 2).
Proof.
  intros event after_webhook after_api.
  assert (Ht : ev_type event = "checkout.session.completed") by reflexivity.
  destruct (each_delivery_is_applied RefJson.codec Shop.frontend event 2
              Shop.open_shop Ht) as (Hw & Ha & Hsw & Hsa).
  split; [exact Ht|]. split; [exact Hw|]. split; [exact Ha|]. split.
  - refine (Hsw _ 1). vm_compute. discriminate.
  - exact (Hsa 1).
Defined.

(** ** A delivery without a manifest *)

Lemma metadata_items_unavailable J session :
  manifest_unavailable J session -> metadata_items J session = [].
Proof.
  unfold manifest_unavailable, metadata_items.
  destruct (metadata session) as [md|]; [|reflexivity].
  destruct (md_items md) as [s|]; [|reflexivity].
  intros [-> | ->]; [reflexivity|].
  now destruct (truthy_string (Some s)).
Qed.

Lemma select_latest_products_none email os :
  (forall o, In o os -> o_email o <> Some email) ->
  select_latest_products email os = [].
Proof.
  intro H. unfold select_latest_products.
  replace (filter _ os) with (@nil Order); [reflexivity|].
  symmetry. induction os as [|o os IH]; [reflexivity|].
  cbn [filter].
  destruct (o_email o) as [e|] eqn:He.
  - destruct (String.eqb_spec e email) as [->|_].
    + exfalso. apply (H o); [now left | exact He].
    + apply IH. intros o' Hin. apply H. now right.
  - apply IH. intros o' Hin. apply H. now right.
Qed.

Lemma candidate_items_none J session d :
  manifest_unavailable J session ->
  (forall e o, customer_email session = Some e -> In o (orders d) ->
               o_email o <> Some e) ->
  candidate_items J session d = [].
Proof.
  intros Hm Hno. unfold candidate_items.
  rewrite (metadata_items_unavailable J session Hm).
  destruct (customer_email session) as [e|]; [|reflexivity].
  rewrite select_latest_products_none by (intros o; now apply Hno).
  now destruct (_ && _).
Qed.

(** C3, as the code has it.  When the manifest of a
    [checkout.session.completed] event is absent or cannot be parsed and no
    stored order has the event's email, the webhook of the server file
    leaves table [products] as it was and acknowledges with
    [{received: true}], and it inserts one order row: the empty item list,
    total 0, status ['paid']. *)
Theorem unrecoverable_manifest_inserts_empty_order J event w :
  ev_type event = "checkout.session.completed" ->
  manifest_unavailable J (ev_data_object event) ->
  (forall e o, customer_email (ev_data_object event) = Some e ->
               In o (orders (db w)) -> o_email o <> Some e) ->
  fst (post_webhook J (inr event) w)
  = Responded (mkResponse 200 BodyReceived) /\
  products (db (snd (post_webhook J (inr event) w))) = products (db w) /\
  orders (db (snd (post_webhook J (inr event) w)))
  = orders (db w)
    ++ [mkOrder (orders_id_seq (db w)) (customer_email (ev_data_object event))
          (JSON_stringify J []) 0%Q "paid"].
Proof.
  intros Ht Hm Hno.
  destruct (post_webhook_verified J event w) as [Hr Hd].
  rewrite Ht, String.eqb_refl in Hd.
  rewrite candidate_items_none in Hd by assumption.
  rewrite Hd. repeat split. exact Hr.
Qed.

Lemma unrecoverable_manifest_inserts_empty_order_witness :
  fst (post_webhook RefJson.codec (inr Shop.checkout_without_manifest)
         Shop.open_shop)
  = Responded (mkResponse 200 BodyReceived) /\
  products (db (snd (post_webhook RefJson.codec
                       (inr Shop.checkout_without_manifest) Shop.open_shop)))
  = products (db Shop.open_shop) /\
  orders (db (snd (post_webhook RefJson.codec
                     (inr Shop.checkout_without_manifest) Shop.open_shop)))
  = orders (db Shop.open_shop)
    ++ [mkOrder (orders_id_seq (db Shop.open_shop))
          (customer_email (ev_data_object Shop.checkout_without_manifest))
          (JSON_stringify RefJson.codec []) 0%Q "paid"].
Proof.
  apply (unrecoverable_manifest_inserts_empty_order RefJson.codec
           Shop.checkout_without_manifest Shop.open_shop).
  - reflexivity.
  - exact I.
  - intros e o _ [].
Defined.

(** C3, as stated, fails.  Event [evt_2] has no metadata and table
    [orders] is empty; after the delivery table [orders] holds one row, for
    the empty item list [[]]. *)
Lemma order_created_without_manifest :
  let after :=
    snd (post_webhook RefJson.codec (inr Shop.checkout_without_manifest)
           Shop.open_shop) in
  orders (db Shop.open_shop) = [] /\
  orders (db after)
  = [mkOrder 1 (Some "ann@example.com") "[]" 0%Q "paid"] /\
  orders (db after) <> orders (db Shop.open_shop).
Proof.
  vm_compute. repeat split; discriminate.
Qed.

(** ** A direct order at the edge of the stock *)

(** C6. A direct order for one product, with email and payment method
    given and a row for the product in table [products]: when it asks
    exactly the stock read for the product and the charge goes through, it
    is answered with the new order and the stock read for the product
    afterwards is 0; when it asks one more, it is answered with status 400,
    ["Insufficient stock for product <id>"], and the tables are as
    before. *)
Theorem direct_order_stock_boundary J email pm id name price s u charge w :
  truthy_string email = true ->
  truthy_string (Some pm) = true ->
  stock_of (db w) id = Some s ->
  let order quantity :=
    mkOrderRequest email (Some [mkItem id quantity name price]) (Some pm) in
  ((exists o,
      fst (post_api_orders J (order s) (inr u) w)
      = Responded (mkResponse 200 (BodyOrder o)) /\
      In o (orders (db (snd (post_api_orders J (order s) (inr u) w))))) /\
   stock_of (db (snd (post_api_orders J (order s) (inr u) w))) id = Some 0) /\
  (fst (post_api_orders J (order (s + 1)) charge w)
   = Responded (mkResponse 400
       (BodyError ("Insufficient stock for product " ++ show_Z id)%string)) /\
   db (snd (post_api_orders J (order (s + 1)) charge w)) = db w).
Proof.
  intros He Hpm Hs order.
  unfold post_api_orders, order.
  cbn [rq_items rq_paymentMethodId rq_email List.length Nat.eqb].
  rewrite He, Hpm. cbn [negb orb orders_check_loop orders_update_loop].
  run. cbn [item_id item_quantity].
  unfold stock_of in Hs.
  destruct (select_product id (products (db w))) as [|row rows] eqn:Hsel;
    [discriminate|].
  injection Hs as Hs. rewrite Hs.
  rewrite Z.ltb_irrefl.
  replace (s <? s + 1) with true by (symmetry; apply Z.ltb_lt; lia).
  cbn [fst snd db products orders].
  split; [split|split; reflexivity].
  - eexists. split; [reflexivity|]. apply in_or_app. right. now left.
  - destruct w as [[ps os n] cs]. cbn [db products orders orders_id_seq] in *.
    change (stock_of (mkDB (update_stock s id ps) (os ++ _) (n + 1)) id)
      with (stock_of (mkDB (update_stock s id ps) os n) id).
    rewrite stock_of_update, Z.eqb_refl. unfold stock_of.
    cbn [products]. rewrite Hsel, Hs. cbn [option_map]. f_equal. lia.
Qed.

Lemma direct_order_stock_boundary_witness :
  let order quantity :=
    mkOrderRequest (Some "ann@example.com")
      (Some [mkItem 1 quantity None None]) (Some "pm_card_visa") in
  ((exists o,
      fst (post_api_orders RefJson.codec (order 5) (inr tt) Shop.open_shop)
      = Responded (mkResponse 200 (BodyOrder o)) /\
      In o (orders (db (snd (post_api_orders RefJson.codec (order 5) (inr tt)
                               Shop.open_shop))))) /\
   stock_of (db (snd (post_api_orders RefJson.codec (order 5) (inr tt)
                        Shop.open_shop))) 1 = Some 0) /\
  (fst (post_api_orders RefJson.codec (order (5 + 1)) (inr tt) Shop.open_shop)
   = Responded (mkResponse 400
       (BodyError ("Insufficient stock for product " ++ show_Z 1)%string)) /\
   db (snd (post_api_orders RefJson.codec (order (5 + 1)) (inr tt)
              Shop.open_shop)) = db Shop.open_shop).
Proof.
  apply (direct_order_stock_boundary RefJson.codec (Some "ann@example.com")
           "pm_card_visa" 1 None None 5 tt (inr tt) Shop.open_shop);
    reflexivity.
Defined.

(** ** Checkout sessions *)

(** C5, as the code has it.  Creating a checkout session sends no query:
    the one call made is [stripe.checkout.sessions.create].  The unit amount
    of each line item is computed from the price the request body gives for
    the item ([Math.round((i.price || 0) * 100)] in the last revision, [10]
    in place of [0] in the one before), and its quantity is the item's.  The
    metadata hold the text of a manifest that reads back to the items' ids
    and quantities and nothing else. *)
Theorem checkout_session_prices_from_request J FRONTEND_URL rq created w items :
  json_roundtrip J ->
  cr_items rq = Some items ->
  let ask fallback_price :=
    StripeCheckoutSession
      (checkout_params J FRONTEND_URL fallback_price (cr_email rq) items) in
  snd (post_api_create_checkout_session J FRONTEND_URL rq created w)
  = mkWorld (db w) (calls w ++ [ask 0%Q]) /\
  snd (post_api_create_checkout_session_prev J FRONTEND_URL rq created w)
  = mkWorld (db w) (calls w ++ [ask 10%Q]) /\
  forall fallback_price,
    let p := checkout_params J FRONTEND_URL fallback_price (cr_email rq) items in
    map li_unit_amount (sp_line_items p)
    = map (fun i => Math_round (number_or (item_price i) fallback_price * 100))
          items /\
    map li_quantity (sp_line_items p) = map item_quantity items /\
    exists text manifest,
      sp_metadata_items p = Some text /\
      JSON_parse J text = Some manifest /\
      map id_quantity manifest = map id_quantity items /\
      Forall (fun entry => item_name entry = None /\ item_price entry = None)
             manifest.
Proof.
  intros HJ Hitems ask.
  unfold post_api_create_checkout_session,
    post_api_create_checkout_session_prev.
  rewrite Hitems.
  split; [destruct created; reflexivity|].
  split; [destruct created; reflexivity|].
  intros fallback_price. cbv zeta. unfold checkout_params.
  cbn [sp_line_items sp_metadata_items].
  split; [now rewrite map_map|]. split; [now rewrite map_map|].
  exists (JSON_stringify J (map manifest_entry items)),
         (map manifest_entry items).
  split; [reflexivity|]. split; [apply HJ|].
  split; [now rewrite map_map|].
  apply Forall_forall. intros entry Hin. apply in_map_iff in Hin.
  destruct Hin as (i & <- & _). now split.
Qed.

Lemma checkout_session_prices_from_request_witness :
  let rq := Shop.bargain in
  let items := [mkItem 1 1 None (Some (1 # 100))] in
  let ask fallback_price :=
    StripeCheckoutSession
      (checkout_params RefJson.codec Shop.frontend fallback_price
         (cr_email rq) items) in
  snd (post_api_create_checkout_session RefJson.codec Shop.frontend rq
         (inr "https://checkout.example/s1"%string) Shop.open_shop)
  = mkWorld (db Shop.open_shop) (calls Shop.open_shop ++ [ask 0%Q]) /\
  snd (post_api_create_checkout_session_prev RefJson.codec Shop.frontend rq
         (inr "https://checkout.example/s1"%string) Shop.open_shop)
  = mkWorld (db Shop.open_shop) (calls Shop.open_shop ++ [ask 10%Q]) /\
  forall fallback_price,
    let p := checkout_params RefJson.codec Shop.frontend fallback_price
               (cr_email rq) items in
    map li_unit_amount (sp_line_items p)
    = map (fun i => Math_round (number_or (item_price i) fallback_price * 100))
          items /\
    map li_quantity (sp_line_items p) = map item_quantity items /\
    exists text manifest,
      sp_metadata_items p = Some text /\
      JSON_parse RefJson.codec text = Some manifest /\
      map id_quantity manifest = map id_quantity items /\
      Forall (fun entry => item_name entry = None /\ item_price entry = None)
             manifest.
Proof.
  apply (checkout_session_prices_from_request RefJson.codec Shop.frontend
           Shop.bargain (inr "https://checkout.example/s1"%string)
           Shop.open_shop [mkItem 1 1 None (Some (1 # 100))]).
  - exact RefJsonFacts.roundtrip.
  - reflexivity.
Defined.

(** C5, as stated, fails.  Table [products] prices product 1 at 20; the
    request body prices it at 0.01.  In both revisions the line item sent to
    the gateway has unit amount 1, where the catalog price gives 2000. *)
Lemma checkout_unit_amount_from_request_body :
  let created := inr "https://checkout.example/s1"%string in
  let last :=
    snd (post_api_create_checkout_session RefJson.codec Shop.frontend
           Shop.bargain created Shop.open_shop) in
  let prev :=
    snd (post_api_create_checkout_session_prev RefJson.codec Shop.frontend
           Shop.bargain created Shop.open_shop) in
  let unit_amounts w :=
    map (fun p => map li_unit_amount (sp_line_items p))
        (sessions_created (calls w)) in
  price_of (db Shop.open_shop) 1 = Some (20 # 1) /\
  Math_round ((20 # 1) * 100) = 2000 /\
  unit_amounts last = [[1]] /\
  unit_amounts prev = [[1]] /\
  unit_amounts last <> [[2000]].
Proof.
  vm_compute. repeat split; discriminate.
Qed.

(** ** The stored item list *)

Section StoredItems.

Variable J : JsonCodec.
Hypothesis HJ : json_roundtrip J.

(** A direct order answered with an order ran its first loop to the end,
    on the items of the request, and the order is the row it appended. *)
Lemma post_api_orders_created rq charge w o :
  fst (post_api_orders J rq charge w) = Responded (mkResponse 200 (BodyOrder o)) ->
  exists items,
    rq_items rq = Some items /\
    fst (orders_check_loop items 0%Q w) = inr (o_total o) /\
    o_products o = JSON_stringify J items /\
    orders (db (snd (post_api_orders J rq charge w))) = orders (db w) ++ [o].
Proof.
  unfold post_api_orders.
  destruct (rq_items rq) as [items|]; [|discriminate].
  destruct (rq_paymentMethodId rq) as [pm|]; [|discriminate].
  destruct (negb (truthy_string (rq_email rq)) || (List.length items =? 0)%nat
            || negb (truthy_string (Some pm))); [discriminate|].
  run.
  destruct (orders_check_loop_spec items 0%Q w) as [Hdb Hres].
  destruct (orders_check_loop items 0%Q w) as [[r|total] w1] eqn:Hloop;
    cbn [fst snd] in *.
  - intros [= ->]. destruct Hres as [Hres _]. discriminate.
  - destruct charge as [message|u]; [discriminate|].
    match goal with
    | |- context [orders_update_loop items ?w2] =>
        pose proof (orders_update_loop_db items w2) as Hd;
        destruct (orders_update_loop items w2) as [[] w3]
    end.
    cbn [fst snd db] in *. rewrite Hdb in Hd.
    intros [= <-]. exists items. cbn [o_total o_products].
    rewrite Hd, Hloop. repeat split.
Qed.

(** C8. The [products] column of every order row reads back to exactly the
    item list (so to the same [{productId, quantity}] pairs) over which the
    handler ran the loop that computed the row's total: the items of the
    request for a direct order, the candidate items for the webhook of the
    server file, the manifest for [api/webhook.js]. *)
Theorem stored_items_read_back :
  (forall rq charge w o,
     fst (post_api_orders J rq charge w)
     = Responded (mkResponse 200 (BodyOrder o)) ->
     exists items,
       rq_items rq = Some items /\
       orders (db (snd (post_api_orders J rq charge w))) = orders (db w) ++ [o] /\
       fst (orders_check_loop items 0%Q w) = inr (o_total o) /\
       JSON_parse J (o_products o) = Some items /\
       (forall parsed, JSON_parse J (o_products o) = Some parsed ->
                       map id_quantity parsed = map id_quantity items)) /\
  (forall event w,
     ev_type event = "checkout.session.completed" ->
     exists o,
       let items := candidate_items J (ev_data_object event) (db w) in
       orders (db (snd (post_webhook J (inr event) w))) = orders (db w) ++ [o] /\
       (forall w1, db w1 = db w ->
                   fst (webhook_stock_loop items 0%Q w1) = o_total o) /\
       JSON_parse J (o_products o) = Some items /\
       (forall parsed, JSON_parse J (o_products o) = Some parsed ->
                       map id_quantity parsed = map id_quantity items)) /\
  (forall event w,
     ev_type event = "checkout.session.completed" ->
     exists o,
       let items := metadata_items J (ev_data_object event) in
       orders (db (snd (handler J "POST" (inr event) w))) = orders (db w) ++ [o] /\
       (forall w1, db w1 = db w ->
                   fst (webhook_stock_loop items 0%Q w1) = o_total o) /\
       JSON_parse J (o_products o) = Some items /\
       (forall parsed, JSON_parse J (o_products o) = Some parsed ->
                       map id_quantity parsed = map id_quantity items)).
Proof.
  split; [|split].
  - intros rq charge w o Hr.
    destruct (post_api_orders_created rq charge w o Hr)
      as (items & Hi & Hl & Hp & Ho).
    exists items. rewrite Hp, HJ. repeat split; try assumption.
    now intros parsed [= <-].
  - intros event w Ht.
    destruct (post_webhook_verified J event w) as [_ Hd].
    rewrite Ht, String.eqb_refl in Hd.
    eexists. cbv zeta. rewrite Hd, orders_fulfil.
    split; [reflexivity|]. cbn [order_row o_total o_products].
    rewrite HJ. repeat split.
    + intros w1 Hw1.
      destruct (webhook_stock_loop_spec
                  (candidate_items J (ev_data_object event) (db w)) 0%Q w1)
        as [_ ->].
      now rewrite Hw1.
    + now intros parsed [= <-].
  - intros event w Ht.
    destruct (handler_verified J event w) as [_ Hd].
    rewrite Ht, String.eqb_refl in Hd.
    eexists. cbv zeta. rewrite Hd, orders_fulfil.
    split; [reflexivity|]. cbn [order_row o_total o_products].
    rewrite HJ. repeat split.
    + intros w1 Hw1.
      destruct (webhook_stock_loop_spec
                  (metadata_items J (ev_data_object event)) 0%Q w1)
        as [_ ->].
      now rewrite Hw1.
    + now intros parsed [= <-].
Qed.

End StoredItems.

Lemma stored_items_read_back_witness :
  let J := RefJson.codec in
  let w := Shop.open_shop in
  let event := Shop.checkout_completed [mkItem 1 2 None None] in
  (exists items,
     rq_items (Shop.order_for 2) = Some items /\
     orders (db (snd (post_api_orders J (Shop.order_for 2) (inr tt) w)))
     = orders (db w)
       ++ [order_row J (Some "ann@example.com") [mkItem 1 2 None None] (db w)] /\
     fst (orders_check_loop items 0%Q w)
     = inr (o_total (order_row J (Some "ann@example.com")
                       [mkItem 1 2 None None] (db w))) /\
     JSON_parse J (o_products (order_row J (Some "ann@example.com")
                                 [mkItem 1 2 None None] (db w)))
     = Some items /\
     (forall parsed,
        JSON_parse J (o_products (order_row J (Some "ann@example.com")
                                    [mkItem 1 2 None None] (db w)))
        = Some parsed ->
        map id_quantity parsed = map id_quantity items)) /\
  (exists o,
     let items := candidate_items J (ev_data_object event) (db w) in
     orders (db (snd (post_webhook J (inr event) w))) = orders (db w) ++ [o] /\
     (forall w1, db w1 = db w ->
                 fst (webhook_stock_loop items 0%Q w1) = o_total o) /\
     JSON_parse J (o_products o) = Some items /\
     (forall parsed, JSON_parse J (o_products o) = Some parsed ->
                     map id_quantity parsed = map id_quantity items)) /\
  (exists o,
     let items := metadata_items J (ev_data_object event) in
     orders (db (snd (handler J "POST" (inr event) w))) = orders (db w) ++ [o] /\
     (forall w1, db w1 = db w ->
                 fst (webhook_stock_loop items 0%Q w1) = o_total o) /\
     JSON_parse J (o_products o) = Some items /\
     (forall parsed, JSON_parse J (o_products o) = Some parsed ->
                     map id_quantity parsed = map id_quantity items)).
Proof.
  intros J w event.
  destruct (stored_items_read_back J RefJsonFacts.roundtrip)
    as (Hdirect & Hwebhook & Hapi).
  split; [|split].
  - apply (Hdirect (Shop.order_for 2) (inr tt) w). reflexivity.
  - apply (Hwebhook event w). reflexivity.
  - apply (Hapi event w). reflexivity.
Defined.

(** ** Stock below zero *)

Lemma stock_of_open_shop : stocks_nonnegative (db Shop.open_shop).
Proof.
  intros id s. unfold stock_of, Shop.open_shop, select_product.
  cbn [db products filter p_id].
  destruct (1 =? id); intro H; inversion H. cbn [p_stock]. lia.
Qed.

(** C2, as stated, fails.  Product 1 has five in stock; a webhook delivery
    whose manifest asks seven of it is applied (an order row is added) and
    leaves the stock at -2. *)
Lemma webhook_drives_stock_negative :
  let delivery :=
    Webhook (inr (Shop.checkout_completed [mkItem 1 7 None None])) in
  let after := serve_all RefJson.codec Shop.frontend [delivery] Shop.open_shop in
  stocks_nonnegative (db Shop.open_shop) /\
  stock_of (db Shop.open_shop) 1 = Some 5 /\
  stock_of (db after) 1 = Some (-2) /\
  List.length (orders (db after)) = 1%nat /\
  ~ stocks_nonnegative (db after).
Proof.
  split; [exact stock_of_open_shop|].
  split; [reflexivity|]. split; [vm_compute; reflexivity|].
  split; [vm_compute; reflexivity|].
  intro H. specialize (H 1 (-2)).
  assert (0 <= -2) by (apply H; vm_compute; reflexivity). lia.
Qed.

(** Why the statement below asks for different products: each item of a
    direct order is checked against the stock read before any decrement.
    With five in stock, an order listing product 1 twice, three each, passes
    both checks and leaves the stock at -1. *)
Lemma repeated_item_passes_the_check :
  let order :=
    mkOrderRequest (Some "ann@example.com")
      (Some [mkItem 1 3 None None; mkItem 1 3 None None])
      (Some "pm_card_visa") in
  let served := post_api_orders RefJson.codec order (inr tt) Shop.open_shop in
  (exists o, fst served = Responded (mkResponse 200 (BodyOrder o))) /\
  stock_of (db (snd served)) 1 = Some (-1).
Proof.
  split; [eexists|]; vm_compute; reflexivity.
Qed.

Section DirectOrders.

Variable J : JsonCodec.
Variable FRONTEND_URL : string.

(** A direct order with an item that asks more than the stock read for its
    product is answered with a 400 and changes no table. *)
Lemma post_api_orders_insufficient rq charge w items item s :
  rq_items rq = Some items ->
  In item items ->
  stock_of (db w) (item_id item) = Some s ->
  s < item_quantity item ->
  db (snd (post_api_orders J rq charge w)) = db w /\
  exists r, fst (post_api_orders J rq charge w) = Responded r /\ status r = 400.
Proof.
  intros Hitems Hin Hs Hlt.
  destruct (post_api_orders_spec J rq charge w)
    as [H|(items' & Hitems' & Hok & _)]; [exact H|].
  exfalso. rewrite Hitems in Hitems'. injection Hitems' as <-.
  rewrite Forall_forall in Hok. destruct (Hok item Hin) as (s' & Hs' & Hle).
  rewrite Hs in Hs'. injection Hs' as <-. lia.
Qed.

(** A direct order for pairwise different products keeps the stock read
    for every product at or above zero. *)
Lemma post_api_orders_nonnegative rq charge w :
  stock_checked (DirectOrder rq charge) ->
  stocks_nonnegative (db w) ->
  stocks_nonnegative (db (snd (post_api_orders J rq charge w))).
Proof.
  intros Hdistinct Hnn.
  destruct (post_api_orders_spec J rq charge w)
    as [[H _]|(items & Hitems & Hok & [[H _]|[H _]])]; rewrite H;
    try exact Hnn.
  cbn [stock_checked] in Hdistinct. rewrite Hitems in Hdistinct.
  intros id s'. rewrite stock_of_fulfil.
  destruct (stock_of (db w) id) as [s|] eqn:Hs; [|discriminate].
  cbn [option_map]. intros [= <-].
  pose proof (Hnn id s Hs) as H0.
  destruct (in_dec Z.eq_dec id (map item_id items)) as [Hin|Hout].
  - apply in_map_iff in Hin. destruct Hin as (item & <- & Hin).
    rewrite demand_distinct by assumption.
    rewrite Forall_forall in Hok. destruct (Hok item Hin) as (s1 & Hs1 & Hle).
    rewrite Hs in Hs1. injection Hs1 as <-. lia.
  - rewrite demand_absent by assumption. lia.
Qed.

(** A request that is not a delivery of a completed checkout and is not a
    direct order changes no table. *)
Lemma serve_other_db r w :
  stock_checked r ->
  (forall rq charge, r <> DirectOrder rq charge) ->
  db (snd (serve J FRONTEND_URL r w)) = db w.
Proof.
  intros Hr Hnd.
  destruct r as [rq charge|verified|method verified|rq created|rq created];
    cbn [serve].
  - now elim (Hnd rq charge).
  - destruct verified as [message|event]; [reflexivity|].
    destruct (post_webhook_verified J event w) as [_ ->].
    cbn [stock_checked] in Hr.
    now destruct (String.eqb_spec (ev_type event) "checkout.session.completed").
  - destruct (String.eqb_spec method "POST") as [->|Hm];
      [|now rewrite handler_not_post].
    destruct verified as [message|event]; [reflexivity|].
    destruct (handler_verified J event w) as [_ ->].
    cbn [stock_checked] in Hr.
    now destruct (String.eqb_spec (ev_type event) "checkout.session.completed").
  - apply checkout_session_db.
  - apply checkout_session_db.
Qed.

(** C2, as the code has it.  Take requests served one after the other,
    none of them a delivery of a completed checkout and each direct order
    among them for pairwise different products.  If no stock is negative
    before, none is negative after; and a further direct order with an item
    that asks more than the stock then read for its product is answered with
    a 400 and changes no table.  (A delivery of a completed checkout
    decrements without reading the stock.) *)
Theorem checked_requests_keep_stock rs w :
  Forall stock_checked rs ->
  stocks_nonnegative (db w) ->
  let after := serve_all J FRONTEND_URL rs w in
  stocks_nonnegative (db after) /\
  forall rq charge items item s,
    rq_items rq = Some items ->
    In item items ->
    stock_of (db after) (item_id item) = Some s ->
    s < item_quantity item ->
    db (snd (post_api_orders J rq charge after)) = db after /\
    exists r, fst (post_api_orders J rq charge after) = Responded r
              /\ status r = 400.
Proof.
  intros Hrs Hnn after. split.
  - subst after. revert w Hnn.
    induction Hrs as [|r rs Hr Hrs IH]; intros w Hnn; cbn [serve_all].
    + exact Hnn.
    + apply IH.
      destruct r as [rq charge| | | |];
        [now apply post_api_orders_nonnegative| | | |];
        rewrite serve_other_db; auto; discriminate.
  - intros rq charge items item s. apply post_api_orders_insufficient.
Qed.

End DirectOrders.

Lemma checked_requests_keep_stock_witness :
  let rs := [DirectOrder (Shop.order_for 5) (inr tt);
             Webhook (inl "No signatures found"%string);
             DirectOrder (Shop.order_for 1) (inr tt)] in
  let after := serve_all RefJson.codec Shop.frontend rs Shop.open_shop in
  (Forall stock_checked rs /\ stocks_nonnegative (db Shop.open_shop)) /\
  stocks_nonnegative (db after) /\
  stock_of (db after) 1 = Some 0 /\
  db (snd (post_api_orders RefJson.codec (Shop.order_for 1) (inr tt) after))
  = db after /\
  exists r,
    fst (post_api_orders RefJson.codec (Shop.order_for 1) (inr tt) after)
    = Responded r /\ status r = 400.
Proof.
  intros rs after.
  assert (Hrs : Forall stock_checked rs)
    by (repeat constructor; simpl; tauto).
  destruct (checked_requests_keep_stock RefJson.codec Shop.frontend rs
              Shop.open_shop Hrs stock_of_open_shop) as [Hnn Hfail].
  split; [split; [exact Hrs | exact stock_of_open_shop]|].
  split; [exact Hnn|]. split; [reflexivity|].
  apply (Hfail (Shop.order_for 1) (inr tt) [mkItem 1 1 None None]
           (mkItem 1 1 None None) 0).
  - reflexivity.
  - now left.
  - reflexivity.
  - reflexivity.
Defined.

(** * Further properties of the handlers *)

(** ** The worlds the loops leave *)

Lemma world_eta w : mkWorld (db w) (calls w) = w.
Proof. now destruct w. Qed.

Lemma db_eta d : mkDB (products d) (orders d) (orders_id_seq d) = d.
Proof. now destruct d. Qed.

Lemma in_stock_row d item :
  in_stock d item ->
  exists row rows,
    select_product (item_id item) (products d) = row :: rows /\
    (p_stock row <? item_quantity item) = false.
Proof.
  intros (s & Hs & Hle). unfold stock_of in Hs.
  destruct (select_product (item_id item) (products d)) as [|row rows];
    [discriminate|].
  injection Hs as <-. exists row, rows. split; [reflexivity|].
  now apply Z.ltb_ge.
Qed.

Lemma not_in_stock_row d item row rows :
  ~ in_stock d item ->
  select_product (item_id item) (products d) = row :: rows ->
  (p_stock row <? item_quantity item) = true.
Proof.
  intros Hn Hsel. apply Z.ltb_lt.
  destruct (Z.lt_ge_cases (p_stock row) (item_quantity item)) as [H|H];
    [exact H|].
  exfalso. apply Hn. exists (p_stock row). unfold stock_of.
  rewrite Hsel. now split.
Qed.

Lemma add_line_row d total item row rows :
  select_product (item_id item) (products d) = row :: rows ->
  add_line d total item
  = (total + p_price row * inject_Z (item_quantity item))%Q.
Proof. intro H. unfold add_line, price_of. now rewrite H. Qed.

Lemma add_line_absent d total item :
  select_product (item_id item) (products d) = [] ->
  add_line d total item = total.
Proof. intro H. unfold add_line, price_of. now rewrite H. Qed.

(** The first loop of a direct order on items that all pass: every item is
    read once, in order, and the ledger total comes out. *)
Lemma orders_check_loop_passes items : forall total w,
  Forall (in_stock (db w)) items ->
  orders_check_loop items total w
  = (inr (fold_left (add_line (db w)) items total),
     mkWorld (db w) (calls w ++ stock_reads items)).
Proof.
  induction items as [|item rest IH]; intros total w Hok.
  - cbn. now rewrite app_nil_r, world_eta.
  - inversion Hok as [|? ? Hitem Hrest]; subst.
    destruct (in_stock_row _ _ Hitem) as (row & rows & Hsel & Hlt).
    cbn [orders_check_loop fold_left stock_reads map]. run.
    rewrite Hsel, Hlt, IH by exact Hrest.
    cbn [db calls]. rewrite (add_line_row _ _ _ _ _ Hsel).
    now rewrite <- app_assoc.
Qed.

(** The first loop stops at the first item that does not pass, after
    reading it, with the error for that item. *)
Lemma orders_check_loop_stops good bad rest : forall total w,
  Forall (in_stock (db w)) good ->
  ~ in_stock (db w) bad ->
  orders_check_loop (good ++ bad :: rest) total w
  = (inl (mkResponse 400
            (BodyError
               match stock_of (db w) (item_id bad) with
               | None => ("Product " ++ show_Z (item_id bad)
                          ++ " not found")%string
               | Some _ => ("Insufficient stock for product "
                            ++ show_Z (item_id bad))%string
               end)),
     mkWorld (db w) (calls w ++ stock_reads (good ++ [bad]))).
Proof.
  induction good as [|item good IH]; intros total w Hok Hbad.
  - cbn [app orders_check_loop stock_reads map]. run. unfold stock_of.
    destruct (select_product (item_id bad) (products (db w)))
      as [|row rows] eqn:Hsel; [reflexivity|].
    now rewrite (not_in_stock_row _ _ _ _ Hbad Hsel).
  - inversion Hok as [|? ? Hitem Hgood]; subst.
    destruct (in_stock_row _ _ Hitem) as (row & rows & Hsel & Hlt).
    cbn [app orders_check_loop stock_reads map]. run.
    rewrite Hsel, Hlt, IH by assumption.
    cbn [db calls]. now rewrite <- app_assoc.
Qed.

(** The second loop of a direct order: one [UPDATE] per item, in order. *)
Lemma orders_update_loop_world items : forall w,
  orders_update_loop items w
  = (tt, mkWorld (mkDB (decrement_all items (products (db w)))
                       (orders (db w)) (orders_id_seq (db w)))
                 (calls w ++ stock_writes items)).
Proof.
  induction items as [|item rest IH]; intro w.
  - cbn. now rewrite app_nil_r, db_eta, world_eta.
  - cbn [orders_update_loop decrement_all fold_left stock_writes map]. run.
    rewrite IH. cbn [db calls products orders orders_id_seq].
    now rewrite <- app_assoc.
Qed.

Lemma webhook_stock_calls_ext d d' items :
  (forall id, price_of d' id = price_of d id) ->
  webhook_stock_calls d' items = webhook_stock_calls d items.
Proof.
  intro H. unfold webhook_stock_calls.
  induction items as [|item rest IH]; [reflexivity|].
  cbn [flat_map]. now rewrite H, IH.
Qed.

(** The webhook's loop: the ledger total, one [UPDATE] per item on the
    table, and the queries in order. *)
Lemma webhook_stock_loop_world items : forall total w,
  webhook_stock_loop items total w
  = (fold_left (add_line (db w)) items total,
     mkWorld (mkDB (decrement_all items (products (db w)))
                   (orders (db w)) (orders_id_seq (db w)))
             (calls w ++ webhook_stock_calls (db w) items)).
Proof.
  induction items as [|item rest IH]; intros total w.
  - cbn. now rewrite app_nil_r, db_eta, world_eta.
  - cbn [webhook_stock_loop decrement_all fold_left webhook_stock_calls
         flat_map]. run.
    destruct (select_product (item_id item) (products (db w)))
      as [|row rows] eqn:Hsel.
    + rewrite IH. cbn [db calls].
      rewrite update_stock_absent, (add_line_absent _ _ _ Hsel) by exact Hsel.
      replace (price_of (db w) (item_id item)) with (@None Q)
        by (unfold price_of; now rewrite Hsel).
      now rewrite <- app_assoc.
    + rewrite IH. cbn [db calls products orders orders_id_seq].
      pose proof (decremented_update item (db w)) as (_ & _ & _ & Hp).
      rewrite (add_line_ext _ _ Hp), (webhook_stock_calls_ext _ _ _ Hp).
      rewrite (add_line_row _ _ _ _ _ Hsel).
      replace (price_of (db w) (item_id item)) with (Some (p_price row))
        by (unfold price_of; now rewrite Hsel).
      now rewrite <- !app_assoc.
Qed.

(** ** Direct orders, call by call *)

Lemma in_stock_dec d item : {in_stock d item} + {~ in_stock d item}.
Proof.
  unfold in_stock.
  destruct (stock_of d (item_id item)) as [s|].
  - destruct (Z_le_gt_dec (item_quantity item) s) as [Hle|Hgt].
    + left. eauto.
    + right. intros (s' & [= <-] & Hle). lia.
  - right. intros (s' & Hs & _). discriminate.
Qed.

(** Either every item passes, or there is a first one that does not. *)
Lemma first_out_of_stock d items :
  Forall (in_stock d) items \/
  exists good bad rest,
    items = good ++ bad :: rest /\ Forall (in_stock d) good /\
    ~ in_stock d bad.
Proof.
  induction items as [|item items IH]; [left; constructor|].
  destruct (in_stock_dec d item) as [Hin|Hout].
  - destruct IH as [Hall|(good & bad & rest & -> & Hgood & Hbad)].
    + left. now constructor.
    + right. exists (item :: good), bad, rest.
      repeat split; [now constructor | exact Hbad].
  - right. exists [], item, items. repeat split; [constructor | exact Hout].
Qed.

(** The body of a direct order either fails the first test of the handler
    or is well formed. *)
Lemma order_shape rq :
  (rq_items rq = None \/ rq_items rq = Some [] \/
   rq_paymentMethodId rq = None \/ truthy_string (rq_paymentMethodId rq) = false \/
   truthy_string (rq_email rq) = false) \/
  exists items pm, well_formed_order rq items pm.
Proof.
  unfold well_formed_order.
  destruct (rq_items rq) as [[|item items]|]; [tauto | | tauto].
  destruct (rq_paymentMethodId rq) as [pm|]; [|tauto].
  destruct (truthy_string (Some pm)) eqn:Hpm; [|tauto].
  destruct (truthy_string (rq_email rq)) eqn:He; [|tauto].
  right. exists (item :: items), pm. repeat split; try assumption.
  discriminate.
Qed.

Section DirectOrderTraces.

Variable J : JsonCodec.

Lemma post_api_orders_malformed rq charge w :
  rq_items rq = None \/ rq_items rq = Some [] \/
  rq_paymentMethodId rq = None \/ truthy_string (rq_paymentMethodId rq) = false \/
  truthy_string (rq_email rq) = false ->
  let refused :=
    (Responded (mkResponse 400 (BodyError "Missing required fields")), w) in
  post_api_orders J rq charge w = refused /\
  post_api_orders_rev1 J rq charge w = refused /\
  post_api_orders_rev2 rq w = refused.
Proof.
  intros H refused. unfold refused, post_api_orders, post_api_orders_rev1,
    post_api_orders_rev2.
  destruct (rq_items rq) as [items|]; [|now repeat split].
  destruct (rq_paymentMethodId rq) as [pm|]; [|now repeat split].
  destruct H as [H|[H|[H|[H|H]]]]; try discriminate.
  - injection H as ->. cbn [List.length Nat.eqb].
    rewrite orb_true_r. now repeat split.
  - rewrite H. cbn [negb]. rewrite orb_true_r. now repeat split.
  - rewrite H. now repeat split.
Qed.

(** X1. A direct order whose body lacks the email, the payment method or
    the items, or whose item list is empty, is answered with status 400,
    ["Missing required fields"], in every revision of the server file, and
    nothing else happens: no query, no charge, no table changed. *)
Theorem malformed_order_rejected_untouched rq charge w :
  rq_items rq = None \/ rq_items rq = Some [] \/
  rq_paymentMethodId rq = None \/ truthy_string (rq_paymentMethodId rq) = false \/
  truthy_string (rq_email rq) = false ->
  let refused :=
    (Responded (mkResponse 400 (BodyError "Missing required fields")), w) in
  post_api_orders J rq charge w = refused /\
  post_api_orders_rev1 J rq charge w = refused /\
  post_api_orders_rev2 rq w = refused.
Proof. exact (post_api_orders_malformed rq charge w). Qed.

Lemma post_api_orders_well_formed rq items pm charge w :
  well_formed_order rq items pm ->
  post_api_orders J rq charge w
  = (checked <- orders_check_loop items 0%Q ;;
     match checked with
     | inl r => ret (Responded r)
     | inr total =>
         record (StripePaymentIntent (Math_round (total * 100)) pm) ;;;
         match charge with
         | inl _ => reply 500 (BodyError "Error processing order")
         | inr _ =>
             orders_update_loop items ;;;
             o <- pg_insert_order (rq_email rq) (JSON_stringify J items)
                    total "paid" ;;
             sendConfirmationEmail (rq_email rq) (DetailsRow o) ;;;
             reply 200 (BodyOrder o)
         end
     end) w.
Proof.
  intros (Hi & Hp & He & Hne & Hpm). unfold post_api_orders.
  rewrite Hi, Hp, He, Hpm.
  destruct items as [|item items]; [contradiction | reflexivity].
Qed.

Lemma post_api_orders_stops rq good bad rest pm charge w :
  well_formed_order rq (good ++ bad :: rest) pm ->
  Forall (in_stock (db w)) good ->
  ~ in_stock (db w) bad ->
  post_api_orders J rq charge w
  = (Responded
       (mkResponse 400
          (BodyError
             match stock_of (db w) (item_id bad) with
             | None => ("Product " ++ show_Z (item_id bad)
                        ++ " not found")%string
             | Some _ => ("Insufficient stock for product "
                          ++ show_Z (item_id bad))%string
             end)),
     mkWorld (db w) (calls w ++ stock_reads (good ++ [bad]))).
Proof.
  intros Hwf Hgood Hbad.
  rewrite (post_api_orders_well_formed _ _ _ _ _ Hwf). unfold bind at 1.
  now rewrite orders_check_loop_stops.
Qed.

(** X2. A well-formed direct order is checked item by item, in order, and
    stops at the first item whose product has no row or that asks more than
    the stock read for it: the answer is a 400 naming that product, and the
    only calls made are the [SELECT]s up to and including that item; no
    charge, no [UPDATE], no [INSERT], no mail. *)
Theorem direct_order_stops_at_first_failure rq good bad rest pm charge w :
  well_formed_order rq (good ++ bad :: rest) pm ->
  Forall (in_stock (db w)) good ->
  ~ in_stock (db w) bad ->
  post_api_orders J rq charge w
  = (Responded
       (mkResponse 400
          (BodyError
             match stock_of (db w) (item_id bad) with
             | None => ("Product " ++ show_Z (item_id bad)
                        ++ " not found")%string
             | Some _ => ("Insufficient stock for product "
                          ++ show_Z (item_id bad))%string
             end)),
     mkWorld (db w) (calls w ++ stock_reads (good ++ [bad]))).
Proof. exact (post_api_orders_stops rq good bad rest pm charge w). Qed.

Lemma post_api_orders_refused rq items pm message w :
  well_formed_order rq items pm ->
  Forall (in_stock (db w)) items ->
  post_api_orders J rq (inl message) w
  = (Responded (mkResponse 500 (BodyError "Error processing order")),
     mkWorld (db w)
       (calls w ++ stock_reads items
        ++ [StripePaymentIntent
              (Math_round (ledger_total (db w) items * 100)) pm])).
Proof.
  intros Hwf Hok.
  rewrite (post_api_orders_well_formed _ _ _ _ _ Hwf). unfold bind at 1.
  rewrite orders_check_loop_passes by exact Hok. run.
  now rewrite <- app_assoc.
Qed.

(** X3. When every item of a well-formed direct order passes the check and
    the gateway refuses the charge, the answer is a 500 and no table has
    changed; the calls made are the [SELECT]s and one charge, for the
    ledger total of the items in cents. *)
Theorem direct_order_charge_refused rq items pm message w :
  well_formed_order rq items pm ->
  Forall (in_stock (db w)) items ->
  post_api_orders J rq (inl message) w
  = (Responded (mkResponse 500 (BodyError "Error processing order")),
     mkWorld (db w)
       (calls w ++ stock_reads items
        ++ [StripePaymentIntent
              (Math_round (ledger_total (db w) items * 100)) pm])).
Proof. exact (post_api_orders_refused rq items pm message w). Qed.

Lemma post_api_orders_fulfilled rq items pm u w :
  well_formed_order rq items pm ->
  Forall (in_stock (db w)) items ->
  let o := order_row J (rq_email rq) items (db w) in
  post_api_orders J rq (inr u) w
  = (Responded (mkResponse 200 (BodyOrder o)),
     mkWorld (fulfil J (rq_email rq) items (db w))
       (calls w ++ stock_reads items
        ++ [StripePaymentIntent (Math_round (o_total o * 100)) pm]
        ++ stock_writes items
        ++ [PgInsertOrder (rq_email rq) (o_products o) (o_total o) "paid";
            SendMail (rq_email rq) (DetailsRow o)])).
Proof.
  intros Hwf Hok o.
  rewrite (post_api_orders_well_formed _ _ _ _ _ Hwf). unfold bind at 1.
  rewrite orders_check_loop_passes by exact Hok.
  unfold bind at 1. unfold record at 1. unfold bind at 1.
  rewrite orders_update_loop_world. run.
  unfold o, fulfil, order_row, ledger_total. cbn [o_total o_products].
  now rewrite <- !app_assoc.
Qed.

(** X4. When every item of a well-formed direct order passes the check and
    the gateway accepts the charge, the calls are, in this order: the
    [SELECT]s, one charge for the ledger total in cents, one [UPDATE] per
    item, one [INSERT] and one mail.  The amount charged is the total of the
    row inserted, and the row is what the answer and the mail carry. *)
Theorem direct_order_fulfilled_trace rq items pm u w :
  well_formed_order rq items pm ->
  Forall (in_stock (db w)) items ->
  let o := order_row J (rq_email rq) items (db w) in
  post_api_orders J rq (inr u) w
  = (Responded (mkResponse 200 (BodyOrder o)),
     mkWorld (fulfil J (rq_email rq) items (db w))
       (calls w ++ stock_reads items
        ++ [StripePaymentIntent (Math_round (o_total o * 100)) pm]
        ++ stock_writes items
        ++ [PgInsertOrder (rq_email rq) (o_products o) (o_total o) "paid";
            SendMail (rq_email rq) (DetailsRow o)])).
Proof. exact (post_api_orders_fulfilled rq items pm u w). Qed.

End DirectOrderTraces.

(** ** What a direct order leaves behind *)

Lemma mails_app cs cs' : mails (cs ++ cs') = mails cs ++ mails cs'.
Proof. apply filter_app. Qed.

Lemma charges_app cs cs' : charges (cs ++ cs') = charges cs ++ charges cs'.
Proof. apply filter_app. Qed.

Lemma mails_stock_reads items : mails (stock_reads items) = [].
Proof. induction items; [reflexivity | exact IHitems]. Qed.

Lemma charges_stock_reads items : charges (stock_reads items) = [].
Proof. induction items; [reflexivity | exact IHitems]. Qed.

Lemma mails_stock_writes items : mails (stock_writes items) = [].
Proof. induction items; [reflexivity | exact IHitems]. Qed.

Lemma mails_webhook_stock_calls d items : mails (webhook_stock_calls d items) = [].
Proof.
  induction items as [|item items IH]; [reflexivity|].
  cbn [webhook_stock_calls flat_map]. rewrite mails_app.
  fold (webhook_stock_calls d items). rewrite IH.
  now destruct (price_of d (item_id item)).
Qed.

Section DirectOrderOutcomes.

Variable J : JsonCodec.

(** X5. A direct order that is answered with status 400, or whose charge
    the gateway refuses, has changed no table and sent no mail; when it is
    answered with status 400 it has not charged either.  (A query that
    throws is not part of the embedding, so nothing is said of the other
    ways to the answer 500.) *)
Theorem unfulfilled_order_leaves_no_trace rq charge w r :
  fst (post_api_orders J rq charge w) = Responded r ->
  status r = 400 \/ (exists message, charge = inl message) ->
  let after := snd (post_api_orders J rq charge w) in
  db after = db w /\
  mails (calls after) = mails (calls w) /\
  (status r = 400 -> charges (calls after) = charges (calls w)).
Proof.
  intros Hr Hs after. subst after.
  destruct (order_shape rq) as [Hbad|(items & pm & Hwf)].
  - destruct (post_api_orders_malformed J rq charge w Hbad) as [E _].
    rewrite E. now repeat split.
  - destruct (first_out_of_stock (db w) items)
      as [Hok|(good & bad & rest & -> & Hgood & Hbad)].
    + destruct charge as [message|u].
      * rewrite (post_api_orders_refused J _ _ _ message w Hwf Hok) in *.
        cbn [fst snd db calls] in *. injection Hr as <-.
        split; [reflexivity|]. split.
        -- rewrite !mails_app, mails_stock_reads. cbn. now rewrite app_nil_r.
        -- discriminate.
      * rewrite (post_api_orders_fulfilled J _ _ _ u w Hwf Hok) in Hr.
        cbn [fst] in Hr. injection Hr as <-.
        destruct Hs as [Hs|[message Hs]]; discriminate.
    + rewrite (post_api_orders_stops J _ _ _ _ _ charge w Hwf Hgood Hbad).
      cbn [snd db calls].
      rewrite mails_app, charges_app, mails_stock_reads, charges_stock_reads,
        !app_nil_r.
      now repeat split.
Qed.

(** X6. A direct order that is fulfilled lowers the stock read for every
    product by the total quantity its items ask of that product, leaves the
    stock of the products it does not name and every price as they were,
    and adds exactly one order row.  Quantities are not required to be
    positive: an item passes the check whenever it asks no more than the
    stock, so a negative quantity raises the stock. *)
Theorem fulfilled_order_stock_arithmetic rq items pm u w :
  well_formed_order rq items pm ->
  Forall (in_stock (db w)) items ->
  let after := db (snd (post_api_orders J rq (inr u) w)) in
  (forall id,
     stock_of after id
     = option_map (fun s => s - demand items id) (stock_of (db w) id)) /\
  (forall id, ~ In id (map item_id items) ->
              stock_of after id = stock_of (db w) id) /\
  (NoDup (map item_id items) ->
   forall item, In item items ->
     stock_of after (item_id item)
     = option_map (fun s => s - item_quantity item)
                  (stock_of (db w) (item_id item))) /\
  (forall id, price_of after id = price_of (db w) id) /\
  orders after = orders (db w) ++ [order_row J (rq_email rq) items (db w)].
Proof.
  intros Hwf Hok after. subst after.
  rewrite (post_api_orders_fulfilled J _ _ _ u w Hwf Hok). cbn [snd db].
  split; [intro id; apply stock_of_fulfil|].
  split; [|split; [|split; [intro id; apply price_of_fulfil | reflexivity]]].
  - intros id Hid. rewrite stock_of_fulfil, demand_absent by exact Hid.
    apply option_map_sub_0.
  - intros Hnd item Hin. now rewrite stock_of_fulfil, demand_distinct.
Qed.

End DirectOrderOutcomes.

(** ** Direct orders in the earlier revisions *)

Lemma orders_check_loop_rev1_passes items : forall total w,
  Forall (in_stock (db w)) items ->
  orders_check_loop_rev1 items total w
  = (inr (fold_left (add_line (db w)) items total),
     mkWorld (db w) (calls w ++ stock_reads items)).
Proof.
  induction items as [|item rest IH]; intros total w Hok.
  - cbn. now rewrite app_nil_r, world_eta.
  - inversion Hok as [|? ? Hitem Hrest]; subst.
    destruct (in_stock_row _ _ Hitem) as (row & rows & Hsel & Hlt).
    cbn [orders_check_loop_rev1 fold_left stock_reads map]. run.
    rewrite Hsel, Hlt, IH by exact Hrest.
    cbn [db calls]. rewrite (add_line_row _ _ _ _ _ Hsel).
    now rewrite <- app_assoc.
Qed.

Lemma orders_check_loop_rev1_stops good bad rest : forall total w,
  Forall (in_stock (db w)) good ->
  ~ in_stock (db w) bad ->
  orders_check_loop_rev1 (good ++ bad :: rest) total w
  = (inl (mkResponse 400
            (BodyError
               match stock_of (db w) (item_id bad) with
               | None => ("Product " ++ show_Z (item_id bad)
                          ++ " not found")%string
               | Some _ => ("Not enough stock for product "
                            ++ show_Z (item_id bad))%string
               end)),
     mkWorld (db w) (calls w ++ stock_reads (good ++ [bad]))).
Proof.
  induction good as [|item good IH]; intros total w Hok Hbad.
  - cbn [app orders_check_loop_rev1 stock_reads map]. run. unfold stock_of.
    destruct (select_product (item_id bad) (products (db w)))
      as [|row rows] eqn:Hsel; [reflexivity|].
    now rewrite (not_in_stock_row _ _ _ _ Hbad Hsel).
  - inversion Hok as [|? ? Hitem Hgood]; subst.
    destruct (in_stock_row _ _ Hitem) as (row & rows & Hsel & Hlt).
    cbn [app orders_check_loop_rev1 stock_reads map]. run.
    rewrite Hsel, Hlt, IH by assumption.
    cbn [db calls]. now rewrite <- app_assoc.
Qed.

Section EarlierOrders.

Variable J : JsonCodec.

Lemma post_api_orders_rev1_well_formed rq items pm charge w :
  well_formed_order rq items pm ->
  post_api_orders_rev1 J rq charge w
  = (checked <- orders_check_loop_rev1 items 0%Q ;;
     match checked with
     | inl r => ret (Responded r)
     | inr total =>
         record (StripePaymentIntent (Math_round (total * 100)) pm) ;;;
         match charge with
         | inl _ => reply 500 (BodyError "Server error processing order")
         | inr _ =>
             orders_update_loop items ;;;
             o <- pg_insert_order (rq_email rq) (JSON_stringify J items)
                    total "paid" ;;
             sendConfirmationEmail (rq_email rq) (DetailsRow o) ;;;
             reply 200 (BodyOrder o)
         end
     end) w.
Proof.
  intros (Hi & Hp & He & Hne & Hpm). unfold post_api_orders_rev1.
  rewrite Hi, Hp, He, Hpm.
  destruct items as [|item items]; [contradiction | reflexivity].
Qed.

Lemma post_api_orders_rev2_well_formed rq items pm w :
  well_formed_order rq items pm ->
  post_api_orders_rev2 rq w
  = (checked <- orders_check_loop_rev1 items 0%Q ;;
     match checked with
     | inl r => ret (Responded r)
     | inr _ => reply 500 (BodyError "Server error processing order")
     end) w.
Proof.
  intros (Hi & Hp & He & Hne & Hpm). unfold post_api_orders_rev2.
  rewrite Hi, Hp, He, Hpm.
  destruct items as [|item items]; [contradiction | reflexivity].
Qed.

Lemma post_api_orders_rev1_stops rq good bad rest pm charge w :
  well_formed_order rq (good ++ bad :: rest) pm ->
  Forall (in_stock (db w)) good ->
  ~ in_stock (db w) bad ->
  post_api_orders_rev1 J rq charge w
  = (Responded
       (mkResponse 400
          (BodyError
             match stock_of (db w) (item_id bad) with
             | None => ("Product " ++ show_Z (item_id bad)
                        ++ " not found")%string
             | Some _ => ("Not enough stock for product "
                          ++ show_Z (item_id bad))%string
             end)),
     mkWorld (db w) (calls w ++ stock_reads (good ++ [bad]))).
Proof.
  intros Hwf Hgood Hbad.
  rewrite (post_api_orders_rev1_well_formed _ _ _ _ _ Hwf). unfold bind at 1.
  now rewrite orders_check_loop_rev1_stops.
Qed.

Lemma post_api_orders_rev1_refused rq items pm message w :
  well_formed_order rq items pm ->
  Forall (in_stock (db w)) items ->
  post_api_orders_rev1 J rq (inl message) w
  = (Responded (mkResponse 500 (BodyError "Server error processing order")),
     mkWorld (db w)
       (calls w ++ stock_reads items
        ++ [StripePaymentIntent
              (Math_round (ledger_total (db w) items * 100)) pm])).
Proof.
  intros Hwf Hok.
  rewrite (post_api_orders_rev1_well_formed _ _ _ _ _ Hwf). unfold bind at 1.
  rewrite orders_check_loop_rev1_passes by exact Hok. run.
  now rewrite <- app_assoc.
Qed.

Lemma post_api_orders_rev1_fulfilled rq items pm u w :
  well_formed_order rq items pm ->
  Forall (in_stock (db w)) items ->
  post_api_orders_rev1 J rq (inr u) w = post_api_orders J rq (inr u) w.
Proof.
  intros Hwf Hok.
  rewrite (post_api_orders_fulfilled J _ _ _ u w Hwf Hok).
  rewrite (post_api_orders_rev1_well_formed _ _ _ _ _ Hwf). unfold bind at 1.
  rewrite orders_check_loop_rev1_passes by exact Hok.
  unfold bind at 1. unfold record at 1. unfold bind at 1.
  rewrite orders_update_loop_world. run.
  unfold fulfil, order_row, ledger_total. cbn [o_total o_products].
  now rewrite <- !app_assoc.
Qed.

(** On a body whose [items] is an array of items or is missing, the
    direct-order handler of revisions one and three and that of the last
    revision make the same calls, leave the same tables and answer with the
    same status, and a fulfilled order gets the same answer. *)
Lemma post_api_orders_rev1_agrees rq charge w :
  snd (post_api_orders_rev1 J rq charge w) = snd (post_api_orders J rq charge w)
  /\
  outcome_status (fst (post_api_orders_rev1 J rq charge w))
  = outcome_status (fst (post_api_orders J rq charge w)) /\
  (outcome_status (fst (post_api_orders J rq charge w)) = Some 200 ->
   fst (post_api_orders_rev1 J rq charge w)
   = fst (post_api_orders J rq charge w)).
Proof.
  destruct (order_shape rq) as [Hbad|(items & pm & Hwf)].
  - destruct (post_api_orders_malformed J rq charge w Hbad) as (-> & -> & _).
    now repeat split.
  - destruct (first_out_of_stock (db w) items)
      as [Hok|(good & bad & rest & -> & Hgood & Hbad)].
    + destruct charge as [message|u].
      * rewrite (post_api_orders_rev1_refused _ _ _ message w Hwf Hok),
          (post_api_orders_refused J _ _ _ message w Hwf Hok).
        cbn [fst snd outcome_status status]. repeat split. discriminate.
      * rewrite (post_api_orders_rev1_fulfilled _ _ _ u w Hwf Hok).
        now repeat split.
    + rewrite (post_api_orders_rev1_stops _ _ _ _ _ charge w Hwf Hgood Hbad),
        (post_api_orders_stops J _ _ _ _ _ charge w Hwf Hgood Hbad).
      cbn [fst snd outcome_status status]. repeat split. discriminate.
Qed.

(** X7. The direct-order handler of revisions one and three and that of
    the last revision, on a body whose [items] is missing or falsy, an
    array of items, or a truthy value that cannot be iterated.  They always
    make the same calls and leave the same tables, and a fulfilled order
    gets the same answer.  They answer with the same status except on one
    kind of body: with an email and a payment method, and [items] a truthy
    value without a [length] (an object such as [{}], [true], a number),
    the earlier revisions pass their test [!items || items.length === 0],
    fail in the loop and answer 500, where the last revision answers 400
    on [!items?.length]. *)
Theorem earlier_direct_orders_agree b charge w :
  let earlier := post_api_orders_rev1_on_body J b charge w in
  let last := post_api_orders_on_body J b charge w in
  snd earlier = snd last /\
  (outcome_status (fst last) = Some 200 -> fst earlier = fst last) /\
  if truthy_string (ob_email b) && truthy_string (ob_paymentMethodId b)
     && match ob_items b with
        | ItemsOther None => true
        | _ => false
        end
  then outcome_status (fst earlier) = Some 500 /\
       outcome_status (fst last) = Some 400
  else outcome_status (fst earlier) = outcome_status (fst last).
Proof.
  unfold post_api_orders_rev1_on_body, post_api_orders_on_body.
  destruct (truthy_string (ob_email b)) eqn:He;
    cbn [negb orb andb]; [|now repeat split].
  destruct (ob_items b) as [|items|[n|]];
    cbn [items_falsy length_is_zero length_falsy iterated orb andb].
  - rewrite andb_false_r. now repeat split.
  - rewrite andb_false_r.
    destruct ((List.length items =? 0)%nat
              || negb (truthy_string (ob_paymentMethodId b)));
      [now repeat split|].
    destruct (post_api_orders_rev1_agrees (order_request b items) charge w)
      as (Hw & Hs & Hf).
    now repeat split.
  - rewrite andb_false_r.
    destruct ((n =? 0) || negb (truthy_string (ob_paymentMethodId b)));
      cbn [fst snd outcome_status status]; repeat split; discriminate.
  - rewrite andb_true_r.
    destruct (truthy_string (ob_paymentMethodId b));
      cbn [negb fst snd outcome_status status reply ret];
      repeat split; discriminate.
Qed.

(** X8. The direct-order handler of revision two never charges and never
    writes: building the argument of the charge fails on the unbound
    [pm_card_visa].  Whatever the request, the tables stay as they were, no
    charge and no mail is sent, and the answer is a 400 or a 500; a
    well-formed order whose items all pass the stock check is answered with
    the 500 after its [SELECT]s. *)
Theorem second_revision_orders_never_fulfil rq w :
  let after := snd (post_api_orders_rev2 rq w) in
  db after = db w /\
  charges (calls after) = charges (calls w) /\
  mails (calls after) = mails (calls w) /\
  (exists r, fst (post_api_orders_rev2 rq w) = Responded r /\
             (status r = 400 \/ status r = 500)) /\
  forall items pm,
    well_formed_order rq items pm ->
    Forall (in_stock (db w)) items ->
    post_api_orders_rev2 rq w
    = (Responded (mkResponse 500 (BodyError "Server error processing order")),
       mkWorld (db w) (calls w ++ stock_reads items)).
Proof.
  assert (Hpass : forall items pm,
            well_formed_order rq items pm ->
            Forall (in_stock (db w)) items ->
            post_api_orders_rev2 rq w
            = (Responded (mkResponse 500
                            (BodyError "Server error processing order")),
               mkWorld (db w) (calls w ++ stock_reads items))).
  { intros items pm Hwf Hok.
    rewrite (post_api_orders_rev2_well_formed _ _ _ w Hwf). unfold bind.
    now rewrite orders_check_loop_rev1_passes. }
  cbv zeta.
  cut (db (snd (post_api_orders_rev2 rq w)) = db w /\
       charges (calls (snd (post_api_orders_rev2 rq w))) = charges (calls w) /\
       mails (calls (snd (post_api_orders_rev2 rq w))) = mails (calls w) /\
       exists r, fst (post_api_orders_rev2 rq w) = Responded r /\
                 (status r = 400 \/ status r = 500)).
  { intros (H1 & H2 & H3 & H4). repeat split; assumption. }
  destruct (order_shape rq) as [Hbad|(items & pm & Hwf)].
  - destruct (post_api_orders_malformed J rq (inr tt) w Hbad) as (_ & _ & ->).
    repeat split; eexists; split; [reflexivity | tauto].
  - assert (Hreads : forall cs items0,
              charges (cs ++ stock_reads items0) = charges cs /\
              mails (cs ++ stock_reads items0) = mails cs).
    { intros cs items0.
      now rewrite charges_app, mails_app, charges_stock_reads,
        mails_stock_reads, !app_nil_r. }
    destruct (first_out_of_stock (db w) items)
      as [Hok|(good & bad & rest & -> & Hgood & Hbad)].
    + rewrite (Hpass _ _ Hwf Hok). cbn [fst snd db calls].
      destruct (Hreads (calls w) items) as [-> ->].
      repeat split; eexists; split; [reflexivity | tauto].
    + rewrite (post_api_orders_rev2_well_formed _ _ _ w Hwf). unfold bind.
      rewrite orders_check_loop_rev1_stops by assumption. run.
      destruct (Hreads (calls w) (good ++ [bad])) as [-> ->].
      repeat split; eexists; split; [reflexivity | tauto].
Qed.

End EarlierOrders.

(** ** Webhook deliveries, call by call *)

Section WebhookTraces.

Variable J : JsonCodec.

Lemma fallback_items_world session w :
  fallback_items J (metadata_items J session) (customer_email session) w
  = (candidate_items J session (db w),
     mkWorld (db w) (calls w ++ fallback_calls J session)).
Proof.
  unfold fallback_items, candidate_items, fallback_calls.
  destruct (customer_email session) as [e|];
    [|now rewrite app_nil_r, world_eta].
  destruct ((List.length (metadata_items J session) =? 0)%nat
            && truthy_string (Some e));
    [|now rewrite app_nil_r, world_eta].
  run.
  destruct (select_latest_products e (orders (db w))) as [|stored rest];
    [reflexivity|].
  now destruct (JSON_parse J stored).
Qed.

Lemma post_webhook_completed_world event w :
  ev_type event = "checkout.session.completed" ->
  let session := ev_data_object event in
  let email := customer_email session in
  let items := candidate_items J session (db w) in
  let total := ledger_total (db w) items in
  post_webhook J (inr event) w
  = (Responded (mkResponse 200 BodyReceived),
     mkWorld (fulfil J email items (db w))
       (calls w ++ [StripeConstructEvent] ++ fallback_calls J session
        ++ webhook_stock_calls (db w) items
        ++ [PgInsertOrder email (JSON_stringify J items) total "paid";
            SendMail email (DetailsItems items total)])).
Proof.
  intros Ht session email items total.
  unfold post_webhook. rewrite Ht, String.eqb_refl.
  unfold webhook_checkout_completed.
  unfold bind at 1. unfold record at 1. unfold bind at 1. unfold bind at 1.
  fold session. rewrite fallback_items_world. fold items.
  unfold bind at 1. rewrite webhook_stock_loop_world. run.
  unfold fulfil, order_row. fold total.
  now rewrite <- !app_assoc.
Qed.

Lemma handler_completed_world event w :
  ev_type event = "checkout.session.completed" ->
  let session := ev_data_object event in
  let email := customer_email session in
  let items := metadata_items J session in
  let total := ledger_total (db w) items in
  handler J "POST" (inr event) w
  = (Responded (mkResponse 200 BodyReceived),
     mkWorld (fulfil J email items (db w))
       (calls w ++ [StripeConstructEvent]
        ++ webhook_stock_calls (db w) items
        ++ [PgInsertOrder email (JSON_stringify J items) total "paid"])).
Proof.
  intros Ht session email items total.
  unfold handler. rewrite Ht, !String.eqb_refl. cbn [negb].
  unfold bind at 1. unfold record at 1. unfold bind at 1. unfold bind at 1.
  fold session. fold items.
  rewrite webhook_stock_loop_world. run.
  unfold fulfil, order_row. fold total.
  now rewrite <- !app_assoc.
Qed.

Lemma webhooks_other_event event w :
  ev_type event <> "checkout.session.completed" ->
  let acknowledged :=
    (Responded (mkResponse 200 BodyReceived),
     mkWorld (db w) (calls w ++ [StripeConstructEvent])) in
  post_webhook J (inr event) w = acknowledged /\
  handler J "POST" (inr event) w = acknowledged.
Proof.
  intros Ht acknowledged.
  unfold post_webhook, handler.
  destruct (String.eqb_spec (ev_type event) "checkout.session.completed")
    as [E|_]; [contradiction|].
  now split.
Qed.

(** X9. A verified delivery of a completed checkout to the webhook of the
    server file makes, in this order: the verification, the fallback
    [SELECT] when the manifest is empty and there is an email, one [SELECT]
    per item followed by an [UPDATE] when the product has a row, one
    [INSERT] and one mail; it answers [{received: true}].  The mail carries
    the items and the total of the row inserted. *)
Theorem webhook_delivery_trace event w :
  ev_type event = "checkout.session.completed" ->
  let session := ev_data_object event in
  let email := customer_email session in
  let items := candidate_items J session (db w) in
  let total := ledger_total (db w) items in
  post_webhook J (inr event) w
  = (Responded (mkResponse 200 BodyReceived),
     mkWorld (fulfil J email items (db w))
       (calls w ++ [StripeConstructEvent] ++ fallback_calls J session
        ++ webhook_stock_calls (db w) items
        ++ [PgInsertOrder email (JSON_stringify J items) total "paid";
            SendMail email (DetailsItems items total)])).
Proof. exact (post_webhook_completed_world event w). Qed.

(** X10. A verified delivery of a completed checkout to [api/webhook.js]
    makes the verification, one [SELECT] per manifest item followed by an
    [UPDATE] when the product has a row, and one [INSERT]; it consults no
    stored order and sends no mail. *)
Theorem api_webhook_delivery_trace event w :
  ev_type event = "checkout.session.completed" ->
  let session := ev_data_object event in
  let email := customer_email session in
  let items := metadata_items J session in
  let total := ledger_total (db w) items in
  handler J "POST" (inr event) w
  = (Responded (mkResponse 200 BodyReceived),
     mkWorld (fulfil J email items (db w))
       (calls w ++ [StripeConstructEvent]
        ++ webhook_stock_calls (db w) items
        ++ [PgInsertOrder email (JSON_stringify J items) total "paid"])) /\
  mails (calls (snd (handler J "POST" (inr event) w))) = mails (calls w).
Proof.
  intros Ht session email items total.
  rewrite (handler_completed_world event w Ht). split; [reflexivity|].
  cbn [snd calls].
  rewrite !mails_app, mails_webhook_stock_calls. cbn. now rewrite app_nil_r.
Qed.

(** X11. A verified event of a type other than
    [checkout.session.completed] is acknowledged with [{received: true}] by
    the webhook of the server file and by [api/webhook.js], and the
    verification is the only call: no query is sent, nothing is mailed and
    no table changes. *)
Theorem other_events_only_acknowledged event w :
  ev_type event <> "checkout.session.completed" ->
  let acknowledged :=
    (Responded (mkResponse 200 BodyReceived),
     mkWorld (db w) (calls w ++ [StripeConstructEvent])) in
  post_webhook J (inr event) w = acknowledged /\
  handler J "POST" (inr event) w = acknowledged.
Proof. exact (webhooks_other_event event w). Qed.

End WebhookTraces.

(** ** The fallback *)

(** [ORDER BY id DESC LIMIT 1] returns the row whose [id] is above every
    other's. *)
Lemma greatest_id_top o rows : forall best,
  (In o rows \/ best = Some o) ->
  (forall o', In o' rows -> o' = o \/ o_id o' < o_id o) ->
  (forall b, best = Some b -> b = o \/ o_id b < o_id o) ->
  greatest_id best rows = Some o.
Proof.
  induction rows as [|x rows IH]; intros best Hin Hrows Hbest.
  - destruct Hin as [[]|H]; exact H.
  - cbn [greatest_id].
    assert (Hx : x = o \/ o_id x < o_id o) by (apply Hrows; now left).
    assert (Hrows' : forall o', In o' rows -> o' = o \/ o_id o' < o_id o)
      by (intros o' H; apply Hrows; now right).
    destruct best as [b|].
    + specialize (Hbest b eq_refl).
      destruct (Z.ltb_spec (o_id b) (o_id x)) as [Hlt|Hge];
        apply IH; try exact Hrows'.
      * destruct Hin as [[Hxo|Hin]|Hin].
        -- right. now rewrite Hxo.
        -- now left.
        -- injection Hin as Hb. subst b.
           destruct Hx as [Hxo|Hx]; [right; now rewrite Hxo | lia].
      * intros b' Hb'. injection Hb' as <-. exact Hx.
      * destruct Hin as [[Hxo|Hin]|Hin].
        -- subst x. destruct Hbest as [Hb|Hb]; [right; now rewrite Hb | lia].
        -- now left.
        -- now right.
      * intros b' Hb'. injection Hb' as <-. exact Hbest.
    + apply IH; try exact Hrows'.
      * destruct Hin as [[Hxo|Hin]|Hin].
        -- right. now rewrite Hxo.
        -- now left.
        -- discriminate.
      * intros b' Hb'. injection Hb' as <-. exact Hx.
Qed.

Lemma select_latest_products_top email os o :
  In o os ->
  o_email o = Some email ->
  (forall o', In o' os -> o_email o' = Some email ->
              o' = o \/ o_id o' < o_id o) ->
  select_latest_products email os = [o_products o].
Proof.
  intros Hin He Htop. unfold select_latest_products.
  rewrite (greatest_id_top o); [reflexivity | | | discriminate].
  - left. apply filter_In. split; [exact Hin|].
    rewrite He. apply String.eqb_refl.
  - intros o' Ho'. apply filter_In in Ho'. destruct Ho' as [Ho' Hm].
    apply Htop; [exact Ho'|].
    destruct (o_email o') as [e|]; [|discriminate].
    apply String.eqb_eq in Hm. now subst.
Qed.

Section Fallback.

Variable J : JsonCodec.

(** X12. When a completed checkout reaches the webhook of the server file
    with a manifest that is absent, unparsable or empty, and some order is
    stored for its email, the items of the stored order with the greatest
    [id] for that email are fulfilled again: their stock is decremented once
    more and a new order row is added for them, whatever created the stored
    order. *)
Theorem fallback_repeats_latest_order event e o items w :
  ev_type event = "checkout.session.completed" ->
  metadata_items J (ev_data_object event) = [] ->
  customer_email (ev_data_object event) = Some e ->
  e <> "" ->
  In o (orders (db w)) ->
  o_email o = Some e ->
  (forall o', In o' (orders (db w)) -> o_email o' = Some e ->
              o' = o \/ o_id o' < o_id o) ->
  JSON_parse J (o_products o) = Some items ->
  let after := db (snd (post_webhook J (inr event) w)) in
  after = fulfil J (Some e) items (db w) /\
  (forall id,
     stock_of after id
     = option_map (fun s => s - demand items id) (stock_of (db w) id)) /\
  orders after = orders (db w) ++ [order_row J (Some e) items (db w)].
Proof.
  intros Ht Hm He Hne Hin Hoe Htop Hparse after. subst after.
  rewrite (post_webhook_completed_world J event w Ht). cbn [snd db].
  assert (Hc : candidate_items J (ev_data_object event) (db w) = items).
  { unfold candidate_items.
    rewrite Hm, He.
    cbn [List.length Nat.eqb andb truthy_string].
    destruct (String.eqb_spec e "") as [E|_]; [contradiction|]. cbn [negb].
    rewrite (select_latest_products_top e _ o Hin Hoe Htop).
    now rewrite Hparse. }
  rewrite Hc, He.
  split; [reflexivity|]. split; [intro id; apply stock_of_fulfil | reflexivity].
Qed.

(** X13. [api/webhook.js] has no fallback: a completed checkout whose
    manifest is absent, unparsable or empty adds one order row for the empty item list, total 0,
    status ['paid'], and leaves table [products] alone, whatever orders are
    stored; the only calls are the verification and the [INSERT]. *)
Theorem api_webhook_without_manifest event w :
  ev_type event = "checkout.session.completed" ->
  metadata_items J (ev_data_object event) = [] ->
  let email := customer_email (ev_data_object event) in
  handler J "POST" (inr event) w
  = (Responded (mkResponse 200 BodyReceived),
     mkWorld (mkDB (products (db w))
                   (orders (db w)
                    ++ [mkOrder (orders_id_seq (db w)) email
                          (JSON_stringify J []) 0%Q "paid"])
                   (orders_id_seq (db w) + 1))
             (calls w ++ [StripeConstructEvent;
                          PgInsertOrder email (JSON_stringify J []) 0%Q "paid"])).
Proof.
  intros Ht Hm email.
  rewrite (handler_completed_world J event w Ht).
  now rewrite Hm.
Qed.

End Fallback.

(** ** Items without a product row *)

Lemma price_of_none_select d id :
  price_of d id = None -> select_product id (products d) = [].
Proof.
  unfold price_of. now destruct (select_product id (products d)).
Qed.

Lemma unknown_products_facts d items :
  (forall item, In item items -> price_of d (item_id item) = None) ->
  decrement_all items (products d) = products d /\
  ledger_total d items = 0%Q /\
  webhook_stock_calls d items = stock_reads items.
Proof.
  unfold ledger_total. generalize 0%Q as total.
  induction items as [|item items IH]; intros total H; [now repeat split|].
  assert (Hi : price_of d (item_id item) = None) by (apply H; now left).
  destruct (IH total) as (Hd & Ht & Hc); [intros i Hin; apply H; now right|].
  cbn [decrement_all fold_left webhook_stock_calls flat_map stock_reads map].
  rewrite update_stock_absent by now apply price_of_none_select.
  unfold add_line at 2. rewrite Hi.
  repeat split; [exact Hd | exact Ht |].
  cbn [app]. f_equal. exact Hc.
Qed.

Lemma fallback_not_consulted J session d :
  metadata_items J session <> [] \/ truthy_string (customer_email session) = false ->
  candidate_items J session d = metadata_items J session /\
  fallback_calls J session = [].
Proof.
  unfold candidate_items, fallback_calls. intros [H|H].
  - destruct (customer_email session); [|now split].
    destruct (metadata_items J session); [contradiction | now split].
  - destruct (customer_email session) as [e|]; [|now split].
    rewrite H, andb_false_r. now split.
Qed.

Section WebhookEdges.

Variable J : JsonCodec.

(** X14. When no item of the manifest of a completed checkout has a row in
    table [products], both webhooks read each product once, change no
    stock, and still add an order row listing those items with total 0. *)
Theorem unknown_products_recorded_not_decremented event w :
  ev_type event = "checkout.session.completed" ->
  let session := ev_data_object event in
  let email := customer_email session in
  let items := metadata_items J session in
  items <> [] ->
  (forall item, In item items -> price_of (db w) (item_id item) = None) ->
  let after :=
    mkDB (products (db w))
         (orders (db w)
          ++ [mkOrder (orders_id_seq (db w)) email (JSON_stringify J items)
                0%Q "paid"])
         (orders_id_seq (db w) + 1) in
  snd (post_webhook J (inr event) w)
  = mkWorld after
      (calls w ++ [StripeConstructEvent] ++ stock_reads items
       ++ [PgInsertOrder email (JSON_stringify J items) 0%Q "paid";
           SendMail email (DetailsItems items 0%Q)]) /\
  snd (handler J "POST" (inr event) w)
  = mkWorld after
      (calls w ++ [StripeConstructEvent] ++ stock_reads items
       ++ [PgInsertOrder email (JSON_stringify J items) 0%Q "paid"]).
Proof.
  intros Ht session email items Hne Hnone after.
  destruct (unknown_products_facts (db w) items Hnone) as (Hd & Htot & Hc).
  destruct (fallback_not_consulted J session (db w) (or_introl Hne))
    as [Hcand Hfb].
  rewrite (post_webhook_completed_world J event w Ht),
    (handler_completed_world J event w Ht).
  fold session. fold items. cbn [snd]. rewrite Hcand, Hfb. fold items.
  unfold fulfil, order_row. rewrite Hd, Htot, Hc. now split.
Qed.

(** X15. Away from the fallback the webhook of the server file is
    [api/webhook.js] followed by a mail.  On a failed verification and on
    an event of another type the two do the same.  On a completed checkout
    whose manifest is not empty, or that carries no email, they give the
    same answer and leave the same tables, and the webhook of the server
    file makes the calls of [api/webhook.js] and then sends one mail, with
    the items and the total of the row that both insert. *)
Theorem server_webhook_is_api_webhook_then_mail verified w :
  (forall event,
     verified = inr event ->
     ev_type event = "checkout.session.completed" ->
     metadata_items J (ev_data_object event) <> [] \/
     truthy_string (customer_email (ev_data_object event)) = false) ->
  let served := post_webhook J verified w in
  let api := handler J "POST" verified w in
  fst served = fst api /\
  db (snd served) = db (snd api) /\
  calls (snd served)
  = calls (snd api)
    ++ match verified with
       | inr event =>
           if (ev_type event =? "checkout.session.completed")%string
           then
             let session := ev_data_object event in
             let items := metadata_items J session in
             [SendMail (customer_email session)
                (DetailsItems items (ledger_total (db w) items))]
           else []
       | inl _ => []
       end.
Proof.
  intros H served api. subst served api.
  destruct verified as [message|event];
    [cbn; now rewrite app_nil_r|].
  destruct (String.eqb_spec (ev_type event) "checkout.session.completed")
    as [Ht|Ht].
  - rewrite (post_webhook_completed_world J event w Ht),
      (handler_completed_world J event w Ht).
    destruct (fallback_not_consulted J (ev_data_object event) (db w)
                (H event eq_refl Ht)) as [-> ->].
    cbn [fst snd db calls]. split; [reflexivity|]. split; [reflexivity|].
    rewrite <- !app_assoc. reflexivity.
  - destruct (webhooks_other_event J event w Ht) as (-> & ->).
    cbn [fst snd db calls]. now rewrite app_nil_r.
Qed.

End WebhookEdges.

(** ** What no request changes *)

Lemma update_stock_keeps quantity id ps :
  map p_id (update_stock quantity id ps) = map p_id ps /\
  map p_price (update_stock quantity id ps) = map p_price ps.
Proof.
  unfold update_stock. induction ps as [|p ps [IH1 IH2]]; [now split|].
  cbn [map]. rewrite IH1, IH2. now destruct (p_id p =? id).
Qed.

Lemma decrement_all_keeps items : forall ps,
  map p_id (decrement_all items ps) = map p_id ps /\
  map p_price (decrement_all items ps) = map p_price ps.
Proof.
  induction items as [|item items IH]; intro ps; [now split|].
  cbn [decrement_all fold_left].
  destruct (IH (update_stock (item_quantity item) (item_id item) ps))
    as [H1 H2].
  destruct (update_stock_keeps (item_quantity item) (item_id item) ps)
    as [H3 H4].
  unfold decrement_all in *. now rewrite H1, H2, H3, H4.
Qed.

(** X16. No request to any handler adds, removes or reorders a row of table
    [products] or changes a price: after any sequence of requests the ids
    and the prices of the rows are what they were.  Only the stock column
    is ever written. *)
Theorem catalogue_rows_and_prices_fixed J FRONTEND_URL rs : forall w,
  map p_id (products (db (serve_all J FRONTEND_URL rs w)))
  = map p_id (products (db w)) /\
  map p_price (products (db (serve_all J FRONTEND_URL rs w)))
  = map p_price (products (db w)).
Proof.
  induction rs as [|r rs IH]; intro w; cbn [serve_all]; [now split|].
  destruct (IH (snd (serve J FRONTEND_URL r w))) as [H1 H2].
  rewrite H1, H2.
  destruct (serve_db J FRONTEND_URL r w) as [->|(email & items & ->)];
    [now split|].
  apply decrement_all_keeps.
Qed.

(** ** Repeated deliveries and repeated products *)

Lemma ledger_total_fulfil J email items items' d :
  ledger_total (fulfil J email items' d) items = ledger_total d items.
Proof.
  unfold ledger_total. apply add_line_ext.
  intro id. apply price_of_fulfil.
Qed.

Section Repeats.

Variable J : JsonCodec.
Variable FRONTEND_URL : string.

(** A request that fulfils the same [items] for [email] each time it is
    served adds, each time, a row with the same email, items, total and
    status. *)
Lemma served_repeatedly_rows r email items :
  (forall w, db (snd (serve J FRONTEND_URL r w)) = fulfil J email items (db w)) ->
  forall n w,
    exists added,
      orders (db (serve_all J FRONTEND_URL (repeat r n) w))
      = orders (db w) ++ added /\
      List.length added = n /\
      Forall (fun o => o_email o = email /\
                       o_products o = JSON_stringify J items /\
                       o_total o = ledger_total (db w) items /\
                       o_status o = "paid") added.
Proof.
  intros Hr n. induction n as [|n IH]; intro w; cbn [repeat serve_all].
  - exists []. rewrite app_nil_r. repeat split. constructor.
  - destruct (IH (snd (serve J FRONTEND_URL r w))) as (added & Ho & Hl & Hf).
    rewrite Hr in Ho, Hf. rewrite ledger_total_fulfil in Hf.
    exists (order_row J email items (db w) :: added).
    split; [|split].
    + rewrite Ho, orders_fulfil, <- app_assoc. reflexivity.
    + cbn [List.length]. now rewrite Hl.
    + constructor; [now repeat split | exact Hf].
Qed.

(** X17. The order rows that [n] deliveries of one completed checkout add
    are copies of each other: each has the event's email, the text of the
    manifest, the ledger total of the manifest at the first delivery, and
    status ['paid'].  (For the webhook of the server file, when the manifest
    is not empty.) *)
Theorem repeated_deliveries_add_equal_rows event n w :
  ev_type event = "checkout.session.completed" ->
  let session := ev_data_object event in
  let items := metadata_items J session in
  let copy o :=
    o_email o = customer_email session /\
    o_products o = JSON_stringify J items /\
    o_total o = ledger_total (db w) items /\
    o_status o = "paid" in
  (exists added,
     orders (db (serve_all J FRONTEND_URL
                   (repeat (ApiWebhook "POST" (inr event)) n) w))
     = orders (db w) ++ added /\
     List.length added = n /\ Forall copy added) /\
  (items <> [] ->
   exists added,
     orders (db (serve_all J FRONTEND_URL (repeat (Webhook (inr event)) n) w))
     = orders (db w) ++ added /\
     List.length added = n /\ Forall copy added).
Proof.
  intros Ht session items copy. split.
  - apply served_repeatedly_rows. intro w0.
    now apply api_webhook_completed_db.
  - intro Hne. apply served_repeatedly_rows. intro w0.
    rewrite webhook_completed_db by exact Ht.
    now rewrite candidate_items_embedded.
Qed.

(** X18. Two items of a direct order that name the same product are each
    checked against the stock read before any decrement: when each asks no
    more than that stock the order is fulfilled and the stock is lowered by
    both quantities, below zero when together they ask more than there
    is. *)
Theorem repeated_product_oversells rq id q1 q2 n1 n2 p1 p2 pm s u w :
  well_formed_order rq [mkItem id q1 n1 p1; mkItem id q2 n2 p2] pm ->
  stock_of (db w) id = Some s ->
  q1 <= s -> q2 <= s ->
  (exists o,
     fst (post_api_orders J rq (inr u) w)
     = Responded (mkResponse 200 (BodyOrder o))) /\
  stock_of (db (snd (post_api_orders J rq (inr u) w))) id = Some (s - q1 - q2).
Proof.
  intros Hwf Hs H1 H2.
  assert (Hok : Forall (in_stock (db w))
                  [mkItem id q1 n1 p1; mkItem id q2 n2 p2])
    by (repeat constructor; exists s; now split).
  rewrite (post_api_orders_fulfilled J _ _ _ u w Hwf Hok).
  split; [eexists; reflexivity|].
  cbn [snd db]. rewrite stock_of_fulfil, Hs.
  cbn [demand fold_right item_id item_quantity option_map].
  rewrite Z.eqb_refl. f_equal. lia.
Qed.

End Repeats.

(** ** Line items of a checkout session *)

Lemma number_or_zero q d : (q == 0)%Q -> number_or (Some q) d = d.
Proof.
  intro H. unfold number_or.
  now replace (Qeq_bool q 0) with true by (symmetry; now apply Qeq_bool_iff).
Qed.

(** X19. An item that comes without a price, or with price 0, is sent to
    the gateway with unit amount 0 by the last revision and with unit
    amount 1000 by the revision before; an item without a name, or with an
    empty one, is named ["Product <id>"].  The quantity is passed on as it
    is. *)
Theorem line_item_fallbacks i :
  (item_price i = None \/ exists q, item_price i = Some q /\ (q == 0)%Q) ->
  (li_unit_amount (line_item_of 0 i) = 0 /\
   li_unit_amount (line_item_of 10 i) = 1000) /\
  (item_name i = None \/ item_name i = Some "" ->
   li_name (line_item_of 0 i) = ("Product " ++ show_Z (item_id i))%string) /\
  li_quantity (line_item_of 0 i) = item_quantity i.
Proof.
  intro Hp. split; [|split; [|reflexivity]].
  - unfold line_item_of. cbn [li_unit_amount].
    destruct Hp as [->|(q & -> & Hq)].
    + split; reflexivity.
    + rewrite !number_or_zero by exact Hq. split; reflexivity.
  - intros [Hn|Hn]; unfold line_item_of; cbn [li_name]; now rewrite Hn.
Qed.

(** ** The further properties on the small shop *)

Lemma order_for_well_formed quantity :
  well_formed_order (Shop.order_for quantity) [mkItem 1 quantity None None]
    "pm_card_visa".
Proof. repeat split; discriminate. Qed.

Lemma two_in_stock :
  Forall (in_stock (db Shop.open_shop)) [mkItem 1 2 None None].
Proof. repeat constructor. exists 5. split; [reflexivity | cbn; lia]. Qed.

Lemma six_not_in_stock : ~ in_stock (db Shop.open_shop) (mkItem 1 6 None None).
Proof. intros (s & Hs & Hle). vm_compute in Hs. injection Hs as <-. cbn in Hle. lia. Qed.

Lemma malformed_order_rejected_untouched_witness :
  let refused :=
    (Responded (mkResponse 400 (BodyError "Missing required fields")),
     Shop.open_shop) in
  post_api_orders RefJson.codec Cases.empty_order (inr tt) Shop.open_shop
  = refused /\
  post_api_orders_rev1 RefJson.codec Cases.empty_order (inr tt) Shop.open_shop
  = refused /\
  post_api_orders_rev2 Cases.empty_order Shop.open_shop = refused.
Proof.
  apply (malformed_order_rejected_untouched RefJson.codec Cases.empty_order
           (inr tt) Shop.open_shop).
  right. left. reflexivity.
Defined.

Lemma direct_order_stops_at_first_failure_witness :
  post_api_orders RefJson.codec (Shop.order_for 6) (inr tt) Shop.open_shop
  = (Responded
       (mkResponse 400 (BodyError "Insufficient stock for product 1")),
     mkWorld (db Shop.open_shop) [PgSelectProduct 1]).
Proof.
  apply (direct_order_stops_at_first_failure RefJson.codec (Shop.order_for 6)
           [] (mkItem 1 6 None None) [] "pm_card_visa" (inr tt) Shop.open_shop).
  - exact (order_for_well_formed 6).
  - constructor.
  - exact six_not_in_stock.
Defined.

Lemma direct_order_charge_refused_witness :
  post_api_orders RefJson.codec (Shop.order_for 2)
    (inl "Your card was declined."%string) Shop.open_shop
  = (Responded (mkResponse 500 (BodyError "Error processing order")),
     mkWorld (db Shop.open_shop)
       [PgSelectProduct 1; StripePaymentIntent 4000 "pm_card_visa"]).
Proof.
  apply (direct_order_charge_refused RefJson.codec (Shop.order_for 2)
           [mkItem 1 2 None None] "pm_card_visa" "Your card was declined."
           Shop.open_shop).
  - exact (order_for_well_formed 2).
  - exact two_in_stock.
Defined.

Lemma direct_order_fulfilled_trace_witness :
  let o := order_row RefJson.codec (Some "ann@example.com")
             [mkItem 1 2 None None] (db Shop.open_shop) in
  post_api_orders RefJson.codec (Shop.order_for 2) (inr tt) Shop.open_shop
  = (Responded (mkResponse 200 (BodyOrder o)),
     mkWorld (fulfil RefJson.codec (Some "ann@example.com")
                [mkItem 1 2 None None] (db Shop.open_shop))
       [PgSelectProduct 1; StripePaymentIntent 4000 "pm_card_visa";
        PgUpdateStock 2 1;
        PgInsertOrder (Some "ann@example.com") (o_products o) (o_total o) "paid";
        SendMail (Some "ann@example.com") (DetailsRow o)]).
Proof.
  apply (direct_order_fulfilled_trace RefJson.codec (Shop.order_for 2)
           [mkItem 1 2 None None] "pm_card_visa" tt Shop.open_shop).
  - exact (order_for_well_formed 2).
  - exact two_in_stock.
Defined.

Lemma unfulfilled_order_leaves_no_trace_witness :
  (let after :=
     snd (post_api_orders RefJson.codec (Shop.order_for 6) (inr tt)
            Shop.open_shop) in
   db after = db Shop.open_shop /\
   mails (calls after) = mails (calls Shop.open_shop) /\
   (400 = 400 -> charges (calls after) = charges (calls Shop.open_shop))) /\
  (let after :=
     snd (post_api_orders RefJson.codec (Shop.order_for 2)
            (inl "Your card was declined.") Shop.open_shop) in
   db after = db Shop.open_shop /\
   mails (calls after) = mails (calls Shop.open_shop) /\
   (500 = 400 -> charges (calls after) = charges (calls Shop.open_shop))).
Proof.
  split.
  - apply (unfulfilled_order_leaves_no_trace RefJson.codec (Shop.order_for 6)
             (inr tt) Shop.open_shop
             (mkResponse 400 (BodyError "Insufficient stock for product 1"))).
    + reflexivity.
    + left. reflexivity.
  - apply (unfulfilled_order_leaves_no_trace RefJson.codec (Shop.order_for 2)
             (inl "Your card was declined.") Shop.open_shop
             (mkResponse 500 (BodyError "Error processing order"))).
    + reflexivity.
    + right. exists "Your card was declined."%string. reflexivity.
Defined.

Lemma fulfilled_order_stock_arithmetic_witness :
  let after :=
    db (snd (post_api_orders RefJson.codec (Shop.order_for 2) (inr tt)
               Shop.open_shop)) in
  stock_of after 1 = Some (5 - 2) /\
  price_of after 1 = price_of (db Shop.open_shop) 1 /\
  orders after
  = [order_row RefJson.codec (Some "ann@example.com") [mkItem 1 2 None None]
       (db Shop.open_shop)].
Proof.
  cbv zeta.
  destruct (fulfilled_order_stock_arithmetic RefJson.codec (Shop.order_for 2)
              [mkItem 1 2 None None] "pm_card_visa" tt Shop.open_shop
              (order_for_well_formed 2) two_in_stock)
    as (Hs & _ & _ & Hp & Ho).
  split; [exact (Hs 1)|]. split; [exact (Hp 1) | exact Ho].
Defined.

Lemma second_revision_orders_never_fulfil_witness :
  post_api_orders_rev2 (Shop.order_for 2) Shop.open_shop
  = (Responded (mkResponse 500 (BodyError "Server error processing order")),
     mkWorld (db Shop.open_shop) [PgSelectProduct 1]).
Proof.
  destruct (second_revision_orders_never_fulfil RefJson.codec
              (Shop.order_for 2) Shop.open_shop) as (_ & _ & _ & _ & H).
  apply (H [mkItem 1 2 None None] "pm_card_visa").
  - exact (order_for_well_formed 2).
  - exact two_in_stock.
Defined.

Lemma webhook_delivery_trace_witness :
  let event := Shop.checkout_completed [mkItem 1 2 None None] in
  let email := Some "ann@example.com"%string in
  let items := [mkItem 1 2 None None] in
  post_webhook RefJson.codec (inr event) Shop.open_shop
  = (Responded (mkResponse 200 BodyReceived),
     mkWorld (fulfil RefJson.codec email items (db Shop.open_shop))
       [StripeConstructEvent; PgSelectProduct 1; PgUpdateStock 2 1;
        PgInsertOrder email (RefJson.stringify items) (0 + (20 # 1) * 2)%Q
          "paid";
        SendMail email (DetailsItems items (0 + (20 # 1) * 2)%Q)]).
Proof.
  apply (webhook_delivery_trace RefJson.codec
           (Shop.checkout_completed [mkItem 1 2 None None]) Shop.open_shop).
  reflexivity.
Defined.

Lemma api_webhook_delivery_trace_witness :
  let event := Shop.checkout_completed [mkItem 1 2 None None] in
  let email := Some "ann@example.com"%string in
  let items := [mkItem 1 2 None None] in
  handler RefJson.codec "POST" (inr event) Shop.open_shop
  = (Responded (mkResponse 200 BodyReceived),
     mkWorld (fulfil RefJson.codec email items (db Shop.open_shop))
       [StripeConstructEvent; PgSelectProduct 1; PgUpdateStock 2 1;
        PgInsertOrder email (RefJson.stringify items) (0 + (20 # 1) * 2)%Q
          "paid"]) /\
  mails (calls (snd (handler RefJson.codec "POST" (inr event) Shop.open_shop)))
  = mails (calls Shop.open_shop).
Proof.
  apply (api_webhook_delivery_trace RefJson.codec
           (Shop.checkout_completed [mkItem 1 2 None None]) Shop.open_shop).
  reflexivity.
Defined.

Lemma other_events_only_acknowledged_witness :
  let acknowledged :=
    (Responded (mkResponse 200 BodyReceived),
     mkWorld (db Shop.open_shop) [StripeConstructEvent]) in
  post_webhook RefJson.codec (inr Cases.payment_succeeded) Shop.open_shop
  = acknowledged /\
  handler RefJson.codec "POST" (inr Cases.payment_succeeded) Shop.open_shop
  = acknowledged.
Proof.
  apply (other_events_only_acknowledged RefJson.codec Cases.payment_succeeded
           Shop.open_shop).
  discriminate.
Defined.

Lemma fallback_repeats_latest_order_witness :
  let after :=
    db (snd (post_webhook RefJson.codec (inr Shop.checkout_without_manifest)
               Cases.shop_with_order)) in
  after = fulfil RefJson.codec (Some "ann@example.com") [mkItem 1 2 None None]
            (db Cases.shop_with_order) /\
  stock_of after 1 = Some (5 - 2) /\
  orders after
  = [Cases.stored_order;
     order_row RefJson.codec (Some "ann@example.com") [mkItem 1 2 None None]
       (db Cases.shop_with_order)].
Proof.
  cbv zeta.
  destruct (fallback_repeats_latest_order RefJson.codec
              Shop.checkout_without_manifest "ann@example.com"
              Cases.stored_order [mkItem 1 2 None None] Cases.shop_with_order)
    as (Hd & Hs & Ho).
  - reflexivity.
  - reflexivity.
  - reflexivity.
  - discriminate.
  - now left.
  - reflexivity.
  - intros o' [<-|[]] _. now left.
  - vm_compute. reflexivity.
  - split; [exact Hd|]. split; [exact (Hs 1) | exact Ho].
Defined.

Lemma api_webhook_without_manifest_witness :
  let email := Some "ann@example.com"%string in
  handler RefJson.codec "POST" (inr Shop.checkout_without_manifest)
    Cases.shop_with_order
  = (Responded (mkResponse 200 BodyReceived),
     mkWorld (mkDB [mkProduct 1 (20 # 1) 5]
                   [Cases.stored_order; mkOrder 2 email "[]" 0%Q "paid"] 3)
             [StripeConstructEvent; PgInsertOrder email "[]" 0%Q "paid"]).
Proof.
  apply (api_webhook_without_manifest RefJson.codec
           Shop.checkout_without_manifest Cases.shop_with_order);
    reflexivity.
Defined.

Lemma unknown_products_recorded_not_decremented_witness :
  let event := Shop.checkout_completed [mkItem 9 1 None None] in
  let email := Some "ann@example.com"%string in
  let items := [mkItem 9 1 None None] in
  let after :=
    mkDB (products (db Shop.open_shop))
         [mkOrder 1 email (RefJson.stringify items) 0%Q "paid"] 2 in
  snd (post_webhook RefJson.codec (inr event) Shop.open_shop)
  = mkWorld after
      [StripeConstructEvent; PgSelectProduct 9;
       PgInsertOrder email (RefJson.stringify items) 0%Q "paid";
       SendMail email (DetailsItems items 0%Q)] /\
  snd (handler RefJson.codec "POST" (inr event) Shop.open_shop)
  = mkWorld after
      [StripeConstructEvent; PgSelectProduct 9;
       PgInsertOrder email (RefJson.stringify items) 0%Q "paid"].
Proof.
  apply (unknown_products_recorded_not_decremented RefJson.codec
           (Shop.checkout_completed [mkItem 9 1 None None]) Shop.open_shop).
  - reflexivity.
  - vm_compute. discriminate.
  - intros item Hin. vm_compute in Hin. destruct Hin as [<-|[]]. reflexivity.
Defined.

Lemma server_webhook_is_api_webhook_then_mail_witness :
  let items := [mkItem 1 2 None None] in
  let verified := inr (Shop.checkout_completed items) in
  let served := post_webhook RefJson.codec verified Shop.open_shop in
  let api := handler RefJson.codec "POST" verified Shop.open_shop in
  fst served = fst api /\
  db (snd served) = db (snd api) /\
  calls (snd served)
  = calls (snd api)
    ++ [SendMail (Some "ann@example.com")
          (DetailsItems items (ledger_total (db Shop.open_shop) items))].
Proof.
  apply (server_webhook_is_api_webhook_then_mail RefJson.codec
           (inr (Shop.checkout_completed [mkItem 1 2 None None]))
           Shop.open_shop).
  intros event [= <-] _. left. vm_compute. discriminate.
Defined.

Lemma repeated_deliveries_add_equal_rows_witness :
  let event := Shop.checkout_completed [mkItem 1 2 None None] in
  let copy o :=
    o_email o = Some "ann@example.com"%string /\
    o_products o = RefJson.stringify [mkItem 1 2 None None] /\
    o_total o = ledger_total (db Shop.open_shop) [mkItem 1 2 None None] /\
    o_status o = "paid"%string in
  (exists added,
     orders (db (serve_all RefJson.codec Shop.frontend
                   (repeat (ApiWebhook "POST" (inr event)) 3) Shop.open_shop))
     = orders (db Shop.open_shop) ++ added /\
     List.length added = 3%nat /\ Forall copy added) /\
  (exists added,
     orders (db (serve_all RefJson.codec Shop.frontend
                   (repeat (Webhook (inr event)) 3) Shop.open_shop))
     = orders (db Shop.open_shop) ++ added /\
     List.length added = 3%nat /\ Forall copy added).
Proof.
  intros event copy.
  destruct (repeated_deliveries_add_equal_rows RefJson.codec Shop.frontend
              event 3 Shop.open_shop eq_refl) as [Ha Hw].
  split; [exact Ha|]. apply Hw. vm_compute. discriminate.
Defined.

Lemma repeated_product_oversells_witness :
  (exists o,
     fst (post_api_orders RefJson.codec Cases.twice_three (inr tt)
            Shop.open_shop)
     = Responded (mkResponse 200 (BodyOrder o))) /\
  stock_of (db (snd (post_api_orders RefJson.codec Cases.twice_three (inr tt)
                       Shop.open_shop))) 1 = Some (5 - 3 - 3).
Proof.
  apply (repeated_product_oversells RefJson.codec Cases.twice_three 1 3 3
           None None None None "pm_card_visa" 5 tt Shop.open_shop).
  - repeat split; discriminate.
  - reflexivity.
  - lia.
  - lia.
Defined.

Lemma line_item_fallbacks_witness :
  let i := mkItem 7 2 (Some "") (Some (0 # 5)) in
  (li_unit_amount (line_item_of 0 i) = 0 /\
   li_unit_amount (line_item_of 10 i) = 1000) /\
  li_name (line_item_of 0 i) = "Product 7"%string /\
  li_quantity (line_item_of 0 i) = 2.
Proof.
  intro i.
  destruct (line_item_fallbacks i) as (Hu & Hn & Hq).
  - right. exists (0 # 5). split; reflexivity.
  - split; [exact Hu|]. split; [apply Hn; now right | exact Hq].
Defined.

(** * The stored total in the arithmetic of the platform *)

Lemma find_filter_head {X} (f : X -> bool) (l : list X) :
  find f l = match filter f l with x :: _ => Some x | [] => None end.
Proof.
  induction l as [|x l IH]; [reflexivity|].
  cbn [find filter]. now destruct (f x).
Qed.

Section NumericFacts.

Variable A : Arithmetic.
Variable J : JsonCodec.

Lemma numeric_ledger_price_select d id :
  Numeric.ledger_price A d id
  = match Numeric.select_product A id (Numeric.products d) with
    | row :: _ => Some (Numeric.p_price row)
    | [] => None
    end.
Proof.
  unfold Numeric.ledger_price, Numeric.select_product.
  rewrite find_filter_head.
  now destruct (filter _ (Numeric.products d)).
Qed.

Lemma numeric_select_update quantity id' id ps :
  Numeric.select_product A id (Numeric.update_stock A quantity id' ps)
  = Numeric.update_stock A quantity id' (Numeric.select_product A id ps).
Proof.
  unfold Numeric.select_product, Numeric.update_stock.
  induction ps as [|p ps IH]; simpl; [reflexivity|].
  destruct (Numeric.p_id p =? id') eqn:E'; simpl;
    destruct (Numeric.p_id p =? id) eqn:E; simpl; rewrite ?E', IH; reflexivity.
Qed.

Lemma numeric_ledger_price_update quantity id' d id :
  Numeric.ledger_price A
    (Numeric.mkDB (Numeric.update_stock A quantity id' (Numeric.products d))
       (Numeric.orders d) (Numeric.orders_id_seq d)) id
  = Numeric.ledger_price A d id.
Proof.
  rewrite !numeric_ledger_price_select. cbn [Numeric.products].
  rewrite numeric_select_update.
  destruct (Numeric.select_product A id (Numeric.products d)) as [|row rows];
    [reflexivity|].
  cbn. now destruct (Numeric.p_id row =? id').
Qed.

Lemma add_priced_ext d d' :
  (forall id, Numeric.ledger_price A d' id = Numeric.ledger_price A d id) ->
  forall items total,
    fold_left (Numeric.add_priced A d') items total = fold_left (Numeric.add_priced A d) items total.
Proof.
  intros H items. induction items as [|i items IH]; intro total;
    [reflexivity|].
  cbn [fold_left]. unfold Numeric.add_priced at 2 4. rewrite H. apply IH.
Qed.

Lemma numeric_ledger_sum_fold d items :
  Numeric.ledger_sum A d items = fold_left (Numeric.add_priced A d) items (num_zero A).
Proof. reflexivity. Qed.

(** The total reads [id] and [quantity] of an item and nothing else. *)
Lemma numeric_ledger_sum_id_quantity d items items' :
  map id_quantity items = map id_quantity items' ->
  Numeric.ledger_sum A d items = Numeric.ledger_sum A d items'.
Proof.
  rewrite !numeric_ledger_sum_fold. generalize (num_zero A) as total.
  revert items'. induction items as [|i items IH]; intros [|i' items'] total H;
    simpl in H; try discriminate; [reflexivity|].
  injection H as Hid Hq Hrest. cbn [fold_left].
  unfold Numeric.add_priced at 2 4. rewrite Hid, Hq. now apply IH.
Qed.

(** The webhooks' loop keeps table [orders] and every ledger price, and
    returns the sum of the items from the total it starts with. *)
Lemma numeric_webhook_stock_loop items : forall total d,
  let r := Numeric.webhook_stock_loop A items total d in
  Numeric.orders (snd r) = Numeric.orders d /\
  Numeric.orders_id_seq (snd r) = Numeric.orders_id_seq d /\
  (forall id, Numeric.ledger_price A (snd r) id = Numeric.ledger_price A d id)
  /\ fst r = fold_left (Numeric.add_priced A d) items total.
Proof.
  induction items as [|item rest IH]; intros total d; cbv zeta.
  - now repeat split.
  - cbn [Numeric.webhook_stock_loop fold_left].
    unfold Numeric.add_priced at 2. rewrite numeric_ledger_price_select.
    destruct (Numeric.select_product A (item_id item) (Numeric.products d))
      as [|row rows]; [apply IH|].
    match goal with
    | |- context [Numeric.webhook_stock_loop A rest ?t ?d1] =>
        destruct (IH t d1) as (Ho & Hs & Hp & Ht)
    end.
    assert (Hp0 := numeric_ledger_price_update (item_quantity item)
                     (item_id item) d).
    split; [exact Ho|]. split; [exact Hs|]. split.
    + intro id. now rewrite Hp, Hp0.
    + rewrite Ht. now apply add_priced_ext.
Qed.

(** The first loop of a direct order returns the sum of the items and only
    when every item has a ledger price. *)
Lemma numeric_orders_check_loop items : forall total d t,
  Numeric.orders_check_loop A items total d = inr t ->
  t = fold_left (Numeric.add_priced A d) items total /\
  Forall (fun item => Numeric.ledger_price A d (item_id item) <> None) items.
Proof.
  induction items as [|item rest IH]; intros total d t.
  - cbn. intros [= <-]. now split.
  - cbn [Numeric.orders_check_loop fold_left].
    unfold Numeric.add_priced at 2. rewrite numeric_ledger_price_select.
    destruct (Numeric.select_product A (item_id item) (Numeric.products d))
      as [|row rows] eqn:Hsel; [discriminate|].
    destruct (Numeric.p_stock row <? item_quantity item); [discriminate|].
    intro H. destruct (IH _ _ _ H) as [Ht Hf]. split; [exact Ht|].
    constructor; [|exact Hf].
    rewrite numeric_ledger_price_select, Hsel. discriminate.
Qed.

Lemma numeric_orders_update_loop items : forall d,
  Numeric.orders (Numeric.orders_update_loop A items d) = Numeric.orders d /\
  Numeric.orders_id_seq (Numeric.orders_update_loop A items d)
  = Numeric.orders_id_seq d /\
  (forall id,
     Numeric.ledger_price A (Numeric.orders_update_loop A items d) id
     = Numeric.ledger_price A d id).
Proof.
  induction items as [|item rest IH]; intro d; [now repeat split|].
  cbn [Numeric.orders_update_loop].
  match goal with
  | |- context [Numeric.orders_update_loop A rest ?d1] =>
      destruct (IH d1) as (Ho & Hs & Hp)
  end.
  split; [exact Ho|]. split; [exact Hs|].
  intro id. rewrite Hp. apply numeric_ledger_price_update.
Qed.

(** What serving a request does to table [orders]: nothing, or one row for
    some items, whose total is their sum on the tables before. *)
Lemma numeric_serve_rows r d :
  (forall id,
     Numeric.ledger_price A (snd (Numeric.serve A J r d)) id
     = Numeric.ledger_price A d id) /\
  (Numeric.orders (snd (Numeric.serve A J r d)) = Numeric.orders d \/
   exists email items,
     Numeric.orders (snd (Numeric.serve A J r d))
     = Numeric.orders d
       ++ [Numeric.mkOrder (Numeric.orders_id_seq d) email
             (JSON_stringify J items) (Numeric.ledger_sum A d items) "paid"]
     /\
     forall rq charge,
       r = Numeric.DirectOrder rq charge ->
       rq_items rq = Some items /\
       Forall (fun item => Numeric.ledger_price A d (item_id item) <> None)
              items).
Proof.
  assert (Hhook : forall email items,
            let r := Numeric.webhook_stock_loop A items (num_zero A) d in
            let d' := snd (Numeric.insert_order A email (JSON_stringify J items)
                             (fst r) "paid" (snd r)) in
            (forall id, Numeric.ledger_price A d' id = Numeric.ledger_price A d id)
            /\ Numeric.orders d'
               = Numeric.orders d
                 ++ [Numeric.mkOrder (Numeric.orders_id_seq d) email
                       (JSON_stringify J items) (Numeric.ledger_sum A d items)
                       "paid"]).
  { intros email items. cbv zeta.
    destruct (numeric_webhook_stock_loop items (num_zero A) d)
      as (Ho & Hs & Hp & Ht).
    cbn [Numeric.insert_order snd Numeric.orders].
    split; [exact Hp|]. now rewrite Ho, Hs, Ht. }
  destruct r as [rq charge|verified|method verified]; cbn [Numeric.serve].
  - unfold Numeric.post_api_orders.
    destruct (rq_items rq) as [items|] eqn:Hitems; [|now split; [|left]].
    destruct (rq_paymentMethodId rq) as [pm|]; [|now split; [|left]].
    destruct (negb (truthy_string (rq_email rq))
              || (List.length items =? 0)%nat
              || negb (truthy_string (Some pm))); [now split; [|left]|].
    destruct (Numeric.orders_check_loop A items (num_zero A) d) as [a|total]
      eqn:Hloop; [now split; [|left]|].
    destruct charge as [message|u]; [now split; [|left]|].
    destruct (numeric_orders_check_loop _ _ _ _ Hloop) as [Ht Hpriced].
    destruct (numeric_orders_update_loop items d) as (Ho & Hs & Hp).
    cbn [Numeric.insert_order snd Numeric.orders].
    split; [exact Hp|]. right. exists (rq_email rq), items.
    split; [now rewrite Ho, Hs, Ht|].
    intros rq' charge' [= <- <-]. now split.
  - unfold Numeric.post_webhook.
    destruct verified as [message|event]; [now split; [|left]|].
    destruct (ev_type event =? "checkout.session.completed")%string;
      [|now split; [|left]].
    match goal with
    | |- context [Numeric.webhook_stock_loop A ?items _ _] =>
        destruct (Hhook (customer_email (ev_data_object event)) items)
          as [Hp Ho];
        destruct (Numeric.webhook_stock_loop A items (num_zero A) d)
          as [total d1]
    end.
    cbn [fst snd] in *. split; [exact Hp|]. right.
    eexists; eexists. split; [exact Ho|]. discriminate.
  - unfold Numeric.handler.
    destruct (negb (method =? "POST")%string); [now split; [|left]|].
    destruct verified as [message|event]; [now split; [|left]|].
    destruct (ev_type event =? "checkout.session.completed")%string;
      [|now split; [|left]].
    match goal with
    | |- context [Numeric.webhook_stock_loop A ?items _ _] =>
        destruct (Hhook (customer_email (ev_data_object event)) items)
          as [Hp Ho];
        destruct (Numeric.webhook_stock_loop A items (num_zero A) d)
          as [total d1]
    end.
    cbn [fst snd] in *. split; [exact Hp|]. right.
    eexists; eexists. split; [exact Ho|]. discriminate.
Qed.

End NumericFacts.

(** C4, as the code has it.  Whatever the arithmetic of the platform, every
    order row a request adds stores, as its total, what the handler
    accumulates from [0] through the row's own line items in order: for each
    item whose product has a row in table [products], the ledger price of the
    product times the item's quantity is added; an item whose product has no
    row is stored with the others and adds nothing, and a direct order adds a
    row only when every item has a ledger price.  The prices are those of
    table [products] when the request arrives, which serving it does not
    change; the total is the same for any items with the same ids and
    quantities, whatever price the client wrote in them.  In doubles this
    accumulation is not the exact sum. *)
Theorem stored_total_is_handler_sum A J r d added :
  json_roundtrip J ->
  Numeric.orders (snd (Numeric.serve A J r d)) = Numeric.orders d ++ added ->
  Forall (fun o =>
            exists items,
              JSON_parse J (Numeric.o_products o) = Some items /\
              Numeric.o_total o = Numeric.ledger_sum A d items /\
              (forall items',
                 map id_quantity items' = map id_quantity items ->
                 Numeric.ledger_sum A d items' = Numeric.o_total o) /\
              (forall rq charge,
                 r = Numeric.DirectOrder rq charge ->
                 rq_items rq = Some items /\
                 Forall (fun item =>
                           Numeric.ledger_price A d (item_id item) <> None)
                        items))
         added /\
  forall id,
    Numeric.ledger_price A (snd (Numeric.serve A J r d)) id
    = Numeric.ledger_price A d id.
Proof.
  intros HJ Hadded.
  destruct (numeric_serve_rows A J r d) as [Hp [Ho|(email & items & Ho & Hd)]].
  - split; [|exact Hp]. rewrite Ho in Hadded.
    apply nothing_added in Hadded. subst added. constructor.
  - split; [|exact Hp]. rewrite Ho in Hadded.
    apply app_inv_head in Hadded. subst added.
    constructor; [|constructor].
    exists items. cbn [Numeric.o_products Numeric.o_total].
    split; [apply HJ|]. split; [reflexivity|]. split; [|exact Hd].
    intros items' H. now apply numeric_ledger_sum_id_quantity.
Qed.

Lemma stored_total_is_handler_sum_witness :
  let r := Numeric.DirectOrder Numeric.three_dimes (inr tt) in
  let row :=
    Numeric.mkOrder (A := binary64) 1 (Some "ann@example.com")
      (RefJson.stringify [mkItem 1 3 None None])
      (S754_finite false 5404319552844596 (-54)) "paid" in
  (json_roundtrip RefJson.codec /\
   Numeric.orders (snd (Numeric.serve binary64 RefJson.codec r Numeric.dime_shop))
   = Numeric.orders Numeric.dime_shop ++ [row]) /\
  Forall (fun o =>
            exists items,
              JSON_parse RefJson.codec (Numeric.o_products o) = Some items /\
              Numeric.o_total o
              = Numeric.ledger_sum binary64 Numeric.dime_shop items /\
              (forall items',
                 map id_quantity items' = map id_quantity items ->
                 Numeric.ledger_sum binary64 Numeric.dime_shop items'
                 = Numeric.o_total o) /\
              (forall rq charge,
                 r = Numeric.DirectOrder rq charge ->
                 rq_items rq = Some items /\
                 Forall (fun item =>
                           Numeric.ledger_price binary64 Numeric.dime_shop
                             (item_id item) <> None)
                        items))
         [row] /\
  forall id,
    Numeric.ledger_price binary64
      (snd (Numeric.serve binary64 RefJson.codec r Numeric.dime_shop)) id
    = Numeric.ledger_price binary64 Numeric.dime_shop id.
Proof.
  intros r row.
  assert (Hrows :
            Numeric.orders
              (snd (Numeric.serve binary64 RefJson.codec r Numeric.dime_shop))
            = Numeric.orders Numeric.dime_shop ++ [row])
    by (vm_compute; reflexivity).
  split; [split; [exact RefJsonFacts.roundtrip | exact Hrows]|].
  exact (stored_total_is_handler_sum binary64 RefJson.codec r Numeric.dime_shop
           [row] RefJsonFacts.roundtrip Hrows).
Defined.

(** C4, as stated, fails, in two ways.  Table [products] prices product 1
    at the double 0.1.  (1) A direct order of three, and a webhook delivery
    whose manifest asks three, each store the total 0.30000000000000004
    (5404319552844596 / 2^54): it is not three times the ledger price taken
    exactly, it is not 3/10, and it is not the double [3 / 10] either.
    (2) A webhook delivery whose manifest asks four of product 9, which has
    no row, and two of product 1 stores a row with both line items; product
    9 has no ledger price and the total is that of the two alone. *)
Lemma stored_total_not_exact_sum :
  let shop := Numeric.dime_shop in
  let ordered :=
    snd (Numeric.serve binary64 RefJson.codec
           (Numeric.DirectOrder Numeric.three_dimes (inr tt)) shop) in
  let delivered :=
    snd (Numeric.serve binary64 RefJson.codec
           (Numeric.Webhook
              (inr (Shop.checkout_completed [mkItem 1 3 None None]))) shop) in
  let partly :=
    snd (Numeric.serve binary64 RefJson.codec
           (Numeric.Webhook (inr Numeric.partly_unknown)) shop) in
  let stored := S754_finite false 5404319552844596 (-54) in
  (Numeric.ledger_price binary64 shop 1 = Some Numeric.tenth /\
   map (fun o => (Numeric.o_products o, Numeric.o_total o))
       (Numeric.orders ordered)
   = [(RefJson.stringify [mkItem 1 3 None None], stored)] /\
   map (fun o => (Numeric.o_products o, Numeric.o_total o))
       (Numeric.orders delivered)
   = [(RefJson.stringify [mkItem 1 3 None None], stored)] /\
   exact_value stored = Some (5404319552844596 # 2 ^ 54) /\
   exact_value Numeric.tenth = Some (7205759403792794 # 2 ^ 56) /\
   ~ (5404319552844596 # 2 ^ 54 == (7205759403792794 # 2 ^ 56) * 3)%Q /\
   ~ (5404319552844596 # 2 ^ 54 == 3 # 10)%Q /\
   Numeric.tenth
   = SFdiv 53 1024 (num_of_Z binary64 1) (num_of_Z binary64 10) /\
   stored <> SFdiv 53 1024 (num_of_Z binary64 3) (num_of_Z binary64 10)) /\
  (Numeric.ledger_price binary64 shop 9 = None /\
   map (fun o => (JSON_parse RefJson.codec (Numeric.o_products o),
                  Numeric.o_total o))
       (Numeric.orders partly)
   = [(Some [mkItem 9 4 None None; mkItem 1 2 None None],
       SFmul 53 1024 Numeric.tenth (binary_normalize 53 1024 2 0 false))]).
Proof.
  cbv zeta. split.
  - split; [reflexivity|]. split; [vm_compute; reflexivity|].
    split; [vm_compute; reflexivity|]. split; [reflexivity|].
    split; [reflexivity|].
    split; [intro H; vm_compute in H; discriminate|].
    split; [intro H; vm_compute in H; discriminate|].
    split; [vm_compute; reflexivity|].
    vm_compute. discriminate.
  - split; [reflexivity | vm_compute; reflexivity].
Qed.

(** ** The two embeddings at exact arithmetic *)

Lemma numeric_select_product id ps :
  Numeric.select_product exact id (map numeric_product ps)
  = map numeric_product (select_product id ps).
Proof.
  unfold Numeric.select_product, select_product.
  induction ps as [|p ps IH]; [reflexivity|].
  cbn [map filter numeric_product Numeric.p_id].
  destruct (p_id p =? id); cbn [map]; now rewrite IH.
Qed.

Lemma numeric_update_stock quantity id ps :
  Numeric.update_stock exact quantity id (map numeric_product ps)
  = map numeric_product (update_stock quantity id ps).
Proof.
  unfold Numeric.update_stock, update_stock. rewrite !map_map.
  apply map_ext. intro p. cbn [numeric_product Numeric.p_id].
  now destruct (p_id p =? id).
Qed.

Lemma numeric_greatest_id rows : forall best,
  Numeric.greatest_id exact (option_map numeric_order best)
    (map numeric_order rows)
  = option_map numeric_order (greatest_id best rows).
Proof.
  induction rows as [|o rows IH]; intro best; [reflexivity|].
  cbn [map Numeric.greatest_id greatest_id].
  destruct best as [b|]; cbn [option_map].
  - rewrite <- IH. cbn [numeric_order Numeric.o_id].
    now destruct (o_id b <? o_id o).
  - now rewrite <- IH.
Qed.

Lemma numeric_select_latest_products email os :
  Numeric.select_latest_products exact email (map numeric_order os)
  = select_latest_products email os.
Proof.
  unfold Numeric.select_latest_products, select_latest_products.
  replace (filter _ (map numeric_order os))
    with (map numeric_order
            (filter (fun o => match o_email o with
                              | Some e => (e =? email)%string
                              | None => false
                              end) os)).
  - rewrite (numeric_greatest_id _ None).
    now destruct (greatest_id None _).
  - induction os as [|o os IH]; [reflexivity|].
    cbn [map filter numeric_order Numeric.o_email].
    destruct (match o_email o with
              | Some e => (e =? email)%string
              | None => false
              end); cbn [map]; now rewrite IH.
Qed.

Section SameProgram.

Variable J : JsonCodec.
Variable FRONTEND_URL : string.

Lemma numeric_webhook_stock_loop_agrees items : forall total w,
  Numeric.webhook_stock_loop exact items total (numeric_db (db w))
  = (fst (webhook_stock_loop items total w),
     numeric_db (db (snd (webhook_stock_loop items total w)))).
Proof.
  induction items as [|item rest IH]; intros total w; [reflexivity|].
  cbn [Numeric.webhook_stock_loop webhook_stock_loop]. run.
  cbn [numeric_db Numeric.products Numeric.orders Numeric.orders_id_seq].
  rewrite numeric_select_product.
  destruct (select_product (item_id item) (products (db w))) as [|row rows].
  - cbn [map]. exact (IH total (mkWorld (db w) _)).
  - cbn [map numeric_product Numeric.p_price].
    rewrite numeric_update_stock.
    exact (IH _ (mkWorld (mkDB _ (orders (db w)) (orders_id_seq (db w))) _)).
Qed.

Lemma numeric_orders_check_loop_agrees items : forall total w,
  Numeric.orders_check_loop exact items total (numeric_db (db w))
  = match fst (orders_check_loop items total w) with
    | inl r => inl (numeric_answer r)
    | inr t => inr t
    end.
Proof.
  induction items as [|item rest IH]; intros total w; [reflexivity|].
  cbn [Numeric.orders_check_loop orders_check_loop]. run.
  cbn [numeric_db Numeric.products].
  rewrite numeric_select_product.
  destruct (select_product (item_id item) (products (db w))) as [|row rows];
    [reflexivity|].
  cbn [map numeric_product Numeric.p_stock Numeric.p_price].
  destruct (p_stock row <? item_quantity item); [reflexivity|].
  exact (IH _ (mkWorld (db w) _)).
Qed.

Lemma numeric_orders_update_loop_agrees items : forall w,
  Numeric.orders_update_loop exact items (numeric_db (db w))
  = numeric_db (db (snd (orders_update_loop items w))).
Proof.
  induction items as [|item rest IH]; intro w; [reflexivity|].
  cbn [Numeric.orders_update_loop orders_update_loop]. run.
  cbn [numeric_db Numeric.products Numeric.orders Numeric.orders_id_seq].
  rewrite numeric_update_stock.
  exact (IH (mkWorld (mkDB _ (orders (db w)) (orders_id_seq (db w))) _)).
Qed.

Lemma numeric_insert_order_agrees email prods total st d :
  Numeric.insert_order exact email prods total st (numeric_db d)
  = (numeric_order (fst (insert_order email prods total st d)),
     numeric_db (snd (insert_order email prods total st d))).
Proof.
  unfold Numeric.insert_order, insert_order, numeric_db.
  cbn [fst snd Numeric.products Numeric.orders Numeric.orders_id_seq
       products orders orders_id_seq].
  now rewrite map_app.
Qed.

(** With exact arithmetic the embedding of the fulfilment paths in the
    arithmetic of the platform is the first embedding: on every request the
    same answer and the same tables. *)
Lemma numeric_serve_agrees r w :
  Numeric.serve exact J r (numeric_db (db w))
  = (match fst (serve J FRONTEND_URL (numeric_request r) w) with
     | Responded a => numeric_answer a
     | Unhandled message => Numeric.AnswerText 500 message
     end,
     numeric_db (db (snd (serve J FRONTEND_URL (numeric_request r) w)))).
Proof.
  destruct r as [rq charge|verified|method verified];
    cbn [Numeric.serve numeric_request serve].
  - unfold Numeric.post_api_orders, post_api_orders.
    destruct (rq_items rq) as [items|]; [|reflexivity].
    destruct (rq_paymentMethodId rq) as [pm|]; [|reflexivity].
    destruct (negb (truthy_string (rq_email rq))
              || (List.length items =? 0)%nat
              || negb (truthy_string (Some pm))); [reflexivity|].
    rewrite numeric_orders_check_loop_agrees. change (num_zero exact) with 0%Q.
    pose proof (orders_check_loop_spec items 0%Q w) as [Hdb _].
    run.
    destruct (orders_check_loop items 0%Q w) as [[a|total] w1];
      cbn [fst snd] in *; [now rewrite Hdb|].
    destruct charge as [message|u]; [cbn [fst snd db]; now rewrite Hdb|].
    rewrite <- Hdb.
    pose proof (numeric_orders_update_loop_agrees items
                  (mkWorld (db w1) (calls w1 ++ [StripePaymentIntent
                     (Math_round (total * 100)) pm]))) as Hup.
    cbn [db] in Hup. rewrite Hup.
    destruct (orders_update_loop items _) as [[] w2]. cbn [snd].
    unfold Numeric.insert_order, numeric_db.
    cbn [fst snd Numeric.products Numeric.orders Numeric.orders_id_seq
         products orders orders_id_seq db].
    now rewrite map_app.
  - unfold Numeric.post_webhook, post_webhook. run.
    destruct verified as [message|event]; [reflexivity|].
    destruct (ev_type event =? "checkout.session.completed")%string;
      [|reflexivity].
    unfold webhook_checkout_completed. run.
    rewrite fallback_items_world. cbn [db calls].
    replace (Numeric.fallback_items exact J
               (metadata_items J (ev_data_object event))
               (customer_email (ev_data_object event)) (numeric_db (db w)))
      with (candidate_items J (ev_data_object event) (db w)).
    + match goal with
      | |- context [webhook_stock_loop ?items 0%Q ?w1] =>
          pose proof (numeric_webhook_stock_loop_agrees items 0%Q w1) as Hl;
          destruct (webhook_stock_loop items 0%Q w1) as [total w2]
      end.
      cbn [db fst snd] in Hl. change (num_zero exact) with 0%Q. rewrite Hl.
      unfold Numeric.insert_order, numeric_db.
      cbn [fst snd Numeric.products Numeric.orders Numeric.orders_id_seq
           products orders orders_id_seq db].
      now rewrite map_app.
    + unfold Numeric.fallback_items, candidate_items, numeric_db.
      cbn [Numeric.orders].
      destruct (customer_email (ev_data_object event)) as [e|]; [|reflexivity].
      now rewrite numeric_select_latest_products.
  - unfold Numeric.handler, handler.
    destruct (negb (method =? "POST")%string); [reflexivity|]. run.
    destruct verified as [message|event]; [reflexivity|].
    destruct (ev_type event =? "checkout.session.completed")%string;
      [|reflexivity].
    match goal with
    | |- context [webhook_stock_loop ?items 0%Q ?w1] =>
        pose proof (numeric_webhook_stock_loop_agrees items 0%Q w1) as Hl;
        destruct (webhook_stock_loop items 0%Q w1) as [total w2]
    end.
    cbn [db fst snd] in Hl. change (num_zero exact) with 0%Q. rewrite Hl.
    unfold Numeric.insert_order, numeric_db.
    cbn [fst snd Numeric.products Numeric.orders Numeric.orders_id_seq
         products orders orders_id_seq db].
    now rewrite map_app.
Qed.
End SameProgram.
